(** * import_msh.py: the GMSH reader [load] and its helper [skipUnknownCmd]

    A shallow embedding of the parsing and assembly code of
    [src/import_msh.py] (lines 47-57 and 163-340), followed by the
    properties of it that the specification states.

    Conventions of the embedding.
    - A Python [str] is a [string]; its characters are code points below 256.
    - The open text file is the list of the lines that [readline] will
      return, each with its line terminator; at end of file [readline]
      returns the empty string.
    - A Python [int] is a [Z].  A Python [float] is a binary64 number, in the
      representation [spec_float] of the standard library; [float(s)] rounds
      the decimal that [s] denotes to the nearest one, ties to even.
    - A [dict] with integer keys is a [gmap Z]; the [OrderedDict] of faces is
      an association list in insertion order.
    - Exceptions, the file object and standard output are threaded through
      the state-and-error monad [M].  The [assert] statements are executed
      (the interpreter does not run with [-O]).
    - [load] is the body of the function; [load_call] is the call as the
      caller sees it, with the release of the frame by the reference counting
      of CPython, which is what closes the file.
    - The calls into [bpy] (mesh creation, validation) are outside the
      embedding: the mesh is the triple handed to [from_pydata]. *)

From Stdlib Require Import ZArith Ascii String DecimalString List Lia Bool.
From Stdlib Require Import Sorted Permutation.
From Stdlib Require SpecFloat.
From stdpp Require Import base option list gmap.
Import ListNotations.

#[local] Open Scope string_scope.
#[local] Open Scope Z_scope.

(** ** Python string primitives *)

Module Py.

(** [str.isspace] on one character: the code points below 256 that Python
    treats as white space. *)
Definition is_space (c : ascii) : bool :=
  let n := N_of_ascii c in
  ((9 <=? n) && (n <=? 13) || (28 <=? n) && (n <=? 32)
   || (n =? 133) || (n =? 160))%N.

Definition nl : string := String "010" "".
Definition cr : string := String "013" "".

Definition is_empty (s : string) : bool :=
  match s with EmptyString => true | String _ _ => false end.

Fixpoint all_chars (p : ascii -> bool) (s : string) : bool :=
  match s with
  | EmptyString => true
  | String c r => p c && all_chars p r
  end.

(** [s.isspace()]: at least one character, and all of them white space. *)
Definition isspace (s : string) : bool :=
  negb (is_empty s) && all_chars is_space s.

Fixpoint lstrip_by (p : ascii -> bool) (s : string) : string :=
  match s with
  | EmptyString => EmptyString
  | String c r => if p c then lstrip_by p r else s
  end.

Fixpoint rstrip_by (p : ascii -> bool) (s : string) : string :=
  match s with
  | EmptyString => EmptyString
  | String c r =>
      let r' := rstrip_by p r in
      if is_empty r' && p c then EmptyString else String c r'
  end.

Definition strip_by (p : ascii -> bool) (s : string) : string :=
  rstrip_by p (lstrip_by p s).

Fixpoint mem_char (c : ascii) (chars : string) : bool :=
  match chars with
  | EmptyString => false
  | String d r => Ascii.eqb c d || mem_char c r
  end.

(** [s.rstrip()], [s.strip()] and [s.strip(chars)]. *)
Definition rstrip (s : string) : string := rstrip_by is_space s.
Definition strip (s : string) : string := strip_by is_space s.
Definition strip_chars (chars s : string) : string :=
  strip_by (fun c => mem_char c chars) s.

Definition snoc (s : string) (c : ascii) : string := s ++ String c "".

(** [s.split()]: the maximal runs of characters that are not white space. *)
Fixpoint split_aux (cur s : string) : list string :=
  match s with
  | EmptyString => if is_empty cur then [] else [cur]
  | String c r =>
      if is_space c
      then (if is_empty cur then split_aux "" r else cur :: split_aux "" r)
      else split_aux (snoc cur c) r
  end.
Definition split (s : string) : list string := split_aux "" s.

(** [s.split(" ")]: cut at every single space; never the empty list. *)
Fixpoint split_sp_aux (cur s : string) : list string :=
  match s with
  | EmptyString => [cur]
  | String c r =>
      if Ascii.eqb c " " then cur :: split_sp_aux "" r
      else split_sp_aux (snoc cur c) r
  end.
Definition split_sp (s : string) : list string := split_sp_aux "" s.

(** [sub in s]. *)
Fixpoint contains (sub s : string) : bool :=
  String.prefix sub s
  || match s with
     | EmptyString => false
     | String _ r => contains sub r
     end.

(** *** Numbers *)

Definition digit_of (c : ascii) : option Z :=
  let n := N_of_ascii c in
  if ((48 <=? n) && (n <=? 57))%N then Some (Z.of_N n - 48) else None.

Definition is_digit (c : ascii) : bool :=
  match digit_of c with Some _ => true | None => false end.

(** The longest prefix of decimal digits, in which single underscores may
    stand between two digits, and what follows it. *)
Fixpoint digitpart (s : string) : list Z * string :=
  match s with
  | EmptyString => ([], EmptyString)
  | String c r =>
      match digit_of c with
      | None => ([], s)
      | Some d =>
          match r with
          | String "_" r' =>
              match r' with
              | String c' _ =>
                  if is_digit c'
                  then let (ds, rest) := digitpart r' in (d :: ds, rest)
                  else ([d], r)
              | EmptyString => ([d], r)
              end
          | _ => let (ds, rest) := digitpart r in (d :: ds, rest)
          end
      end
  end.

Definition digits_value (ds : list Z) : Z :=
  fold_left (fun acc d => 10 * acc + d) ds 0.

(** An optional sign: [true] for a minus. *)
Definition sign (s : string) : bool * string :=
  match s with
  | String "-" r => (true, r)
  | String "+" r => (false, r)
  | _ => (false, s)
  end.

(** The white space that [int(s)] and [float(s)] drop at both ends of a
    [str]: the white space of ASCII in the sense of C (tab to carriage
    return, and the space) and the white space beyond ASCII, which the
    conversion first maps to a space.  The separators of code points 28 to
    31, white space for [str.isspace], [str.split] and [str.strip], are not
    dropped: with one of them at an end of [s] the conversion fails. *)
Definition is_number_space (c : ascii) : bool :=
  let n := N_of_ascii c in
  ((9 <=? n) && (n <=? 13) || (n =? 32) || (n =? 133) || (n =? 160))%N.

(** [int(s)] for a [str] argument; [None] stands for [ValueError].  The
    bound that recent interpreters put on the number of digits is left out. *)
Definition int (s : string) : option Z :=
  let (neg, body) := sign (strip_by is_number_space s) in
  match digitpart body with
  | ((_ :: _) as ds, EmptyString) =>
      Some (if neg then - digits_value ds else digits_value ds)
  | _ => None
  end.

(** What a float literal denotes: [Lnum neg m e] is (-1)^neg * m * 10^e. *)
Inductive literal : Type :=
  | Lnum (neg : bool) (m : Z) (e : Z)
  | Linf (neg : bool)
  | Lnan.

Definition lower (c : ascii) : ascii :=
  let n := N_of_ascii c in
  if ((65 <=? n) && (n <=? 90))%N then ascii_of_N (n + 32) else c.

Fixpoint lowercase (s : string) : string :=
  match s with
  | EmptyString => EmptyString
  | String c r => String (lower c) (lowercase r)
  end.

Definition exponent (s : string) : option Z :=
  match s with
  | EmptyString => Some 0
  | String c r =>
      if Ascii.eqb (lower c) "e" then
        let (neg, body) := sign r in
        match digitpart body with
        | ((_ :: _) as ds, EmptyString) =>
            Some (if neg then - digits_value ds else digits_value ds)
        | _ => None
        end
      else None
  end.

Definition decimal (neg : bool) (s : string) : option literal :=
  let (ip, r1) := digitpart s in
  let (fp, r2) :=
    match r1 with
    | String "." r => digitpart r
    | _ => ([], r1)
    end in
  match ip, fp with
  | [], [] => None
  | _, _ =>
      match exponent r2 with
      | Some e =>
          Some (Lnum neg (digits_value (ip ++ fp)) (e - Z.of_nat (length fp)))
      | None => None
      end
  end.

(** The literal that [float(s)] reads in a [str]. *)
Definition float_literal (s : string) : option literal :=
  let (neg, body) := sign (strip_by is_number_space s) in
  let w := lowercase body in
  if String.eqb w "inf" || String.eqb w "infinity" then Some (Linf neg)
  else if String.eqb w "nan" then Some Lnan
  else decimal neg body.

(** A Python [float]: a binary64 number, of precision 53 and with the
    infinities at exponent 1024. *)
Definition pyfloat : Type := SpecFloat.spec_float.

(** The binary64 number nearest to (-1)^neg * m * 10^e, ties to even: the
    quotient of [m * 10^e] by 1, or of [m] by [10^-e], with the position of
    the remainder, is rounded once.  What exceeds the largest finite number
    by half a unit in the last place or more becomes an infinity, what is
    at most half the smallest positive number becomes a zero, which keeps
    the sign. *)
Definition nearest (neg : bool) (m e : Z) : pyfloat :=
  let '(q, e2, l) :=
    SpecFloat.SFdiv_core_binary 53 1024
      (m * 10 ^ Z.max e 0) 0 (10 ^ Z.max (- e) 0) 0 in
  SpecFloat.binary_round_aux 53 1024 neg q e2 l.

Definition round (x : literal) : pyfloat :=
  match x with
  | Lnum neg m e => nearest neg m e
  | Linf neg => SpecFloat.S754_infinity neg
  | Lnan => SpecFloat.S754_nan
  end.

(** [float(s)] for a [str] argument; [None] stands for [ValueError]. *)
Definition float (s : string) : option pyfloat := round <$> float_literal s.

(** [x < 4.0]; 4.0 is 2^52 * 2^-50. *)
Definition lt_4 (x : pyfloat) : bool :=
  SpecFloat.SFltb x (SpecFloat.S754_finite false 4503599627370496 (-50)).

(** *** [shlex.split]

    The POSIX-mode tokenizer with [whitespace_split] set and no comment
    characters: white space is space, tab, CR and LF; both quote characters
    open a quoted part; a backslash escapes outside quotes and inside double
    quotes. *)

Inductive lexstate : Type :=
  | LSpace
  | LWord
  | LQuote (q : ascii)
  | LEscape (back : option ascii).

Definition sh_space (c : ascii) : bool := mem_char c (" " ++ String "009" cr ++ nl).
Definition sh_quote (c : ascii) : bool := Ascii.eqb c "'" || Ascii.eqb c "034".
Definition sh_escape (c : ascii) : bool := Ascii.eqb c "\".

Definition emit (tok : string) (quoted : bool) (k : option (list string))
  : option (list string) :=
  if is_empty tok && negb quoted then k else cons tok <$> k.

Fixpoint shlex_run (st : lexstate) (tok : string) (quoted : bool) (s : string)
  : option (list string) :=
  match s with
  | EmptyString =>
      match st with
      | LSpace => Some []
      | LWord => emit tok quoted (Some [])
      | LQuote _ => None
      | LEscape _ => None
      end
  | String c r =>
      match st with
      | LSpace =>
          if sh_space c then shlex_run LSpace "" false r
          else if sh_escape c then shlex_run (LEscape None) "" false r
          else if sh_quote c then shlex_run (LQuote c) "" false r
          else shlex_run LWord (String c "") false r
      | LWord =>
          if sh_space c then emit tok quoted (shlex_run LSpace "" false r)
          else if sh_quote c then shlex_run (LQuote c) tok quoted r
          else if sh_escape c then shlex_run (LEscape None) tok quoted r
          else shlex_run LWord (snoc tok c) quoted r
      | LQuote q =>
          if Ascii.eqb c q then shlex_run LWord tok true r
          else if sh_escape c && Ascii.eqb q "034"
          then shlex_run (LEscape (Some q)) tok true r
          else shlex_run (LQuote q) (snoc tok c) true r
      | LEscape (Some q) =>
          let tok' :=
            if negb (sh_escape c) && negb (Ascii.eqb c q)
            then snoc tok "\" else tok in
          shlex_run (LQuote q) (snoc tok' c) quoted r
      | LEscape None => shlex_run LWord (snoc tok c) quoted r
      end
  end.

(** [shlex.split(s)]; [None] stands for [ValueError]. *)
Definition shlex_split (s : string) : option (list string) :=
  shlex_run LSpace "" false s.

End Py.

(** ** Exceptions, the file object and standard output *)

Inductive exn : Type := ValueError | IndexError | KeyError | AssertionError.

Inductive result (A : Type) : Type :=
  | Ok (a : A)
  | Raise (e : exn).
Arguments Ok {A} a.
Arguments Raise {A} e.

Definition rbind {A B} (r : result A) (k : A -> result B) : result B :=
  match r with
  | Ok a => k a
  | Raise e => Raise e
  end.

Notation "'let?' x ':=' r 'in' k" := (rbind r (fun x => k))
  (at level 10, x name, r at level 100, k at level 200).
Notation "'let?' ' p ':=' r 'in' k" := (rbind r (fun x => match x with p => k end))
  (at level 10, p pattern, r at level 100, k at level 200).

(** What an option stands for when it is [None]. *)
Definition or_raise {A} (e : exn) (o : option A) : result A :=
  match o with
  | Some a => Ok a
  | None => Raise e
  end.

(** [s[i]], [int(s)], [float(s)] and [d[k]] with their exceptions. *)
Definition item {A} (s : list A) (i : nat) : result A := or_raise IndexError (s !! i).
Definition int (s : string) : result Z := or_raise ValueError (Py.int s).
Definition float (s : string) : result Py.pyfloat := or_raise ValueError (Py.float s).
Definition getitem {V} (d : gmap Z V) (k : Z) : result V := or_raise KeyError (d !! k).

(** The part of the world that [load] acts on: the lines of the file not yet
    read, whether the file object is open, and the lines printed so far.
    The file object is opened by [open] and closed by [close], which is
    called by its finaliser only: see [call]. *)
Record io : Type := mkIO {
  pending : list string;
  handle_open : bool;
  stdout : list string
}.

Definition M (A : Type) : Type := io -> result A * io.

Definition ret {A} (a : A) : M A := fun w => (Ok a, w).

Definition bind {A B} (m : M A) (k : A -> M B) : M B :=
  fun w =>
    match m w with
    | (Ok a, w') => k a w'
    | (Raise e, w') => (Raise e, w')
    end.

Notation "'let*' x ':=' m 'in' k" := (bind m (fun x => k))
  (at level 10, x name, m at level 100, k at level 200).
Notation "'let*' ' p ':=' m 'in' k" := (bind m (fun x => match x with p => k end))
  (at level 10, p pattern, m at level 100, k at level 200).

(** A computation that only can raise. *)
Definition liftR {A} (r : result A) : M A := fun w => (r, w).

(** [open(filepath, 'r')], [f.readline()], [f.close()] and [print(msg)]. *)
Definition open : M unit :=
  fun w => (Ok tt, mkIO (pending w) true (stdout w)).

Definition readline : M string :=
  fun w =>
    match pending w with
    | [] => (Ok "", w)
    | l :: rest => (Ok l, mkIO rest (handle_open w) (stdout w))
    end.

Definition close : M unit :=
  fun w => (Ok tt, mkIO (pending w) false (stdout w)).

Definition print (msg : string) : M unit :=
  fun w => (Ok tt, mkIO (pending w) (handle_open w) (stdout w ++ [msg])).

(** [for i in range(n): s = body(i, s)], the loop variables in [s]. *)
Fixpoint for_from {S : Type} (n : nat) (i : Z) (body : Z -> S -> M S) (s : S) : M S :=
  match n with
  | O => ret s
  | S n' => let* s' := body i s in for_from n' (i + 1) body s'
  end.
Definition for_range {S : Type} (n : Z) (body : Z -> S -> M S) (s : S) : M S :=
  for_from (Z.to_nat n) 0 body s.

Fixpoint rfor_from {S : Type} (n : nat) (i : Z) (body : Z -> S -> result S) (s : S)
  : result S :=
  match n with
  | O => Ok s
  | S n' => let? s' := body i s in rfor_from n' (i + 1) body s'
  end.
Definition rfor_range {S : Type} (n : Z) (body : Z -> S -> result S) (s : S)
  : result S :=
  rfor_from (Z.to_nat n) 0 body s.

(** A call of a function with the body [body], one local of which holds the
    only reference to the file object, as the caller sees it.  CPython counts
    references.  When the body returns, its frame is released and with it the
    last reference to the file object, whose finaliser closes the file before
    the caller goes on.  When an exception leaves the body, the traceback of
    the exception keeps the frame, and the file stays open while the exception
    propagates to the caller. *)
Definition call {A} (body : M A) : M A :=
  fun w =>
    match body w with
    | (Ok a, w') => (Ok a, (close w').2)
    | (Raise e, w') => (Raise e, w')
    end.

(** The state of the world when [load] is entered on a file with these lines. *)
Definition on_file (lines : list string) : io := mkIO lines false [].

(** ** The data of [load] *)

(** [ELEMENT_TYPES] (lines 47-57): the number of nodes of an element type. *)
Definition ELEMENT_TYPES (elem_type : Z) : option Z :=
  match elem_type with
  | 1 => Some 2
  | 2 => Some 3
  | 3 => Some 4
  | 4 => Some 4
  | 5 => Some 8
  | 6 => Some 6
  | 7 => Some 5
  | 15 => Some 0
  | _ => None
  end.

(** The dict stored for an element: the keys ["physical_entity"] and
    ["geo_entity"] are absent from the dicts of the version 4 grammar. *)
Record element : Type := mkElement {
  el_type : Z;
  el_physical_entity : option Z;
  el_geo_entity : option Z;
  el_nodes : list Z
}.

Definition coords : Type := Py.pyfloat * Py.pyfloat * Py.pyfloat.

(** dimension -> number -> name *)
Definition physical_names_init : gmap Z (gmap Z string) :=
  {[ 1 := ∅; 2 := ∅; 3 := ∅ ]}.

(** What [from_pydata] receives. *)
Record mesh : Type := mkMesh {
  mesh_verts : list coords;
  mesh_edges : list (list Z);
  mesh_faces : list (list Z)
}.

(** The local variables of [load] when parsing is over (line 293). *)
Record parsed : Type := mkParsed {
  version_number : Py.pyfloat;
  physical_names : gmap Z (gmap Z string);
  number_of_nodes : Z;
  nodes : gmap Z coords;
  number_of_elements : Z;
  elements : gmap Z element
}.

Definition crlf : string := Py.cr ++ Py.nl.

(** ** [skipUnknownCmd] (lines 168-173) *)

(** The [while] loop, by recursion on the lines left in the file: each turn
    tests [tmp] and then reads one line; at end of file [readline] gives the
    empty string, on which the test fails. *)
Fixpoint skip_loop (c tmp : string) (ls : list string) : list string :=
  if negb (Py.contains ("$End" ++ c) tmp) && (0 <? String.length tmp)%nat then
    match ls with
    | [] => []
    | l :: rest => skip_loop c (Py.strip_chars crlf l) rest
    end
  else ls.

Definition skip_message (c : string) : string :=
  "Skiping unknown command :'" ++ c ++ "' ".

Definition skipUnknownCmd (c : string) : M unit :=
  let* _ := print (skip_message c) in
  let c := Py.strip_chars "$" c in
  fun w => (Ok tt, mkIO (skip_loop c c (pending w)) (handle_open w) (stdout w)).

(** ** [load] (lines 175-340) *)

(** Lines 182-185: the format line, and the line of [$EndMeshFormat]. *)
Definition read_format : M Py.pyfloat :=
  let* l := readline in
  let s := Py.split l in
  let* version_number :=
    liftR (let? v := (let? t := item s 0 in float t) in
           let? _ := (let? t := item s 1 in int t) in
           let? _ := (let? t := item s 2 in int t) in
           Ok v) in
  let* _ := readline in
  ret version_number.

(** Lines 191-197: one turn of the loop over the physical names. *)
Definition physical_name_line (physical_names : gmap Z (gmap Z string))
  : M (gmap Z (gmap Z string)) :=
  let* line := readline in
  if Py.isspace line then ret physical_names
  else
    liftR (let? s := or_raise ValueError (Py.shlex_split line) in
           let? dim := (let? t := item s 0 in int t) in
           let? num := (let? t := item s 1 in int t) in
           let? name := item s 2 in
           let? names := getitem physical_names dim in
           Ok (<[dim := <[num := name]> names]> physical_names)).

(** Lines 186-200: the names and the command read after them. *)
Definition read_physical_names : M (gmap Z (gmap Z string) * string) :=
  let* l := readline in
  let cmd := Py.strip_chars crlf l in
  if String.eqb cmd "$PhysicalNames" then
    let* l := readline in
    let* number_of_names := liftR (int (Py.rstrip l)) in
    let* physical_names :=
      for_range number_of_names (fun _ => physical_name_line) physical_names_init in
    let* _ := readline in
    let* l := readline in
    ret (physical_names, Py.strip_chars crlf l)
  else ret (physical_names_init, cmd).

(** Lines 203-205: a command without [Nodes] in it is skipped. *)
Definition skip_to_nodes (cmd : string) : M string :=
  if negb (Py.contains "Nodes" cmd) then
    let* _ := skipUnknownCmd cmd in
    let* l := readline in
    ret (Py.strip_chars crlf l)
  else ret cmd.

(** [num, x, y, z = int(s[0]), float(s[1]), float(s[2]), float(s[3])]. *)
Definition node_record (line : string) : result (Z * coords) :=
  let s := Py.split line in
  let? num := (let? t := item s 0 in int t) in
  let? x := (let? t := item s 1 in float t) in
  let? y := (let? t := item s 2 in float t) in
  let? z := (let? t := item s 3 in float t) in
  Ok (num, (x, y, z)).

(** Lines 212-217: one turn of the loop over the nodes, version below 4. *)
Definition legacy_node_line (nodes : gmap Z coords) : M (gmap Z coords) :=
  let* line := readline in
  if Py.isspace line then ret nodes
  else
    let* '(num, xyz) := liftR (node_record line) in
    ret (<[num := xyz]> nodes).

(** Lines 228-231: one turn of the inner loop over the nodes, version 4. *)
Definition block_node_line (nodes : gmap Z coords) : M (gmap Z coords) :=
  let* line := readline in
  let* '(num, xyz) := liftR (node_record line) in
  ret (<[num := xyz]> nodes).

(** Lines 225-231: one entity block of nodes. *)
Definition node_block (nodes : gmap Z coords) : M (gmap Z coords) :=
  let* line := readline in
  let* num_nodes_in_entity :=
    liftR (let? t := or_raise IndexError (last (Py.split_sp line)) in int t) in
  for_range num_nodes_in_entity (fun _ => block_node_line) nodes.

(** Lines 207-235: [number_of_nodes] and [nodes]. *)
Definition read_nodes (version_number : Py.pyfloat) (cmd : string)
  : M (Z * gmap Z coords) :=
  if (String.eqb cmd "$ParametricNodes" || String.eqb cmd "$Nodes")
     && Py.lt_4 version_number then
    let* l := readline in
    let* number_of_nodes := liftR (int (Py.rstrip l)) in
    let* nodes := for_range number_of_nodes (fun _ => legacy_node_line) ∅ in
    let* _ := readline in
    ret (number_of_nodes, nodes)
  else if String.eqb cmd "$Nodes" then
    let* l := readline in
    let tmp := Py.split_sp (Py.rstrip l) in
    let* number_of_nodes := liftR (let? t := item tmp 1 in int t) in
    let* number_of_entity_block := liftR (let? t := item tmp 0 in int t) in
    let* nodes := for_range number_of_entity_block (fun _ => node_block) ∅ in
    let* _ := readline in
    ret (number_of_nodes, nodes)
  else
    let* _ := skipUnknownCmd cmd in
    ret (0, ∅).

(** [for k in range(n): l.append(int(s[j])); j += 1]: the integers read. *)
Fixpoint read_ints (s : list string) (j n : nat) : result (list Z) :=
  match n with
  | O => Ok []
  | S n' =>
      let? v := (let? t := item s j in int t) in
      let? vs := read_ints s (S j) n' in
      Ok (v :: vs)
  end.

Definition element_message (elem_type : Z) : string :=
  "Element " ++ NilZero.string_of_int (Z.to_int elem_type)
  ++ " not implemented".

(** Lines 261-267 and 285-291: the node numbers of an element, from token
    [j] on; the [KeyError] of an unknown type is caught and reported. *)
Definition read_elem_nodes (s : list string) (j : nat) (elem_type : Z)
  : M (list Z) :=
  match ELEMENT_TYPES elem_type with
  | Some k => liftR (read_ints s j (Z.to_nat k))
  | None => let* _ := print (element_message elem_type) in ret []
  end.

(** Lines 246-268: one turn of the loop over the elements, version below 4. *)
Definition legacy_element_line (elements : gmap Z element) : M (gmap Z element) :=
  let* line := readline in
  if Py.isspace line then ret elements
  else
    let s := Py.split line in
    let* num := liftR (let? t := item s 0 in int t) in
    let* elem_type := liftR (let? t := item s 1 in int t) in
    let* num_tags := liftR (let? t := item s 2 in int t) in
    let* tags := liftR (read_ints s 3 (Z.to_nat num_tags)) in
    let j := (3 + Z.to_nat num_tags)%nat in
    let* physical_entity := liftR (item tags 0) in
    let* geo_entity := liftR (item tags 1) in
    let* elem_nodes := read_elem_nodes s j elem_type in
    ret (<[num := mkElement elem_type (Some physical_entity) (Some geo_entity)
                            elem_nodes]> elements).

(** Lines 279-292: one turn of the inner loop over the elements, version 4. *)
Definition block_element_line (elem_type : Z) (elements : gmap Z element)
  : M (gmap Z element) :=
  let* line := readline in
  if Py.isspace line then ret elements
  else
    let s := Py.split line in
    let* num := liftR (let? t := item s 0 in int t) in
    let* elem_nodes := read_elem_nodes s 1 elem_type in
    ret (<[num := mkElement elem_type None None elem_nodes]> elements).

(** Lines 274-292: one entity block of elements. *)
Definition element_block (elements : gmap Z element) : M (gmap Z element) :=
  let* line := readline in
  let s := Py.split line in
  let* elem_type := liftR (let? t := item s 2 in int t) in
  let* number_of_elements_in_entity := liftR (let? t := item s 3 in int t) in
  for_range number_of_elements_in_entity
    (fun _ => block_element_line elem_type) elements.

(** Lines 241-292: [number_of_elements] and [elements]. *)
Definition read_elements (version_number : Py.pyfloat) : M (Z * gmap Z element) :=
  if Py.lt_4 version_number then
    let* l := readline in
    let* number_of_elements := liftR (int (Py.strip l)) in
    let* elements := for_range number_of_elements (fun _ => legacy_element_line) ∅ in
    ret (number_of_elements, elements)
  else
    let* l := readline in
    let tmp := Py.split_sp (Py.rstrip l) in
    let* number_of_entity_block := liftR (let? t := item tmp 0 in int t) in
    let* number_of_elements := liftR (let? t := item tmp 1 in int t) in
    let* elements := for_range number_of_entity_block (fun _ => element_block) ∅ in
    ret (number_of_elements, elements).

(** Lines 178-200: the file is opened and read up to the command that
    follows the format and the names; [None] is the early [return None] of
    line 181. *)
Definition read_header : M (option (Py.pyfloat * gmap Z (gmap Z string) * string)) :=
  let* _ := open in
  let* l := readline in
  let first_line := Py.rstrip l in
  if negb (String.eqb first_line "$MeshFormat") then ret None
  else
    let* version_number := read_format in
    let* '(physical_names, cmd) := read_physical_names in
    ret (Some (version_number, physical_names, cmd)).

(** Lines 203-292: from that command to the end of parsing. *)
Definition read_tables (version_number : Py.pyfloat)
    (physical_names : gmap Z (gmap Z string)) (cmd : string) : M parsed :=
  let* cmd := skip_to_nodes cmd in
  let* '(number_of_nodes, nodes) := read_nodes version_number cmd in
  let* _ := readline in
  let* '(number_of_elements, elements) := read_elements version_number in
  ret (mkParsed version_number physical_names number_of_nodes nodes
                number_of_elements elements).

(** Lines 178-292. *)
Definition parse : M (option parsed) :=
  let* header := read_header in
  match header with
  | None => ret None
  | Some (version_number, physical_names, cmd) =>
      let* p := read_tables version_number physical_names cmd in
      ret (Some p)
  end.

(** [sorted(face)] on integers. *)
Fixpoint insert_sorted (x : Z) (l : list Z) : list Z :=
  match l with
  | [] => [x]
  | y :: r => if x <=? y then x :: l else y :: insert_sorted x r
  end.
Definition sorted (l : list Z) : list Z := foldr insert_sorted [] l.

(** The [OrderedDict] [faces_dict]: key and face, in insertion order. *)
Definition ordered_dict : Type := list (list Z * list Z).

Fixpoint od_get (key : list Z) (d : ordered_dict) : option (list Z) :=
  match d with
  | [] => None
  | (k, v) :: r => if bool_decide (k = key) then Some v else od_get key r
  end.

(** [d[key] = v]: a new key goes to the end, a known key keeps its place. *)
Fixpoint od_set (key v : list Z) (d : ordered_dict) : ordered_dict :=
  match d with
  | [] => [(key, v)]
  | (k, v0) :: r =>
      if bool_decide (k = key) then (k, v) :: r else (k, v0) :: od_set key v r
  end.

(** [not d.get(key)]: true on [None] and on the empty tuple. *)
Definition not_get (key : list Z) (d : ordered_dict) : bool :=
  match od_get key d with
  | None => true
  | Some [] => true
  | Some (_ :: _) => false
  end.

(** [tuple([e - 1 for e in element["nodes"]])]. *)
Definition zero_based (element : element) : list Z :=
  map (fun e => e - 1) (el_nodes element).

(** The three sequences that the loop over the elements grows. *)
Definition assembly : Type := list (list Z) * ordered_dict * list string.

(** Lines 316-319: the name appended for a new face. *)
Definition surface_name (physical_names : gmap Z (gmap Z string)) (element : element)
  : result string :=
  let? names := getitem physical_names 2 in
  if (0 <? size names)%nat then
    let? physical_entity := or_raise KeyError (el_physical_entity element) in
    getitem names physical_entity
  else Ok "no_name".

(** Lines 309-319: the body of the loop, once [element] is fetched. *)
Definition element_step (physical_names : gmap Z (gmap Z string))
    (element : element) (acc : assembly) : result assembly :=
  let '(edges, faces_dict, surface_names) := acc in
  if el_type element =? 1 then
    Ok ((edges ++ [zero_based element])%list, faces_dict, surface_names)
  else if (el_type element =? 2) || (el_type element =? 3) then
    let face := zero_based element in
    let key := sorted face in
    if not_get key faces_dict then
      let faces_dict := od_set key face faces_dict in
      let? name := surface_name physical_names element in
      Ok (edges, faces_dict, (surface_names ++ [name])%list)
    else Ok acc
  else Ok acc.

(** Lines 307-319. *)
Definition assemble_elements (physical_names : gmap Z (gmap Z string))
    (elements : gmap Z element) (number_of_elements : Z) : result assembly :=
  rfor_range number_of_elements
    (fun i acc =>
       let? element := getitem elements (i + 1) in
       element_step physical_names element acc)
    ([], [], []).

(** Lines 304-305. *)
Definition assemble_verts (nodes : gmap Z coords) (number_of_nodes : Z)
  : result (list coords) :=
  rfor_range number_of_nodes
    (fun i verts => let? v := getitem nodes (i + 1) in Ok (verts ++ [v])%list) [].

(** Lines 296-340: from the parsed tables to the returned pair. *)
Definition build (p : parsed) : result (mesh * list string) :=
  if negb (Z.of_nat (size (nodes p)) =? number_of_nodes p) then Raise AssertionError
  else if negb (Z.of_nat (size (elements p)) =? number_of_elements p)
  then Raise AssertionError
  else
    let? verts := assemble_verts (nodes p) (number_of_nodes p) in
    let? '(edges, faces_dict, surface_names) :=
      assemble_elements (physical_names p) (elements p) (number_of_elements p) in
    let faces := map fst faces_dict in
    Ok (mkMesh verts edges faces, surface_names).

(** The body of [load]: what it returns or raises, and the state in which
    it ends.  The file object is referenced by the local [f] alone (line
    178): it is not returned, stored or passed on to anything that keeps it,
    and the body has no [close], no [with] and no [finally]. *)
Definition load : M (option (mesh * list string)) :=
  let* p := parse in
  match p with
  | None => ret None
  | Some p => let* r := liftR (build p) in ret (Some r)
  end.

(** [load(self, context, **keywords)] as its caller sees it (line 118). *)
Definition load_call : M (option (mesh * list string)) := call load.

(** A file written line by line, every line ended by a line feed. *)
Definition text (lines : list string) : list string :=
  map (fun l => l ++ Py.nl) lines.

(** ** Vocabulary of the statements *)

Definition is_line (element : element) : bool := el_type element =? 1.
Definition is_face (element : element) : bool :=
  (el_type element =? 2) || (el_type element =? 3).

(** The key under which a face is stored. *)
Definition face_key (element : element) : list Z := sorted (zero_based element).

(** [elements[i+1], ..., elements[i+n]], when all of them exist. *)
Fixpoint elements_from (elements : gmap Z element) (n : nat) (i : Z)
  : option (list element) :=
  match n with
  | O => Some []
  | S n' =>
      match elements !! (i + 1), elements_from elements n' (i + 1) with
      | Some el, Some els => Some (el :: els)
      | _, _ => None
      end
  end.

(** The elements visited by the loop of line 307, in its order. *)
Definition elements_in_order (elements : gmap Z element) (number_of_elements : Z)
  : option (list element) :=
  elements_from elements (Z.to_nat number_of_elements) 0.

(** The triangles and quadrangles whose key no earlier one (and none of
    [seen]) has. *)
Fixpoint first_seen (seen : list (list Z)) (els : list element) : list element :=
  match els with
  | [] => []
  | el :: rest =>
      if is_face el then
        if bool_decide (face_key el ∈ seen) then first_seen seen rest
        else el :: first_seen (face_key el :: seen) rest
      else first_seen seen rest
  end.

(** The loop of line 307 over a given sequence of elements. *)
Fixpoint steps (physical_names : gmap Z (gmap Z string)) (els : list element)
    (acc : assembly) : result assembly :=
  match els with
  | [] => Ok acc
  | el :: rest =>
      let? acc' := element_step physical_names el acc in
      steps physical_names rest acc'
  end.

(** What the parser guarantees of a stored element: as many nodes as its
    type has, none for a type that [ELEMENT_TYPES] lacks. *)
Definition element_wf (element : element) : Prop :=
  match ELEMENT_TYPES (el_type element) with
  | Some k => length (el_nodes element) = Z.to_nat k
  | None => el_nodes element = []
  end.

Definition elements_wf (elements : gmap Z element) : Prop :=
  map_Forall (fun _ el => element_wf el) elements.

(** A line of a skipped section that does not end the skipping. *)
Definition passed_over (name line : string) : Prop :=
  Py.strip_chars crlf line <> ""
  /\ Py.contains ("$End" ++ name) (Py.strip_chars crlf line) = false.

(** A triangle or quadrangle has at least one node. *)
Definition nonempty_face (el : element) : Prop :=
  is_face el = true -> el_nodes el <> [].

(** No stored face is the empty tuple. *)
Definition stored_nonempty (d : ordered_dict) : Prop :=
  Forall (fun kv : list Z * list Z => kv.2 <> []) d.

(** A computation that leaves the file object as open or closed as it was. *)
Definition keeps_handle {A} (m : M A) : Prop :=
  forall w, handle_open (m w).2 = handle_open w.

(** A computation that reads what was printed before it no more than to
    append to it: its result, the lines it leaves in the file and the state
    of the file object do not depend on the earlier output. *)
Definition frames {A} (m : M A) : Prop :=
  forall (p : list string) (h : bool),
    exists (r : result A) (p' : list string) (h' : bool) (d : list string),
      forall o : list string, m (mkIO p h o) = (r, mkIO p' h' (o ++ d)).

(** ** Sample files *)

Module Samples.

Definition header2 : list string := ["$MeshFormat"; "2.2 0 8"; "$EndMeshFormat"].
Definition header4 : list string := ["$MeshFormat"; "4.1 0 8"; "$EndMeshFormat"].
Definition top_name : list string :=
  ["$PhysicalNames"; "1"; "2 1 top"; "$EndPhysicalNames"].
Definition two_names : list string :=
  ["$PhysicalNames"; "2"; "2 1 top"; "2 2 bottom"; "$EndPhysicalNames"].
Definition three_nodes : list string :=
  ["$Nodes"; "3"; "1 0 0 0"; "2 1 0 0"; "3 0 1 0"; "$EndNodes"].

(** Version 2: the triangle 3 2 1, then the same triangle as 1 2 3. *)
Definition reversed_then_direct : list string :=
  text (header2 ++ three_nodes
        ++ ["$Elements"; "2"; "1 2 2 0 1 3 2 1"; "2 2 2 0 1 1 2 3"; "$EndElements"]).

(** Version 2: one named triangle. *)
Definition legacy_with_names : list string :=
  text (header2 ++ top_name ++ three_nodes
        ++ ["$Elements"; "1"; "1 2 2 1 1 1 2 3"; "$EndElements"]).

(** Version 4.1: the same mesh in entity blocks, with the same name. *)
Definition block_with_names : list string :=
  text (header4 ++ top_name
        ++ ["$Nodes"; "1 3 1 3"; "2 1 0 3"; "1 0 0 0"; "2 1 0 0"; "3 0 1 0";
            "$EndNodes"]
        ++ ["$Elements"; "1 1 1 1"; "2 1 2 1"; "1 1 2 3"; "$EndElements"]).

(** Version 2: two nodes declared, a blank line between their records. *)
Definition blank_in_nodes : list string :=
  text (header2
        ++ ["$Nodes"; "2"; "1 0 0 0"; ""; "2 1 0 0"; "$EndNodes"]
        ++ ["$Elements"; "0"; "$EndElements"]).

(** Version 2: a section whose body mentions its own end marker. *)
Definition marker_inside_line : list string :=
  text (header2
        ++ ["$Comments"; "see $EndComments below"; "more"; "$EndComments"]
        ++ three_nodes
        ++ ["$Elements"; "1"; "1 2 2 0 1 1 2 3"; "$EndElements"]).

(** Version 2: a section that [load] does not know, before the nodes. *)
Definition comments_then_nodes : list string :=
  text (header2
        ++ ["$Comments"; "made by hand"; "twice"; "$EndComments"]
        ++ three_nodes
        ++ ["$Elements"; "1"; "1 2 2 0 1 1 2 3"; "$EndElements"]).

(** Version 2: two triangles on the same nodes, under different names. *)
Definition same_face_two_names : list string :=
  text (header2 ++ two_names ++ three_nodes
        ++ ["$Elements"; "2"; "1 2 2 1 1 1 2 3"; "2 2 2 2 1 3 2 1"; "$EndElements"]).

(** Version 2: two node records declared, both numbered 1. *)
Definition duplicate_node_ids : list string :=
  text (header2
        ++ ["$Nodes"; "2"; "1 0 0 0"; "1 1 0 0"; "$EndNodes"]
        ++ ["$Elements"; "0"; "$EndElements"]).

(** Version 2: the same line three times, once reversed. *)
Definition three_lines : list string :=
  text (header2 ++ three_nodes
        ++ ["$Elements"; "3"; "1 1 2 0 1 1 2"; "2 1 2 0 1 2 1"; "3 1 2 0 1 1 2";
            "$EndElements"]).

(** Not a mesh file. *)
Definition not_a_mesh : list string := text ["solid cube"; "endsolid cube"].

(** A file that ends after its first line. *)
Definition only_MeshFormat : list string := text ["$MeshFormat"].

(** Version 2: a section that [load] does not know, between the nodes and the
    elements. *)
Definition comments_before_elements : list string :=
  text (header2 ++ three_nodes
        ++ ["$Comments"; "made by hand"; "$EndComments"]
        ++ ["$Elements"; "1"; "1 2 2 0 1 1 2 3"; "$EndElements"]).

(** Version 2: two such sections in a row, before the nodes. *)
Definition two_unknown_sections : list string :=
  text (header2
        ++ ["$Comments"; "made by hand"; "$EndComments"]
        ++ ["$Remarks"; "twice"; "$EndRemarks"]
        ++ three_nodes
        ++ ["$Elements"; "1"; "1 2 2 0 1 1 2 3"; "$EndElements"]).

(** Version 2: such a section before the names. *)
Definition comments_before_names : list string :=
  text (header2
        ++ ["$Comments"; "made by hand"; "$EndComments"]
        ++ top_name ++ three_nodes
        ++ ["$Elements"; "1"; "1 2 2 1 1 1 2 3"; "$EndElements"]).

(** Version 2: such a section before the nodes, with an empty line in it. *)
Definition empty_line_in_comments : list string :=
  text (header2
        ++ ["$Comments"; "made by hand"; ""; "twice"; "$EndComments"]
        ++ three_nodes
        ++ ["$Elements"; "1"; "1 2 2 0 1 1 2 3"; "$EndElements"]).

(** Version 2: such a section with [Nodes] in its name, before the nodes. *)
Definition ghost_nodes_section : list string :=
  text (header2
        ++ ["$GhostNodes"; "made by hand"; "$EndGhostNodes"]
        ++ three_nodes
        ++ ["$Elements"; "1"; "1 2 2 0 1 1 2 3"; "$EndElements"]).

(** Version 2: a section whose token is the [$] alone, before the nodes. *)
Definition nameless_section : list string :=
  text (header2
        ++ ["$"; "made by hand"; "$End"]
        ++ three_nodes
        ++ ["$Elements"; "1"; "1 2 2 0 1 1 2 3"; "$EndElements"]).

(** The two triangles of [same_face_two_names], as stored. *)
Definition two_triangles : gmap Z element :=
  {[ 1 := mkElement 2 (Some 1) (Some 1) [1; 2; 3];
     2 := mkElement 2 (Some 2) (Some 1) [3; 2; 1] ]}.

Definition names_top_bottom : gmap Z (gmap Z string) :=
  {[ 1 := ∅; 2 := {[ 1 := "top"; 2 := "bottom" ]}; 3 := ∅ ]}.

End Samples.

(** ** More vocabulary *)

(** A result that is not an exception. *)
Definition is_Ok {A} (r : result A) : Prop := exists a, r = Ok a.

(** The keys of [physical_names]. *)
Definition dimensions : gset Z := {[ 1; 2; 3 ]}.

(** A line of the version 2 node section that is not blank and reads as the
    record [r]. *)
Definition well_formed_node_line (line : string) (r : Z * coords) : Prop :=
  Py.isspace line = false /\ node_record line = Ok r.

(** A line of the version 2 element section that is not blank and whose
    tokens are the number of [r], its type, the number of its tags, at least
    two tags and the nodes that its type has; more tokens may follow. *)
Definition well_formed_element_line (line : string) (r : Z * element) : Prop :=
  Py.isspace line = false
  /\ exists (pe ge k : Z) (partitions : list Z),
       el_physical_entity r.2 = Some pe
       /\ el_geo_entity r.2 = Some ge
       /\ ELEMENT_TYPES (el_type r.2) = Some k
       /\ length (el_nodes r.2) = Z.to_nat k
       /\ Forall2 (fun t z => Py.int t = Some z)
            (take (5 + length partitions + length (el_nodes r.2)) (Py.split line))
            (r.1 :: el_type r.2 :: Z.of_nat (2 + length partitions)
                 :: pe :: ge :: partitions ++ el_nodes r.2).

(** Elements stored without ["physical_entity"]. *)
Definition untagged (elements : gmap Z element) : Prop :=
  map_Forall (fun _ el => el_physical_entity el = None) elements.

(** The two messages that [load] and [skipUnknownCmd] print. *)
Definition diagnostic (msg : string) : Prop :=
  (exists c : string, msg = skip_message c)
  \/ (exists elem_type : Z,
        ELEMENT_TYPES elem_type = None /\ msg = element_message elem_type).

(** A computation that only appends such messages to the output. *)
Definition only_diagnostics {A} (m : M A) : Prop :=
  forall w, exists d, stdout (m w).2 = (stdout w ++ d)%list /\ Forall diagnostic d.

(** ** [contains] (lines 163-166) *)

(** [set(face)] is a [gset Z]; the list [d] of the source is the list of the
    pairs [(face, f)] for the faces [f] with the same set of nodes. *)
Definition contains (faces : list (list Z)) (face : list Z) : bool :=
  let s : gset Z := list_to_set face in
  let d := map (fun f => (face, f))
             (List.filter (fun f => bool_decide (s = list_to_set f)) faces) in
  negb (length d =? 0)%nat.

Module MoreSamples.

(** Version 4.1: a named surface, but only a line element. *)
Definition block_line_with_names : list string :=
  text (Samples.header4 ++ Samples.top_name
        ++ ["$Nodes"; "1 3 1 3"; "2 1 0 3"; "1 0 0 0"; "2 1 0 0"; "3 0 1 0";
            "$EndNodes"]
        ++ ["$Elements"; "1 1 1 1"; "1 1 1 1"; "1 1 2"; "$EndElements"]).

(** Two node records, and what follows them. *)
Definition two_node_lines : list string := text ["1 0 0 0"; "2 1 0 0"].

(** The floats 0.0 and 1.0. *)
Definition zero : Py.pyfloat := SpecFloat.S754_zero false.
Definition one : Py.pyfloat := SpecFloat.S754_finite false 4503599627370496 (-52).

Definition two_node_records : list (Z * coords) :=
  [(1, (zero, zero, zero)); (2, (one, zero, zero))].

Definition three_node_records : list (Z * coords) :=
  two_node_records ++ [(3, (zero, one, zero))].

End MoreSamples.

(** ** Inversion of the monads *)

Lemma rbind_Ok {A B} (r : result A) (k : A -> result B) (b : B) :
  rbind r k = Ok b -> exists a, r = Ok a /\ k a = Ok b.
Proof. destruct r as [a|e]; simpl; [eauto | discriminate]. Qed.

Lemma bind_Ok {A B} (m : M A) (k : A -> M B) (w w' : io) (b : B) :
  bind m k w = (Ok b, w') ->
  exists a w1, m w = (Ok a, w1) /\ k a w1 = (Ok b, w').
Proof.
  unfold bind. destruct (m w) as [[a|e] w1]; [eauto | discriminate].
Qed.

Lemma liftR_Ok {A} (r : result A) (w w' : io) (a : A) :
  liftR r w = (Ok a, w') -> r = Ok a /\ w' = w.
Proof. unfold liftR. intros [= -> ->]. auto. Qed.

Lemma ret_Ok {A} (a b : A) (w w' : io) :
  ret a w = (Ok b, w') -> b = a /\ w' = w.
Proof. unfold ret. intros [= -> ->]. auto. Qed.

Ltac inv_M :=
  repeat match goal with
    | H : bind _ _ _ = (Ok _, _) |- _ =>
        apply bind_Ok in H; destruct H as (? & ? & ? & H)
    | H : ret _ _ = (Ok _, _) |- _ =>
        apply ret_Ok in H; destruct H as [? ?]; subst
    | H : liftR _ _ = (Ok _, _) |- _ =>
        apply liftR_Ok in H; destruct H as [? ?]; subst
    | H : rbind _ _ = Ok _ |- _ =>
        apply rbind_Ok in H; destruct H as (? & ? & H)
    end.

(** A property of the loop variables that every turn keeps is kept by the loop. *)
Lemma for_from_inv {S} (P : S -> Prop) (body : Z -> S -> M S) :
  (forall i s w s' w', P s -> body i s w = (Ok s', w') -> P s') ->
  forall n i s w s' w',
    P s -> for_from n i body s w = (Ok s', w') -> P s'.
Proof.
  intros Hbody. induction n as [|n IH]; simpl; intros i s w s' w' Hs Hrun.
  - apply ret_Ok in Hrun as [-> _]. exact Hs.
  - apply bind_Ok in Hrun as (s1 & w1 & H1 & H2).
    eapply IH; [|exact H2]. eapply Hbody; eauto.
Qed.

(** ** The parser stores well-formed elements *)

Section ParserInvariant.

Lemma read_ints_length (s : list string) :
  forall n j l, read_ints s j n = Ok l -> length l = n.
Proof.
  induction n as [|n IH]; simpl; intros j l H.
  - injection H as <-. reflexivity.
  - inv_M. injection H as <-. simpl. f_equal. eauto.
Qed.

Lemma read_elem_nodes_wf (s : list string) (j : nat) (elem_type : Z)
    (pe ge : option Z) (w w' : io) (ns : list Z) :
  read_elem_nodes s j elem_type w = (Ok ns, w') ->
  element_wf (mkElement elem_type pe ge ns).
Proof.
  unfold read_elem_nodes, element_wf. simpl.
  destruct (ELEMENT_TYPES elem_type) as [k|]; intros H; inv_M.
  - eauto using read_ints_length.
  - reflexivity.
Qed.

Lemma elements_wf_insert (elements : gmap Z element) (num : Z) (el : element) :
  elements_wf elements -> element_wf el -> elements_wf (<[num := el]> elements).
Proof. intros H Hel. apply map_Forall_insert_2; assumption. Qed.

Lemma legacy_element_line_wf (elements elements' : gmap Z element) (w w' : io) :
  elements_wf elements ->
  legacy_element_line elements w = (Ok elements', w') ->
  elements_wf elements'.
Proof.
  intros Hwf H. unfold legacy_element_line in H.
  apply bind_Ok in H as (line & w1 & _ & H).
  destruct (Py.isspace line).
  - apply ret_Ok in H as [-> _]. exact Hwf.
  - inv_M. eauto using elements_wf_insert, read_elem_nodes_wf.
Qed.

Lemma block_element_line_wf (elem_type : Z) (elements elements' : gmap Z element)
    (w w' : io) :
  elements_wf elements ->
  block_element_line elem_type elements w = (Ok elements', w') ->
  elements_wf elements'.
Proof.
  intros Hwf H. unfold block_element_line in H.
  apply bind_Ok in H as (line & w1 & _ & H).
  destruct (Py.isspace line).
  - apply ret_Ok in H as [-> _]. exact Hwf.
  - inv_M. eauto using elements_wf_insert, read_elem_nodes_wf.
Qed.

Lemma element_block_wf (elements elements' : gmap Z element) (w w' : io) :
  elements_wf elements ->
  element_block elements w = (Ok elements', w') ->
  elements_wf elements'.
Proof.
  intros Hwf H. unfold element_block in H.
  apply bind_Ok in H as (line & w1 & _ & H).
  apply bind_Ok in H as (elem_type & w2 & _ & H).
  apply bind_Ok in H as (n & w3 & _ & H).
  unfold for_range in H.
  eapply (for_from_inv elements_wf); [| exact Hwf | exact H].
  intros i s w0 s' w0' Hs Hb. exact (block_element_line_wf _ _ _ _ _ Hs Hb).
Qed.

Lemma read_elements_wf (version_number : Py.pyfloat) (w w' : io)
    (n : Z) (elements : gmap Z element) :
  read_elements version_number w = (Ok (n, elements), w') ->
  elements_wf elements.
Proof.
  unfold read_elements, for_range. destruct (Py.lt_4 version_number); intros H.
  - apply bind_Ok in H as (l & w1 & _ & H).
    apply bind_Ok in H as (k & w2 & _ & H).
    apply bind_Ok in H as (els & w3 & Hloop & H).
    apply ret_Ok in H as [[= <- <-] _].
    eapply (for_from_inv elements_wf); [| | exact Hloop].
    + intros i s w0 s' w0' Hs Hb. exact (legacy_element_line_wf _ _ _ _ Hs Hb).
    + apply map_Forall_empty.
  - apply bind_Ok in H as (l & w1 & _ & H).
    apply bind_Ok in H as (k & w2 & _ & H).
    apply bind_Ok in H as (k' & w3 & _ & H).
    apply bind_Ok in H as (els & w4 & Hloop & H).
    apply ret_Ok in H as [[= <- <-] _].
    eapply (for_from_inv elements_wf); [| | exact Hloop].
    + intros i s w0 s' w0' Hs Hb. exact (element_block_wf _ _ _ _ Hs Hb).
    + apply map_Forall_empty.
Qed.

Lemma read_tables_wf (version_number : Py.pyfloat)
    (physical_names : gmap Z (gmap Z string)) (cmd : string) (w w' : io) (p : parsed) :
  read_tables version_number physical_names cmd w = (Ok p, w') ->
  elements_wf (elements p).
Proof.
  unfold read_tables. intros H.
  apply bind_Ok in H as (cmd' & w4 & _ & H).
  apply bind_Ok in H as ([nn nds] & w5 & _ & H).
  apply bind_Ok in H as (l' & w6 & _ & H).
  apply bind_Ok in H as ([ne els] & w7 & Hels & H).
  apply ret_Ok in H as [-> _]. simpl.
  eauto using read_elements_wf.
Qed.

Lemma parse_wf (w w' : io) (p : parsed) :
  parse w = (Ok (Some p), w') -> elements_wf (elements p).
Proof.
  unfold parse. intros H.
  apply bind_Ok in H as ([[[v pn] cmd]|] & w1 & _ & H).
  - apply bind_Ok in H as (p' & w2 & Htables & H).
    apply ret_Ok in H as [[= ->] _]. eauto using read_tables_wf.
  - apply ret_Ok in H as [[=] _].
Qed.

End ParserInvariant.

Lemma load_inv (w w' : io) (m : mesh) (names : list string) :
  load w = (Ok (Some (m, names)), w') ->
  exists p, parse w = (Ok (Some p), w') /\ build p = Ok (m, names).
Proof.
  unfold load. intros H.
  apply bind_Ok in H as ([p|] & w1 & Hp & H).
  - apply bind_Ok in H as (r & w2 & Hr & H).
    apply liftR_Ok in Hr as [Hr ->].
    apply ret_Ok in H as [[= ->] ->]. eauto.
  - apply ret_Ok in H as [[=] _].
Qed.

(** ** The loop over the elements *)

#[local] Arguments element_step : simpl never.
#[local] Arguments surface_name : simpl never.

Section Assembly.

Variable physical_names : gmap Z (gmap Z string).

Lemma element_wf_nonempty_face (el : element) : element_wf el -> nonempty_face el.
Proof.
  unfold element_wf, nonempty_face, is_face. intros Hwf Hface Hnil.
  rewrite Hnil in Hwf.
  apply orb_true_iff in Hface as [H | H]; apply Z.eqb_eq in H;
    rewrite H in Hwf; simpl in Hwf; discriminate.
Qed.

Lemma od_get_None (key : list Z) (d : ordered_dict) :
  od_get key d = None <-> key ∉ map fst d.
Proof.
  induction d as [|[k v] d IH]; simpl.
  - split; [intros _; apply not_elem_of_nil | reflexivity].
  - rewrite not_elem_of_cons. case_bool_decide as Hk.
    + split; [discriminate | intros [Hne _]; congruence].
    + rewrite IH. split; [intros H; split; [congruence | exact H] | tauto].
Qed.

Lemma od_get_stored (key face : list Z) (d : ordered_dict) :
  stored_nonempty d -> od_get key d = Some face -> face <> [].
Proof.
  induction 1 as [|[k v] d Hv Hd IH]; simpl; [discriminate|].
  case_bool_decide; [intros [= <-]; exact Hv | exact IH].
Qed.

Lemma not_get_fresh (key : list Z) (d : ordered_dict) :
  stored_nonempty d ->
  not_get key d = negb (bool_decide (key ∈ map fst d)).
Proof.
  intros Hd. unfold not_get.
  destruct (od_get key d) as [face|] eqn:Hget.
  - assert (key ∈ map fst d) as Hin.
    { destruct (decide (key ∈ map fst d)) as [|Hn]; [assumption|].
      apply od_get_None in Hn. congruence. }
    rewrite (bool_decide_eq_true_2 _ Hin).
    pose proof (od_get_stored _ _ _ Hd Hget).
    destruct face; [contradiction | reflexivity].
  - apply od_get_None in Hget. rewrite (bool_decide_eq_false_2 _ Hget). reflexivity.
Qed.

Lemma od_set_fresh (key v : list Z) (d : ordered_dict) :
  key ∉ map fst d -> od_set key v d = (d ++ [(key, v)])%list.
Proof.
  induction d as [|[k v0] d IH]; simpl; [reflexivity|].
  rewrite not_elem_of_cons. intros [Hne Hnin].
  rewrite bool_decide_eq_false_2 by congruence. f_equal. auto.
Qed.

(** A duplicate of a stored face changes nothing and raises nothing. *)
Lemma element_step_duplicate (el : element) (edges : list (list Z))
    (faces_dict : ordered_dict) (surface_names : list string) :
  stored_nonempty faces_dict ->
  is_face el = true ->
  face_key el ∈ map fst faces_dict ->
  element_step physical_names el (edges, faces_dict, surface_names)
  = Ok (edges, faces_dict, surface_names).
Proof.
  intros Hd Hface Hin. unfold element_step, is_face in *.
  destruct (el_type el =? 1) eqn:H1.
  { apply Z.eqb_eq in H1. rewrite H1 in Hface. discriminate. }
  rewrite Hface. fold (face_key el).
  rewrite (not_get_fresh _ _ Hd), (bool_decide_eq_true_2 _ Hin). reflexivity.
Qed.

(** A face with a new key is stored last, with one name. *)
Lemma element_step_new (el : element) (edges : list (list Z))
    (faces_dict : ordered_dict) (surface_names : list string) (r : assembly) :
  stored_nonempty faces_dict ->
  is_face el = true ->
  face_key el ∉ map fst faces_dict ->
  element_step physical_names el (edges, faces_dict, surface_names) = Ok r ->
  exists name,
    surface_name physical_names el = Ok name
    /\ r = (edges, (faces_dict ++ [(face_key el, zero_based el)])%list,
            (surface_names ++ [name])%list).
Proof.
  intros Hd Hface Hnin. unfold element_step, is_face in *.
  destruct (el_type el =? 1) eqn:H1.
  { apply Z.eqb_eq in H1. rewrite H1 in Hface. discriminate. }
  rewrite Hface. fold (face_key el).
  rewrite (not_get_fresh _ _ Hd), (bool_decide_eq_false_2 _ Hnin). simpl.
  rewrite (od_set_fresh _ _ _ Hnin). intros H.
  apply rbind_Ok in H as (name & Hname & [= <-]). eauto.
Qed.

Lemma element_step_line (el : element) (edges : list (list Z))
    (faces_dict : ordered_dict) (surface_names : list string) :
  is_line el = true ->
  element_step physical_names el (edges, faces_dict, surface_names)
  = Ok ((edges ++ [zero_based el])%list, faces_dict, surface_names).
Proof. unfold element_step, is_line. intros ->. reflexivity. Qed.

Lemma element_step_other (el : element) (acc : assembly) :
  is_line el = false -> is_face el = false ->
  element_step physical_names el acc = Ok acc.
Proof.
  unfold element_step, is_line, is_face. intros -> ->.
  destruct acc as [[? ?] ?]. reflexivity.
Qed.

Lemma line_not_face (el : element) : is_line el = true -> is_face el = false.
Proof.
  unfold is_line, is_face. intros H. apply Z.eqb_eq in H. rewrite H. reflexivity.
Qed.

(** What the loop adds to the three sequences. *)
Lemma steps_spec (els : list element) :
  forall (seen : list (list Z)) (edges : list (list Z)) (faces_dict : ordered_dict)
         (surface_names : list string) (r : assembly),
    Forall nonempty_face els ->
    stored_nonempty faces_dict ->
    (forall k, k ∈ seen <-> k ∈ map fst faces_dict) ->
    steps physical_names els (edges, faces_dict, surface_names) = Ok r ->
    exists new_names,
      r.1.1 = (edges ++ map zero_based (List.filter is_line els))%list
      /\ map fst r.1.2
         = (map fst faces_dict ++ map face_key (first_seen seen els))%list
      /\ r.2 = (surface_names ++ new_names)%list
      /\ Forall2 (fun el name => surface_name physical_names el = Ok name)
           (first_seen seen els) new_names
      /\ stored_nonempty r.1.2.
Proof.
  induction els as [|el els IH]; simpl;
    intros seen edges fd names r Hne Hfd Hseen Hrun.
  - injection Hrun as <-. exists []. simpl. rewrite !app_nil_r. auto 10.
  - apply Forall_cons in Hne as [Hel Hne].
    apply rbind_Ok in Hrun as (acc' & Hstep & Hrun).
    destruct (is_line el) eqn:Hline.
    + rewrite (line_not_face _ Hline).
      rewrite (element_step_line _ _ _ _ Hline) in Hstep. injection Hstep as <-.
      destruct (IH _ _ _ _ _ Hne Hfd Hseen Hrun) as (nn & E1 & E2 & E3 & E4 & E5).
      exists nn. simpl. rewrite E1, <- app_assoc. auto 10.
    + destruct (is_face el) eqn:Hface.
      * case_bool_decide as Hin.
        -- apply Hseen in Hin.
           rewrite (element_step_duplicate _ _ _ _ Hfd Hface Hin) in Hstep.
           injection Hstep as <-. eauto.
        -- assert (face_key el ∉ map fst fd) as Hnin by (rewrite <- Hseen; exact Hin).
           destruct (element_step_new _ _ _ _ _ Hfd Hface Hnin Hstep)
             as (name & Hname & ->).
           edestruct (IH (face_key el :: seen)) as (nn & E1 & E2 & E3 & E4 & E5);
             [exact Hne | | | exact Hrun |].
           { apply Forall_app. split; [exact Hfd|].
             apply Forall_cons. split; [|constructor]. simpl.
             unfold zero_based. intros Hnil. apply map_eq_nil in Hnil.
             exact (Hel Hface Hnil). }
           { intros k. rewrite map_app, elem_of_app, elem_of_cons. simpl.
             rewrite list_elem_of_singleton, Hseen. tauto. }
           exists (name :: nn). simpl.
           rewrite E1, E2, E3, map_app, <- !app_assoc. simpl. auto 10.
      * rewrite (element_step_other _ _ Hline Hface) in Hstep.
        injection Hstep as <-. eauto.
Qed.

(** The loop of line 307 is [steps] on the elements in the order of their
    numbers; a missing number is a [KeyError]. *)
Lemma rfor_from_steps (elements : gmap Z element) :
  forall (n : nat) (i : Z) (acc r : assembly),
    rfor_from n i
      (fun i acc => let? element := getitem elements (i + 1) in
                    element_step physical_names element acc) acc = Ok r ->
    exists els, elements_from elements n i = Some els
                /\ steps physical_names els acc = Ok r.
Proof.
  induction n as [|n IH]; simpl; intros i acc r H.
  - injection H as <-. exists []. auto.
  - apply rbind_Ok in H as (acc' & Hstep & H).
    apply rbind_Ok in Hstep as (el & Hget & Hstep).
    unfold getitem in Hget. destruct (elements !! (i + 1)) as [el'|]; [|discriminate].
    injection Hget as ->.
    destruct (IH _ _ _ H) as (els & -> & Hsteps).
    exists (el :: els). simpl. rewrite Hstep. auto.
Qed.

Lemma elements_from_wf (elements : gmap Z element) :
  elements_wf elements ->
  forall n i els, elements_from elements n i = Some els -> Forall element_wf els.
Proof.
  intros Hwf. induction n as [|n IH]; simpl; intros i els H.
  - injection H as <-. constructor.
  - destruct (elements !! (i + 1)) as [el|] eqn:Hel; [|discriminate].
    destruct (elements_from elements n (i + 1)) as [els'|] eqn:Hels; [|discriminate].
    injection H as <-. constructor; [exact (Hwf _ _ Hel) | eauto].
Qed.

Lemma assemble_elements_spec (elements : gmap Z element) (number_of_elements : Z)
    (edges : list (list Z)) (faces_dict : ordered_dict) (surface_names : list string) :
  elements_wf elements ->
  assemble_elements physical_names elements number_of_elements
  = Ok (edges, faces_dict, surface_names) ->
  exists els,
    elements_in_order elements number_of_elements = Some els
    /\ Forall element_wf els
    /\ edges = map zero_based (List.filter is_line els)
    /\ map fst faces_dict = map face_key (first_seen [] els)
    /\ Forall2 (fun el name => surface_name physical_names el = Ok name)
         (first_seen [] els) surface_names
    /\ stored_nonempty faces_dict.
Proof.
  intros Hwf H. unfold assemble_elements, rfor_range in H.
  apply rfor_from_steps in H as (els & Hels & Hsteps).
  pose proof (elements_from_wf _ Hwf _ _ _ Hels) as Hall.
  apply (steps_spec els []) in Hsteps as (nn & E1 & E2 & E3 & E4 & E5).
  - simpl in *. subst. eauto 10.
  - eapply Forall_impl; [exact Hall|]. apply element_wf_nonempty_face.
  - constructor.
  - intros k. simpl. reflexivity.
Qed.

End Assembly.

(** ** A duplicate face at the end of the loop *)

Section Duplicates.

Variable physical_names : gmap Z (gmap Z string).

Lemma rfor_from_last {S} (body : Z -> S -> result S) :
  forall (n : nat) (i : Z) (s : S),
    rfor_from (Datatypes.S n) i body s
    = (let? s' := rfor_from n i body s in body (i + Z.of_nat n) s').
Proof.
  induction n as [|n IH]; intros i s.
  - simpl. rewrite Z.add_0_r. destruct (body i s); reflexivity.
  - change (rfor_from (Datatypes.S (Datatypes.S n)) i body s)
      with (let? s' := body i s in rfor_from (Datatypes.S n) (i + 1) body s').
    change (rfor_from (Datatypes.S n) i body s)
      with (let? s' := body i s in rfor_from n (i + 1) body s').
    destruct (body i s) as [s1|e]; cbn [rbind]; [|reflexivity].
    rewrite IH. replace (i + 1 + Z.of_nat n) with (i + Z.of_nat (Datatypes.S n)) by lia.
    reflexivity.
Qed.

Lemma elements_from_lookup (elements : gmap Z element) :
  forall (n : nat) (i : Z) (els : list element),
    elements_from elements n i = Some els ->
    forall j : nat, (j < n)%nat -> els !! j = elements !! (i + 1 + Z.of_nat j).
Proof.
  induction n as [|n IH]; simpl; intros i els H j Hj; [lia|].
  destruct (elements !! (i + 1)) as [el|] eqn:Hel; [|discriminate].
  destruct (elements_from elements n (i + 1)) as [els'|] eqn:Hels; [|discriminate].
  injection H as <-. destruct j as [|j]; simpl.
  - rewrite Z.add_0_r. symmetry. exact Hel.
  - rewrite (IH _ _ Hels j) by lia. f_equal. lia.
Qed.

Lemma first_seen_covers (els : list element) :
  forall (seen : list (list Z)) (el0 : element),
    el0 ∈ els -> is_face el0 = true ->
    face_key el0 ∈ seen \/ face_key el0 ∈ map face_key (first_seen seen els).
Proof.
  induction els as [|el els IH]; intros seen el0 Hin Hface.
  - apply elem_of_nil in Hin. contradiction.
  - apply elem_of_cons in Hin as [-> | Hin]; simpl.
    + rewrite Hface. case_bool_decide; [left; assumption|].
      right. simpl. apply elem_of_cons. left. reflexivity.
    + destruct (is_face el); [|eauto]. case_bool_decide; [eauto|].
      destruct (IH (face_key el :: seen) el0 Hin Hface) as [H1 | H1].
      * apply elem_of_cons in H1 as [-> | H1]; [|left; exact H1].
        right. simpl. apply elem_of_cons. left. reflexivity.
      * right. simpl. apply elem_of_cons. right. exact H1.
Qed.

Lemma assemble_duplicate (elements : gmap Z element) (n i : Z) (el el0 : element) :
  elements_wf elements ->
  0 <= n ->
  elements !! (n + 1) = Some el ->
  is_face el = true ->
  1 <= i <= n ->
  elements !! i = Some el0 ->
  is_face el0 = true ->
  face_key el0 = face_key el ->
  assemble_elements physical_names elements (n + 1)
  = assemble_elements physical_names elements n.
Proof.
  intros Hwf Hn Hel Hface Hi Hel0 Hface0 Hkey.
  unfold assemble_elements, rfor_range.
  replace (Z.to_nat (n + 1)) with (Datatypes.S (Z.to_nat n)) by lia.
  rewrite rfor_from_last.
  pose proof (assemble_elements_spec physical_names elements n) as Hspec.
  unfold assemble_elements, rfor_range in Hspec.
  match goal with
  | |- context [rfor_from (Z.to_nat n) 0 ?b ?a] =>
      destruct (rfor_from (Z.to_nat n) 0 b a) as [[[edges fd] names]|e] eqn:Hrun
  end; [|reflexivity].
  destruct (Hspec _ _ _ Hwf eq_refl) as (els & Hels & _ & _ & Hkeys & _ & Hne).
  simpl. replace (0 + Z.of_nat (Z.to_nat n) + 1) with (n + 1) by lia.
  unfold getitem. rewrite Hel. simpl.
  apply element_step_duplicate; [exact Hne | exact Hface |].
  rewrite Hkeys, <- Hkey.
  assert (el0 ∈ els) as Hin.
  { apply list_elem_of_lookup. exists (Z.to_nat (i - 1)).
    rewrite (elements_from_lookup _ _ _ _ Hels) by lia.
    rewrite <- Hel0. f_equal. lia. }
  destruct (first_seen_covers els [] el0 Hin Hface0) as [H | H]; [|exact H].
  apply elem_of_nil in H. contradiction.
Qed.

End Duplicates.

(** ** The file object *)


Lemma keeps_ret {A} (a : A) : keeps_handle (ret a).
Proof. intros w. reflexivity. Qed.

Lemma keeps_liftR {A} (r : result A) : keeps_handle (liftR r).
Proof. intros w. reflexivity. Qed.

Lemma keeps_readline : keeps_handle readline.
Proof. intros w. unfold readline. destruct (pending w); reflexivity. Qed.

Lemma keeps_print (msg : string) : keeps_handle (print msg).
Proof. intros w. reflexivity. Qed.

Lemma keeps_bind {A B} (m : M A) (k : A -> M B) :
  keeps_handle m -> (forall a, keeps_handle (k a)) -> keeps_handle (bind m k).
Proof.
  intros Hm Hk w. unfold bind. specialize (Hm w).
  destruct (m w) as [[a|e] w1]; simpl in *; [|exact Hm].
  rewrite Hk. exact Hm.
Qed.

Lemma keeps_skipUnknownCmd (c : string) : keeps_handle (skipUnknownCmd c).
Proof. intros w. reflexivity. Qed.

Lemma keeps_for_from {S} (body : Z -> S -> M S) :
  (forall i s, keeps_handle (body i s)) ->
  forall n i s, keeps_handle (for_from n i body s).
Proof.
  intros Hbody. induction n as [|n IH]; simpl; intros i s.
  - apply keeps_ret.
  - apply keeps_bind; [apply Hbody | intros a; apply IH].
Qed.

Lemma keeps_for_range {S} (body : Z -> S -> M S) (n : Z) (s : S) :
  (forall i s, keeps_handle (body i s)) -> keeps_handle (for_range n body s).
Proof. intros Hbody. apply keeps_for_from. exact Hbody. Qed.

Create HintDb handle.
#[local] Hint Resolve keeps_ret keeps_liftR keeps_readline keeps_print
  keeps_skipUnknownCmd : handle.

Ltac solve_keeps :=
  repeat first
    [ solve [auto with handle]
    | apply keeps_bind; [|intros ?; cbv beta]
    | apply keeps_for_range; intros ? ?
    | match goal with
      | |- keeps_handle (if ?b then _ else _) => destruct b
      | |- keeps_handle (match ?x with _ => _ end) => destruct x
      end ].

Lemma keeps_read_format : keeps_handle read_format.
Proof. unfold read_format. solve_keeps. Qed.

Lemma keeps_physical_name_line pn : keeps_handle (physical_name_line pn).
Proof. unfold physical_name_line. solve_keeps. Qed.

Lemma keeps_read_physical_names : keeps_handle read_physical_names.
Proof.
  pose proof keeps_physical_name_line. unfold read_physical_names. solve_keeps.
Qed.

Lemma keeps_skip_to_nodes cmd : keeps_handle (skip_to_nodes cmd).
Proof. unfold skip_to_nodes. solve_keeps. Qed.

Lemma keeps_read_nodes v cmd : keeps_handle (read_nodes v cmd).
Proof.
  unfold read_nodes, node_block, legacy_node_line, block_node_line. solve_keeps.
Qed.

Lemma keeps_read_elem_nodes s j t : keeps_handle (read_elem_nodes s j t).
Proof. unfold read_elem_nodes. solve_keeps. Qed.

Lemma keeps_read_elements v : keeps_handle (read_elements v).
Proof.
  pose proof keeps_read_elem_nodes.
  unfold read_elements, element_block, legacy_element_line, block_element_line.
  solve_keeps.
Qed.

#[local] Hint Resolve keeps_read_format keeps_read_physical_names
  keeps_skip_to_nodes keeps_read_nodes keeps_read_elements : handle.

Lemma keeps_read_tables v pn cmd : keeps_handle (read_tables v pn cmd).
Proof. unfold read_tables. solve_keeps. Qed.

(** A computation that leaves the file object open. *)
Lemma opens_bind {A B} (m : M A) (k : A -> M B) :
  (forall w, handle_open (m w).2 = true) ->
  (forall a, keeps_handle (k a)) ->
  forall w, handle_open (bind m k w).2 = true.
Proof.
  intros Hm Hk w. unfold bind. specialize (Hm w).
  destruct (m w) as [[a|e] w1]; simpl in *; [|exact Hm].
  rewrite Hk. exact Hm.
Qed.

Lemma read_header_opens (w : io) : handle_open (read_header w).2 = true.
Proof.
  unfold read_header. unfold bind at 1. simpl.
  match goal with
  | |- handle_open (?m ?w0).2 = true =>
      assert (keeps_handle m) as Hrest by solve_keeps; exact (Hrest w0)
  end.
Qed.

(** Once [open] has run, nothing in [load] touches the file object. *)
Lemma load_leaves_open (w : io) : handle_open (load w).2 = true.
Proof.
  pose proof keeps_read_tables.
  unfold load, parse.
  apply opens_bind; [|intros a; solve_keeps].
  apply opens_bind; [exact read_header_opens | intros a; solve_keeps].
Qed.

(** ** Standard output *)

Lemma frames_ret {A} (a : A) : frames (ret a).
Proof.
  intros p h. exists (Ok a), p, h, []. intros o. rewrite app_nil_r. reflexivity.
Qed.

Lemma frames_liftR {A} (r : result A) : frames (liftR r).
Proof.
  intros p h. exists r, p, h, []. intros o. rewrite app_nil_r. reflexivity.
Qed.

Lemma frames_readline : frames readline.
Proof.
  intros p h. unfold readline. destruct p as [|l rest].
  - exists (Ok ""), [], h, []. intros o. rewrite app_nil_r. reflexivity.
  - exists (Ok l), rest, h, []. intros o. rewrite app_nil_r. reflexivity.
Qed.

Lemma frames_print (msg : string) : frames (print msg).
Proof. intros p h. exists (Ok tt), p, h, [msg]. intros o. reflexivity. Qed.

Lemma frames_bind {A B} (m : M A) (k : A -> M B) :
  frames m -> (forall a, frames (k a)) -> frames (bind m k).
Proof.
  intros Hm Hk p h. destruct (Hm p h) as ([a|e] & p1 & h1 & d1 & Hrun).
  - destruct (Hk a p1 h1) as (r & p2 & h2 & d2 & Hrun2).
    exists r, p2, h2, (d1 ++ d2)%list. intros o.
    unfold bind. rewrite Hrun, Hrun2, app_assoc. reflexivity.
  - exists (Raise e), p1, h1, d1. intros o. unfold bind. rewrite Hrun. reflexivity.
Qed.

Lemma frames_skipUnknownCmd (c : string) : frames (skipUnknownCmd c).
Proof.
  intros p h.
  exists (Ok tt), (skip_loop (Py.strip_chars "$" c) (Py.strip_chars "$" c) p),
    h, [skip_message c].
  intros o. reflexivity.
Qed.

Lemma frames_for_from {S} (body : Z -> S -> M S) :
  (forall i s, frames (body i s)) ->
  forall n i s, frames (for_from n i body s).
Proof.
  intros Hbody. induction n as [|n IH]; simpl; intros i s.
  - apply frames_ret.
  - apply frames_bind; [apply Hbody | intros a; apply IH].
Qed.

Lemma frames_for_range {S} (body : Z -> S -> M S) (n : Z) (s : S) :
  (forall i s, frames (body i s)) -> frames (for_range n body s).
Proof. intros Hbody. apply frames_for_from. exact Hbody. Qed.

Create HintDb output.
#[local] Hint Resolve frames_ret frames_liftR frames_readline frames_print
  frames_skipUnknownCmd : output.

Ltac solve_frames :=
  repeat first
    [ solve [auto with output]
    | apply frames_bind; [|intros ?; cbv beta]
    | apply frames_for_range; intros ? ?
    | match goal with
      | |- frames (if ?b then _ else _) => destruct b
      | |- frames (match ?x with _ => _ end) => destruct x
      end ].

Lemma frames_read_nodes v cmd : frames (read_nodes v cmd).
Proof.
  unfold read_nodes, node_block, legacy_node_line, block_node_line. solve_frames.
Qed.

Lemma frames_read_elem_nodes s j t : frames (read_elem_nodes s j t).
Proof. unfold read_elem_nodes. solve_frames. Qed.

Lemma frames_read_elements v : frames (read_elements v).
Proof.
  pose proof frames_read_elem_nodes.
  unfold read_elements, element_block, legacy_element_line, block_element_line.
  solve_frames.
Qed.

Lemma frames_read_tables v pn cmd : frames (read_tables v pn cmd).
Proof.
  pose proof frames_read_nodes. pose proof frames_read_elements.
  unfold read_tables, skip_to_nodes. solve_frames.
Qed.

(** ** Skipping a section *)

Section Skipping.

Lemma prefix_length (a b : string) :
  String.prefix a b = true -> (String.length a <= String.length b)%nat.
Proof.
  revert b. induction a as [|c a IH]; intros b H; [simpl; lia|].
  destruct b as [|d b]; simpl in H; [discriminate|].
  destruct (ascii_dec c d); [|discriminate]. simpl. apply IH in H. lia.
Qed.

Lemma contains_length (sub s : string) :
  Py.contains sub s = true -> (String.length sub <= String.length s)%nat.
Proof.
  induction s as [|c s IH]; cbn [Py.contains]; intros H.
  - rewrite orb_false_r in H. apply prefix_length in H. exact H.
  - apply orb_true_iff in H as [H | H].
    + apply prefix_length in H. exact H.
    + apply IH in H. cbn [String.length]. lia.
Qed.

(** A name does not contain its own end marker. *)
Lemma contains_End_self (c : string) : Py.contains ("$End" ++ c) c = false.
Proof.
  destruct (Py.contains ("$End" ++ c) c) eqn:H; [|reflexivity].
  apply contains_length in H. cbv [String.append] in H. simpl in H. lia.
Qed.

Lemma skip_loop_eq (c tmp : string) (ls : list string) :
  skip_loop c tmp ls
  = if negb (Py.contains ("$End" ++ c) tmp) && (0 <? String.length tmp)%nat
    then match ls with
         | [] => []
         | l :: rest => skip_loop c (Py.strip_chars crlf l) rest
         end
    else ls.
Proof. destruct ls; reflexivity. Qed.

Lemma length_pos (s : string) : s <> "" -> (0 <? String.length s)%nat = true.
Proof. destruct s; [congruence | reflexivity]. Qed.

Lemma skip_loop_goes_on (c tmp : string) (ls : list string) :
  tmp <> "" -> Py.contains ("$End" ++ c) tmp = false ->
  skip_loop c tmp ls
  = match ls with
    | [] => []
    | l :: rest => skip_loop c (Py.strip_chars crlf l) rest
    end.
Proof.
  intros Hne Hc. rewrite skip_loop_eq, Hc, (length_pos _ Hne). reflexivity.
Qed.

Lemma skip_loop_stops (c tmp : string) (ls : list string) :
  Py.contains ("$End" ++ c) tmp = true -> skip_loop c tmp ls = ls.
Proof. intros Hc. rewrite skip_loop_eq, Hc. reflexivity. Qed.

(** The lines passed over, then the line with the end marker. *)
Lemma skip_loop_section (c : string) (body : list string) :
  forall (tmp e : string) (rest : list string),
    tmp <> "" -> Py.contains ("$End" ++ c) tmp = false ->
    Forall (passed_over c) body ->
    Py.contains ("$End" ++ c) (Py.strip_chars crlf e) = true ->
    skip_loop c tmp (body ++ e :: rest) = rest.
Proof.
  induction body as [|l body IH]; cbn [app]; intros tmp e rest Hne Hc Hbody He.
  - rewrite (skip_loop_goes_on _ _ _ Hne Hc). apply skip_loop_stops. exact He.
  - apply Forall_cons in Hbody as [[Hl1 Hl2] Hbody].
    rewrite (skip_loop_goes_on _ _ _ Hne Hc). apply IH; assumption.
Qed.

(** The lines passed over, then the end of the file. *)
Lemma skip_loop_eof (c : string) (body : list string) :
  forall tmp : string,
    tmp <> "" -> Py.contains ("$End" ++ c) tmp = false ->
    Forall (passed_over c) body ->
    skip_loop c tmp body = [].
Proof.
  induction body as [|l body IH]; intros tmp Hne Hc Hbody.
  - rewrite (skip_loop_goes_on _ _ _ Hne Hc). reflexivity.
  - apply Forall_cons in Hbody as [[Hl1 Hl2] Hbody].
    rewrite (skip_loop_goes_on _ _ _ Hne Hc). apply IH; assumption.
Qed.

Lemma skipUnknownCmd_section (cmd : string) (body : list string) (e : string)
    (rest : list string) (h : bool) (out : list string) :
  Py.strip_chars "$" cmd <> "" ->
  Forall (passed_over (Py.strip_chars "$" cmd)) body ->
  Py.contains ("$End" ++ Py.strip_chars "$" cmd) (Py.strip_chars crlf e) = true ->
  skipUnknownCmd cmd (mkIO (body ++ e :: rest) h out)
  = (Ok tt, mkIO rest h (out ++ [skip_message cmd])).
Proof.
  intros Hname Hbody He. unfold skipUnknownCmd, bind, print. simpl.
  rewrite (skip_loop_section _ body); auto using contains_End_self.
Qed.

Lemma skipUnknownCmd_eof (cmd : string) (body : list string)
    (h : bool) (out : list string) :
  Py.strip_chars "$" cmd <> "" ->
  Forall (passed_over (Py.strip_chars "$" cmd)) body ->
  skipUnknownCmd cmd (mkIO body h out)
  = (Ok tt, mkIO [] h (out ++ [skip_message cmd])).
Proof.
  intros Hname Hbody. unfold skipUnknownCmd, bind, print. simpl.
  rewrite (skip_loop_eof _ body); auto using contains_End_self.
Qed.

End Skipping.


(** ** The statements of the specification *)

Import Samples.

(** C1: the specification stores, for elements with equal keys, the node
    tuple of the first one in its original order, so that the triangle
    3 2 1 followed by 1 2 3 would give the face (2,1,0).  [load] keeps the
    original tuple as the value of [faces_dict] (line 315) but returns the
    keys (line 330): on that file the face is the sorted (0,1,2). *)
Theorem stored_face_is_the_sorted_key :
  exists m : mesh,
    (load (on_file reversed_then_direct)).1 = Ok (Some (m, ["no_name"]))
    /\ mesh_faces m = [[0; 1; 2]]
    /\ mesh_faces m <> [[2; 1; 0]].
Proof.
  eexists. split; [vm_compute; reflexivity|].
  split; [reflexivity | discriminate].
Qed.

(** C2: whenever [load] returns a mesh, it has as many faces as there are
    surface names. *)
Theorem faces_and_surface_names_agree (w w' : io) (m : mesh) (names : list string) :
  load w = (Ok (Some (m, names)), w') ->
  length (mesh_faces m) = length names.
Proof.
  intros H. apply load_inv in H as (p & Hparse & Hbuild).
  pose proof (parse_wf _ _ _ Hparse) as Hwf.
  unfold build in Hbuild.
  destruct (negb _); [discriminate|].
  destruct (negb _); [discriminate|].
  apply rbind_Ok in Hbuild as (verts & _ & Hbuild).
  apply rbind_Ok in Hbuild as ([[edges fd] sn] & Hasm & [= <- <-]).
  apply assemble_elements_spec in Hasm as (els & _ & _ & _ & Hkeys & Hnames & _);
    [|exact Hwf].
  simpl. rewrite Hkeys, length_map. exact (Forall2_length _ _ _ Hnames).
Qed.

Lemma faces_and_surface_names_agree_witness :
  exists (m : mesh) (names : list string) (w' : io),
    load (on_file same_face_two_names) = (Ok (Some (m, names)), w')
    /\ length (mesh_faces m) = length names.
Proof.
  eexists _, _, _. split; [vm_compute; reflexivity|].
  eapply (faces_and_surface_names_agree (on_file same_face_two_names)).
  vm_compute. reflexivity.
Defined.

(** C3: the specification gives a new face the name
    [physical_names[2][physical_entity]] in both grammars.  The elements of
    the version 4 grammar are stored without ["physical_entity"] (line 292),
    so with a name of dimension 2 declared line 317 raises [KeyError]; the
    same mesh in the version 2 grammar gets its name. *)
Theorem block_grammar_has_no_physical_entity :
  (load (on_file block_with_names)).1 = Raise KeyError
  /\ exists m : mesh, (load (on_file legacy_with_names)).1 = Ok (Some (m, ["top"])).
Proof.
  split; [vm_compute; reflexivity|].
  eexists. vm_compute. reflexivity.
Qed.

(** C4: the specification lets blank lines among the node records not count
    against the declared number.  The [continue] of line 214 uses up a turn
    of the loop over [range(number_of_nodes)]: with two nodes declared and a
    blank line between them, the loop stores node 1 only and leaves the
    record of node 2 unread, and [load] ends in a [ValueError]. *)
Theorem blank_line_counts_as_a_node :
  (exists (nodes : gmap Z coords) (w' : io),
      for_range 2 (fun _ => legacy_node_line) ∅
        (mkIO (text ["1 0 0 0"; ""; "2 1 0 0"; "$EndNodes"]) true [])
      = (Ok nodes, w')
      /\ size nodes = 1%nat
      /\ nodes !! 2 = None
      /\ pending w' = text ["2 1 0 0"; "$EndNodes"])
  /\ (load (on_file blank_in_nodes)).1 = Raise ValueError.
Proof.
  split; [|vm_compute; reflexivity].
  eexists _, _. split; [vm_compute; reflexivity|].
  repeat split; vm_compute; reflexivity.
Qed.

(** C5, as stated, fails, on each of these inputs of version 2.
    - The skipping stops at the first line that merely contains the end
      marker: in [marker_inside_line] the body of [$Comments] mentions
      [$EndComments]; the lines after that mention are not consumed and the
      next one is taken for a command.
    - The name is the token without the [$] at either end: after
      [$Comments$] the skipping stops at [$EndComments].
    - The skipping stops at an empty line too ([empty_line_in_comments]),
      and with the token [$] alone it consumes nothing ([nameless_section]).
    - A section is skipped only where [load] expects the nodes.  Between
      the nodes and the elements ([comments_before_elements]) line 239 takes
      [$Comments] for [$Elements]: nothing is skipped or printed and the
      body is read as the number of elements.
    - The skipping is not repeated.  With two unknown sections in a row
      ([two_unknown_sections]), or one before the names
      ([comments_before_names]), the section after the skipped one is
      skipped in place of the nodes, by line 235, and the node records are
      read as elements.  The same happens to the nodes after a section with
      [Nodes] in its name ([ghost_nodes_section]), which line 203 lets pass.
    On every one of the files [load] ends in an exception. *)
Lemma unknown_sections_that_abort :
  (skipUnknownCmd "$Comments"
     (mkIO (text ["see $EndComments below"; "more"; "$EndComments"; "$Nodes"])
           true [])
   = (Ok tt,
      mkIO (text ["more"; "$EndComments"; "$Nodes"]) true
           ["Skiping unknown command :'$Comments' "])
   /\ (load (on_file marker_inside_line)).1 = Raise ValueError)
  /\ skipUnknownCmd "$Comments$"
       (mkIO (text ["$EndComments"; "more"; "$EndComments$"; "$Nodes"]) true [])
     = (Ok tt,
        mkIO (text ["more"; "$EndComments$"; "$Nodes"]) true
             ["Skiping unknown command :'$Comments$' "])
  /\ (skipUnknownCmd "$Comments"
        (mkIO (text ["made by hand"; ""; "twice"; "$EndComments"; "$Nodes"])
              true [])
      = (Ok tt,
         mkIO (text ["twice"; "$EndComments"; "$Nodes"]) true
              ["Skiping unknown command :'$Comments' "])
      /\ (load (on_file empty_line_in_comments)).1 = Raise ValueError)
  /\ (skipUnknownCmd "$" (mkIO (text ["made by hand"; "$End"; "$Nodes"]) true [])
      = (Ok tt,
         mkIO (text ["made by hand"; "$End"; "$Nodes"]) true
              ["Skiping unknown command :'$' "])
      /\ (load (on_file nameless_section)).1 = Raise ValueError)
  /\ load (on_file comments_before_elements)
     = (Raise ValueError,
        mkIO (text ["$EndComments"; "$Elements"; "1"; "1 2 2 0 1 1 2 3";
                    "$EndElements"])
             true [])
  /\ load (on_file two_unknown_sections)
     = (Raise IndexError,
        mkIO (text ["2 1 0 0"; "3 0 1 0"; "$EndNodes"; "$Elements"; "1";
                    "1 2 2 0 1 1 2 3"; "$EndElements"])
             true
             ["Skiping unknown command :'$Comments' ";
              "Skiping unknown command :'$Remarks' "])
  /\ load (on_file comments_before_names)
     = (Raise IndexError,
        mkIO (text ["2 1 0 0"; "3 0 1 0"; "$EndNodes"; "$Elements"; "1";
                    "1 2 2 1 1 1 2 3"; "$EndElements"])
             true
             ["Skiping unknown command :'$Comments' ";
              "Skiping unknown command :'$PhysicalNames' "])
  /\ load (on_file ghost_nodes_section)
     = (Raise IndexError,
        mkIO (text ["2 1 0 0"; "3 0 1 0"; "$EndNodes"; "$Elements"; "1";
                    "1 2 2 0 1 1 2 3"; "$EndElements"])
             true
             ["Skiping unknown command :'$GhostNodes' "]).
Proof. repeat split; vm_compute; reflexivity. Qed.

(** C5, amended: where [load] expects the nodes and reads a command [cmd]
    without [Nodes] in it, whose name (the command without the [$] at its
    ends) is not empty, it prints a message naming [cmd] and raises nothing.
    If the lines that follow are nonempty and free of the end marker up to a
    line [e] that contains [$End<name>], they are consumed together with
    [e], and the line after [e] becomes the command of the node section, the
    file standing behind it; the nodes and elements are then read as they
    are without the section, with the same tables or the same error, the
    message apart.  If no line contains the marker, the file is consumed to
    its end. *)
Theorem unknown_section_is_skipped (cmd : string) (body : list string)
    (h : bool) (out : list string) :
  Py.contains "Nodes" cmd = false ->
  Py.strip_chars "$" cmd <> "" ->
  Forall (passed_over (Py.strip_chars "$" cmd)) body ->
  (forall (e nodes_line : string) (rest : list string),
      Py.contains ("$End" ++ Py.strip_chars "$" cmd) (Py.strip_chars crlf e) = true ->
      skip_to_nodes cmd (mkIO (body ++ e :: nodes_line :: rest) h out)
      = (Ok (Py.strip_chars crlf nodes_line),
         mkIO rest h (out ++ [skip_message cmd]))
      /\ forall (version_number : Py.pyfloat)
                (physical_names : gmap Z (gmap Z string)),
           Py.contains "Nodes" (Py.strip_chars crlf nodes_line) = true ->
           exists (r : result parsed) (p' : list string) (h' : bool)
                  (d : list string),
             read_tables version_number physical_names
               (Py.strip_chars crlf nodes_line) (mkIO rest h out)
             = (r, mkIO p' h' (out ++ d))
             /\ read_tables version_number physical_names cmd
                  (mkIO (body ++ e :: nodes_line :: rest) h out)
                = (r, mkIO p' h' (out ++ skip_message cmd :: d)))
  /\ skipUnknownCmd cmd (mkIO body h out)
     = (Ok tt, mkIO [] h (out ++ [skip_message cmd])).
Proof.
  intros Hcmd Hname Hbody. split.
  - intros e nodes_line rest He.
    assert (skip_to_nodes cmd (mkIO (body ++ e :: nodes_line :: rest) h out)
            = (Ok (Py.strip_chars crlf nodes_line),
               mkIO rest h (out ++ [skip_message cmd]))) as Hskip.
    { unfold skip_to_nodes. rewrite Hcmd. simpl. unfold bind at 1.
      rewrite (skipUnknownCmd_section cmd body e _ h out Hname Hbody He).
      reflexivity. }
    split; [exact Hskip|].
    intros v pn Hnodes.
    destruct (frames_read_tables v pn (Py.strip_chars crlf nodes_line) rest h)
      as (r & p' & h' & d & Hrun).
    exists r, p', h', d. split; [apply Hrun|].
    replace (out ++ skip_message cmd :: d)%list
      with ((out ++ [skip_message cmd]) ++ d)%list
      by (rewrite <- app_assoc; reflexivity).
    rewrite <- Hrun.
    unfold read_tables at 1. unfold bind at 1. rewrite Hskip.
    unfold read_tables, skip_to_nodes. rewrite Hnodes. reflexivity.
  - exact (skipUnknownCmd_eof cmd body h out Hname Hbody).
Qed.

Lemma unknown_section_is_skipped_witness :
  skip_to_nodes "$Comments"
    (mkIO (text ["made by hand"; "twice"; "$EndComments"; "$Nodes"; "3"]) true [])
  = (Ok "$Nodes", mkIO (text ["3"]) true [skip_message "$Comments"])
  /\ exists m : mesh,
       (load (on_file comments_then_nodes)).1 = Ok (Some (m, ["no_name"])).
Proof.
  split.
  - refine (proj1 (proj1 (unknown_section_is_skipped "$Comments"
                            (text ["made by hand"; "twice"]) true [] _ _ _) _ _ _ _)).
    + reflexivity.
    + discriminate.
    + repeat constructor; discriminate.
    + reflexivity.
  - eexists. vm_compute. reflexivity.
Defined.

(** C6: a triangle or quadrangle whose key an earlier element has is
    dropped: the loop over one more element, a duplicate, ends as the loop
    without it, error or not; and the keys and names that the loop returns
    are those of the first elements bearing each key, in their order. *)
Theorem duplicate_faces_first_seen_wins
    (physical_names : gmap Z (gmap Z string)) (elements : gmap Z element) :
  elements_wf elements ->
  (forall (n i : Z) (el el0 : element),
      0 <= n ->
      elements !! (n + 1) = Some el -> is_face el = true ->
      1 <= i <= n ->
      elements !! i = Some el0 -> is_face el0 = true ->
      face_key el0 = face_key el ->
      assemble_elements physical_names elements (n + 1)
      = assemble_elements physical_names elements n)
  /\ (forall (n : Z) (edges : list (list Z)) (faces_dict : ordered_dict)
             (surface_names : list string),
         assemble_elements physical_names elements n
         = Ok (edges, faces_dict, surface_names) ->
         exists els,
           elements_in_order elements n = Some els
           /\ map fst faces_dict = map face_key (first_seen [] els)
           /\ Forall2 (fun el name => surface_name physical_names el = Ok name)
                (first_seen [] els) surface_names).
Proof.
  intros Hwf. split.
  - intros n i el el0 Hn Hel Hface Hi Hel0 Hface0 Hkey.
    exact (assemble_duplicate physical_names elements n i el el0
             Hwf Hn Hel Hface Hi Hel0 Hface0 Hkey).
  - intros n edges fd names H.
    apply assemble_elements_spec in H as (els & Hels & _ & _ & Hkeys & Hnames & _);
      [|exact Hwf].
    eauto.
Qed.

Lemma two_triangles_wf : elements_wf two_triangles.
Proof.
  unfold two_triangles. apply map_Forall_insert_2; [reflexivity|].
  apply map_Forall_singleton. reflexivity.
Qed.

Lemma duplicate_faces_first_seen_wins_witness :
  assemble_elements names_top_bottom two_triangles (1 + 1)
  = assemble_elements names_top_bottom two_triangles 1
  /\ assemble_elements names_top_bottom two_triangles 2
     = Ok ([], [([0; 1; 2], [0; 1; 2])], ["top"]).
Proof.
  split; [|vm_compute; reflexivity].
  refine (proj1 (duplicate_faces_first_seen_wins names_top_bottom two_triangles
                   two_triangles_wf) 1 1 _ _ _ _ _ _ _ _ _).
  - lia.
  - reflexivity.
  - reflexivity.
  - lia.
  - reflexivity.
  - reflexivity.
  - reflexivity.
Defined.

(** C7: when parsing ends with a number of stored nodes other than the
    declared one, or a number of stored elements other than the declared
    one, [load] raises [AssertionError] and returns nothing. *)
Theorem count_mismatch_aborts (w w1 : io) (p : parsed) :
  parse w = (Ok (Some p), w1) ->
  Z.of_nat (size (nodes p)) <> number_of_nodes p
  \/ Z.of_nat (size (elements p)) <> number_of_elements p ->
  load w = (Raise AssertionError, w1).
Proof.
  intros Hparse Hcount. unfold load, bind. rewrite Hparse.
  unfold liftR, build.
  destruct (Z.eqb_spec (Z.of_nat (size (nodes p))) (number_of_nodes p)) as [En|En];
    [|reflexivity].
  destruct (Z.eqb_spec (Z.of_nat (size (elements p))) (number_of_elements p))
    as [Ee|Ee]; [|reflexivity].
  destruct Hcount; contradiction.
Qed.

Lemma count_mismatch_aborts_witness :
  exists w1 : io, load (on_file duplicate_node_ids) = (Raise AssertionError, w1).
Proof.
  eexists.
  eapply (count_mismatch_aborts (on_file duplicate_node_ids)).
  - vm_compute. reflexivity.
  - left. vm_compute. discriminate.
Defined.

Lemma unknown_type_not_assembled (elem_type : Z) :
  ELEMENT_TYPES elem_type = None ->
  (elem_type =? 1) = false /\ (elem_type =? 2) = false /\ (elem_type =? 3) = false.
Proof.
  intros H. repeat split; apply Z.eqb_neq; intros ->; discriminate.
Qed.

(** C8: an element whose type [ELEMENT_TYPES] lacks does not stop the
    parsing.  In both grammars its line is read, a message naming the type is
    printed, and the element is stored under its number with an empty node
    list; the loop over the elements then passes it without touching the
    edges, the faces or the names. *)
Theorem unknown_element_type_is_skipped (elem_type : Z) :
  ELEMENT_TYPES elem_type = None ->
  (forall (line sid stype stags : string) (toks rest : list string)
          (num num_tags pe ge : Z) (partitions : list Z)
          (elements : gmap Z element) (h : bool) (out : list string),
      Py.isspace line = false ->
      Py.split line = sid :: stype :: stags :: toks ->
      int sid = Ok num -> int stype = Ok elem_type -> int stags = Ok num_tags ->
      read_ints (sid :: stype :: stags :: toks) 3 (Z.to_nat num_tags)
      = Ok (pe :: ge :: partitions) ->
      legacy_element_line elements (mkIO (line :: rest) h out)
      = (Ok (<[num := mkElement elem_type (Some pe) (Some ge) []]> elements),
         mkIO rest h (out ++ [element_message elem_type])))
  /\ (forall (line sid : string) (toks rest : list string) (num : Z)
             (elements : gmap Z element) (h : bool) (out : list string),
         Py.isspace line = false ->
         Py.split line = sid :: toks ->
         int sid = Ok num ->
         block_element_line elem_type elements (mkIO (line :: rest) h out)
         = (Ok (<[num := mkElement elem_type None None []]> elements),
            mkIO rest h (out ++ [element_message elem_type])))
  /\ (forall (physical_names : gmap Z (gmap Z string)) (el : element)
             (acc : assembly),
         el_type el = elem_type ->
         element_step physical_names el acc = Ok acc).
Proof.
  intros Hty. split; [|split].
  - intros line sid stype stags toks rest num num_tags pe ge partitions
      elements h out Hsp Hsplit Hid Htype Htags Hread.
    unfold legacy_element_line, bind, readline, liftR, ret. simpl.
    rewrite Hsp, Hsplit. simpl. rewrite Hid, Htype, Htags. simpl.
    rewrite Hread. simpl.
    unfold read_elem_nodes. rewrite Hty. reflexivity.
  - intros line sid toks rest num elements h out Hsp Hsplit Hid.
    unfold block_element_line, bind, readline, liftR, ret. simpl.
    rewrite Hsp, Hsplit. simpl. rewrite Hid. simpl.
    unfold read_elem_nodes. rewrite Hty. reflexivity.
  - intros pn el acc <-.
    destruct (unknown_type_not_assembled _ Hty) as (H1 & H2 & H3).
    apply element_step_other; unfold is_line, is_face.
    + exact H1.
    + rewrite H2, H3. reflexivity.
Qed.

Lemma unknown_element_type_is_skipped_witness :
  legacy_element_line ∅ (mkIO (text ["7 99 2 4 5 1 2 3"; "$EndElements"]) true [])
  = (Ok {[ 7 := mkElement 99 (Some 4) (Some 5) [] ]},
     mkIO (text ["$EndElements"]) true ["Element 99 not implemented"])
  /\ block_element_line 99 ∅ (mkIO (text ["7 1 2 3"; "$EndElements"]) true [])
     = (Ok {[ 7 := mkElement 99 None None [] ]},
        mkIO (text ["$EndElements"]) true ["Element 99 not implemented"])
  /\ element_step names_top_bottom (mkElement 99 (Some 4) (Some 5) [])
       ([[0; 1]], [([0; 1; 2], [0; 1; 2])], ["top"])
     = Ok ([[0; 1]], [([0; 1; 2], [0; 1; 2])], ["top"]).
Proof.
  pose proof (unknown_element_type_is_skipped 99 eq_refl) as (Hl & Hb & Hs).
  split; [|split].
  - refine (Hl _ "7" "99" "2" ["4"; "5"; "1"; "2"; "3"] _ 7 2 4 5 [] ∅ true []
              _ _ _ _ _ _); reflexivity.
  - refine (Hb _ "7" ["1"; "2"; "3"] _ 7 ∅ true [] _ _ _); reflexivity.
  - apply Hs. reflexivity.
Defined.

(** C9, as stated, fails on the exception paths: when an exception leaves
    [load], the file is open still when the exception reaches the caller.
    Here the file ends after its first line ([IndexError] on line 183), or
    declares two nodes and stores one ([AssertionError] on line 301). *)
Lemma file_open_when_an_exception_leaves_load :
  load_call (on_file only_MeshFormat) = (Raise IndexError, mkIO [] true [])
  /\ (load_call (on_file duplicate_node_ids)).1 = Raise AssertionError
  /\ handle_open (load_call (on_file duplicate_node_ids)).2 = true
  /\ handle_open (load_call (on_file duplicate_node_ids)).2 <> false.
Proof. repeat split; [vm_compute; discriminate]. Qed.

(** C9, amended: when the call of [load] returns, with a mesh or with the
    early [None], the file is closed, by the finaliser of the file object
    and not by [load], whose body leaves it open on every path; when the
    call raises, the file is open while the exception propagates. *)
Theorem file_closed_on_return_only (w : io) :
  handle_open (load w).2 = true
  /\ handle_open (load_call w).2
     = match (load_call w).1 with
       | Ok _ => false
       | Raise _ => true
       end.
Proof.
  split; [exact (load_leaves_open w)|].
  pose proof (load_leaves_open w) as H.
  unfold load_call, call. destruct (load w) as [[a|e] w']; simpl in *.
  - reflexivity.
  - exact H.
Qed.

(** C10: the edges that [load] returns are the zero-based node tuples of the
    elements of type 1, one for each of them, in the order of the element
    numbers and with repetitions kept; each is a pair. *)
Theorem edges_are_not_deduplicated (w w' : io) (m : mesh) (names : list string) :
  load w = (Ok (Some (m, names)), w') ->
  exists (p : parsed) (els : list element),
    parse w = (Ok (Some p), w')
    /\ elements_in_order (elements p) (number_of_elements p) = Some els
    /\ mesh_edges m = map zero_based (List.filter is_line els)
    /\ length (mesh_edges m) = length (List.filter is_line els)
    /\ Forall (fun e => length e = 2%nat) (mesh_edges m).
Proof.
  intros H. apply load_inv in H as (p & Hparse & Hbuild).
  pose proof (parse_wf _ _ _ Hparse) as Hwf.
  unfold build in Hbuild.
  destruct (negb _); [discriminate|].
  destruct (negb _); [discriminate|].
  apply rbind_Ok in Hbuild as (verts & _ & Hbuild).
  apply rbind_Ok in Hbuild as ([[edges fd] sn] & Hasm & [= <- <-]).
  apply assemble_elements_spec in Hasm as (els & Hels & Hall & -> & _);
    [|exact Hwf].
  exists p, els. simpl. rewrite length_map. repeat split; try assumption.
  apply Forall_map. apply List.Forall_forall. intros el Hin.
  apply List.filter_In in Hin as [Hin Hline].
  rewrite List.Forall_forall in Hall. specialize (Hall el Hin).
  unfold element_wf in Hall. unfold is_line in Hline.
  apply Z.eqb_eq in Hline. rewrite Hline in Hall. simpl in Hall.
  unfold zero_based. simpl. rewrite length_map. exact Hall.
Qed.

Lemma edges_are_not_deduplicated_witness :
  exists (m : mesh) (w' : io),
    load (on_file three_lines) = (Ok (Some (m, [])), w')
    /\ mesh_edges m = [[0; 1]; [1; 0]; [0; 1]]
    /\ exists (p : parsed) (els : list element),
         parse (on_file three_lines) = (Ok (Some p), w')
         /\ elements_in_order (elements p) (number_of_elements p) = Some els
         /\ mesh_edges m = map zero_based (List.filter is_line els)
         /\ length (mesh_edges m) = length (List.filter is_line els)
         /\ Forall (fun e => length e = 2%nat) (mesh_edges m).
Proof.
  eexists _, _. split; [vm_compute; reflexivity|].
  split; [reflexivity|].
  eapply (edges_are_not_deduplicated (on_file three_lines)).
  vm_compute. reflexivity.
Defined.

(** ** Further properties of the code *)

Import MoreSamples.

Lemma read_header_None (w w' : io) :
  read_header w = (Ok None, w') ->
  Py.rstrip (hd "" (pending w)) <> "$MeshFormat".
Proof.
  unfold read_header. unfold bind at 1. simpl. unfold bind at 1.
  unfold readline. simpl.
  destruct (pending w) as [|l rest]; simpl.
  - intros _. discriminate.
  - destruct (String.eqb_spec (Py.rstrip l) "$MeshFormat") as [E|E]; simpl.
    + intros H. exfalso.
      apply bind_Ok in H as (v & w1 & _ & H).
      apply bind_Ok in H as ([pn cmd] & w2 & _ & H).
      apply ret_Ok in H as [[=] _].
    + intros _. exact E.
Qed.

Lemma read_header_mismatch (w : io) :
  Py.rstrip (hd "" (pending w)) <> "$MeshFormat" ->
  read_header w = (Ok None, mkIO (tl (pending w)) true (stdout w)).
Proof.
  intros Hne. unfold read_header. unfold bind at 1. simpl. unfold bind at 1.
  unfold readline. simpl.
  destruct (pending w) as [|l rest]; simpl in *.
  - reflexivity.
  - destruct (String.eqb_spec (Py.rstrip l) "$MeshFormat") as [E|E]; [contradiction|].
    reflexivity.
Qed.

(** X1: [load] returns [None] exactly when the first line of the file,
    without its trailing white space, is not [$MeshFormat] (an empty file
    included); it has then read that one line and printed nothing. *)
Theorem load_returns_None_iff_not_MeshFormat (w : io) :
  ((load w).1 = Ok None <-> Py.rstrip (hd "" (pending w)) <> "$MeshFormat")
  /\ (Py.rstrip (hd "" (pending w)) <> "$MeshFormat" ->
      load w = (Ok None, mkIO (tl (pending w)) true (stdout w))).
Proof.
  assert (Py.rstrip (hd "" (pending w)) <> "$MeshFormat" ->
          load w = (Ok None, mkIO (tl (pending w)) true (stdout w))) as Hmis.
  { intros Hne. unfold load, parse, bind.
    rewrite (read_header_mismatch w Hne). reflexivity. }
  split; [|exact Hmis]. split.
  - intros H. destruct (load w) as [r w'] eqn:Hload. simpl in H. subst r.
    unfold load in Hload.
    apply bind_Ok in Hload as ([p|] & w1 & Hparse & Hload).
    + apply bind_Ok in Hload as (r & w2 & _ & Hload).
      apply ret_Ok in Hload as [[=] _].
    + unfold parse in Hparse.
      apply bind_Ok in Hparse as ([[[v pn] cmd]|] & w2 & Hhead & Hparse).
      * apply bind_Ok in Hparse as (p & w3 & _ & Hparse).
        apply ret_Ok in Hparse as [[=] _].
      * exact (read_header_None _ _ Hhead).
  - intros Hne. rewrite (Hmis Hne). reflexivity.
Qed.

Lemma load_returns_None_iff_not_MeshFormat_witness :
  load (on_file []) = (Ok None, mkIO [] true [])
  /\ load (on_file not_a_mesh) = (Ok None, mkIO (text ["endsolid cube"]) true []).
Proof.
  split.
  - apply (proj2 (load_returns_None_iff_not_MeshFormat (on_file []))). discriminate.
  - apply (proj2 (load_returns_None_iff_not_MeshFormat (on_file not_a_mesh))).
    vm_compute. discriminate.
Defined.

Lemma item_Ok {A} (s : list A) (i : nat) (a : A) : item s i = Ok a -> s !! i = Some a.
Proof. unfold item, or_raise. destruct (s !! i); [intros [= ->]; reflexivity | discriminate]. Qed.

Lemma int_Ok (t : string) (z : Z) : int t = Ok z -> Py.int t = Some z.
Proof. unfold int, or_raise. destruct (Py.int t); [intros [= ->]; reflexivity | discriminate]. Qed.

Lemma float_Ok (t : string) (v : Py.pyfloat) : float t = Ok v -> Py.float t = Some v.
Proof. unfold float, or_raise. destruct (Py.float t); [intros [= ->]; reflexivity | discriminate]. Qed.

Lemma readline_eq (w : io) :
  readline w = (Ok (hd "" (pending w)), mkIO (tl (pending w)) (handle_open w) (stdout w)).
Proof. unfold readline. destruct w as [[|l rest] h out]; reflexivity. Qed.

Lemma read_format_Ok (w w' : io) (v : Py.pyfloat) :
  read_format w = (Ok v, w') ->
  exists (t0 t1 t2 : string) (toks : list string),
    Py.split (hd "" (pending w)) = t0 :: t1 :: t2 :: toks
    /\ Py.float t0 = Some v
    /\ is_Some (Py.int t1) /\ is_Some (Py.int t2).
Proof.
  unfold read_format. intros H.
  apply bind_Ok in H as (l & w1 & Hl & H).
  rewrite readline_eq in Hl. injection Hl as <- <-.
  apply bind_Ok in H as (v' & w2 & Hv & H).
  apply liftR_Ok in Hv as [Hv ->].
  apply bind_Ok in H as (l' & w3 & _ & H).
  apply ret_Ok in H as [-> _].
  apply rbind_Ok in Hv as (v0 & Hv0 & Hv).
  apply rbind_Ok in Hv as (a & Ha & Hv).
  apply rbind_Ok in Hv as (b & Hb & [= ->]).
  apply rbind_Ok in Hv0 as (t0 & Ht0 & Hf).
  apply rbind_Ok in Ha as (t1 & Ht1 & Hi1).
  apply rbind_Ok in Hb as (t2 & Ht2 & Hi2).
  apply item_Ok in Ht0, Ht1, Ht2.
  destruct (Py.split (hd "" (pending w))) as [|s0 [|s1 [|s2 toks]]]; try discriminate.
  injection Ht0 as ->. injection Ht1 as ->. injection Ht2 as ->.
  exists t0, t1, t2, toks. split; [reflexivity|].
  split; [exact (float_Ok _ _ Hf)|].
  split; [exists a; exact (int_Ok _ _ Hi1) | exists b; exact (int_Ok _ _ Hi2)].
Qed.

Lemma read_header_Some (w w' : io) (v : Py.pyfloat) (pn : gmap Z (gmap Z string))
    (cmd : string) :
  read_header w = (Ok (Some (v, pn, cmd)), w') ->
  Py.rstrip (hd "" (pending w)) = "$MeshFormat"
  /\ exists w1 w2,
       read_format (mkIO (tl (pending w)) true (stdout w)) = (Ok v, w1)
       /\ read_physical_names w1 = (Ok (pn, cmd), w2) /\ w' = w2.
Proof.
  unfold read_header. unfold bind at 1. simpl. unfold bind at 1.
  rewrite readline_eq. simpl.
  destruct (String.eqb_spec (Py.rstrip (hd "" (pending w))) "$MeshFormat") as [E|E]; simpl.
  - intros H. split; [exact E|].
    apply bind_Ok in H as (v' & w1 & Hv & H).
    apply bind_Ok in H as ([pn' cmd'] & w2 & Hpn & H).
    apply ret_Ok in H as [[= -> -> ->] ->]. eauto.
  - intros [=].
Qed.

Lemma load_header (w w' : io) (m : mesh) (names : list string) :
  load w = (Ok (Some (m, names)), w') ->
  exists (p : parsed) (v : Py.pyfloat) (pn : gmap Z (gmap Z string)) (cmd : string)
         (w1 : io),
    parse w = (Ok (Some p), w') /\ build p = Ok (m, names)
    /\ read_header w = (Ok (Some (v, pn, cmd)), w1)
    /\ read_tables v pn cmd w1 = (Ok p, w').
Proof.
  intros H. apply load_inv in H as (p & Hparse & Hbuild).
  exists p. pose proof Hparse as Hp. unfold parse in Hp.
  apply bind_Ok in Hp as ([[[v pn] cmd]|] & w1 & Hhead & Hp).
  - apply bind_Ok in Hp as (p' & w2 & Htab & Hp).
    apply ret_Ok in Hp as [[= ->] ->]. exists v, pn, cmd, w1. auto.
  - apply ret_Ok in Hp as [[=] _].
Qed.

(** X2: [load] returns a mesh only if the line after [$MeshFormat] has at
    least three tokens, the first a float (the version kept) and the next two
    integers; with no token on that line it raises [IndexError], with a first
    token that is no float [ValueError], two lines being read. *)
Theorem format_line_must_parse (w : io) :
  (forall (w' : io) (m : mesh) (names : list string),
      load w = (Ok (Some (m, names)), w') ->
      exists (t0 t1 t2 : string) (toks : list string) (p : parsed),
        Py.rstrip (hd "" (pending w)) = "$MeshFormat"
        /\ Py.split (hd "" (tl (pending w))) = t0 :: t1 :: t2 :: toks
        /\ parse w = (Ok (Some p), w')
        /\ Py.float t0 = Some (version_number p)
        /\ is_Some (Py.int t1) /\ is_Some (Py.int t2))
  /\ (Py.rstrip (hd "" (pending w)) = "$MeshFormat" ->
      Py.split (hd "" (tl (pending w))) = [] ->
      load w = (Raise IndexError, mkIO (tl (tl (pending w))) true (stdout w)))
  /\ (forall (t0 : string) (toks : list string),
         Py.rstrip (hd "" (pending w)) = "$MeshFormat" ->
         Py.split (hd "" (tl (pending w))) = t0 :: toks ->
         Py.float t0 = None ->
         load w = (Raise ValueError, mkIO (tl (tl (pending w))) true (stdout w))).
Proof.
  split; [|split].
  - intros w' m names H.
    apply load_header in H as (p & v & pn & cmd & w1 & Hparse & _ & Hhead & Htab).
    apply read_header_Some in Hhead as (Hfirst & w2 & w3 & Hfmt & _ & _).
    apply read_format_Ok in Hfmt as (t0 & t1 & t2 & toks & Hs & Hf & H1 & H2).
    simpl in Hs. exists t0, t1, t2, toks, p.
    assert (version_number p = v) as ->.
    { unfold read_tables in Htab.
      apply bind_Ok in Htab as (c & ? & _ & Htab).
      apply bind_Ok in Htab as ([? ?] & ? & _ & Htab).
      apply bind_Ok in Htab as (? & ? & _ & Htab).
      apply bind_Ok in Htab as ([? ?] & ? & _ & Htab).
      apply ret_Ok in Htab as [-> _]. reflexivity. }
    auto 10.
  - intros Hfirst Hs.
    unfold load, parse, read_header. unfold bind at 1 2 3. simpl.
    unfold bind at 1. rewrite readline_eq. simpl.
    rewrite Hfirst. simpl. unfold read_format. unfold bind at 1 2.
    rewrite readline_eq. simpl. rewrite Hs. reflexivity.
  - intros t0 toks Hfirst Hs Hf.
    unfold load, parse, read_header. unfold bind at 1 2 3. simpl.
    unfold bind at 1. rewrite readline_eq. simpl.
    rewrite Hfirst. simpl. unfold read_format. unfold bind at 1 2.
    rewrite readline_eq. simpl. rewrite Hs. simpl.
    unfold float. rewrite Hf. reflexivity.
Qed.

Lemma format_line_must_parse_witness :
  load (on_file (text ["$MeshFormat"])) = (Raise IndexError, mkIO [] true [])
  /\ load (on_file (text ["$MeshFormat"; "two 0 8"; "$EndMeshFormat"]))
     = (Raise ValueError, mkIO (text ["$EndMeshFormat"]) true [])
  /\ exists (t0 t1 t2 : string) (toks : list string) (p : parsed),
       Py.rstrip (hd "" (pending (on_file legacy_with_names))) = "$MeshFormat"
       /\ Py.split (hd "" (tl (pending (on_file legacy_with_names))))
          = t0 :: t1 :: t2 :: toks
       /\ parse (on_file legacy_with_names)
          = (Ok (Some p), mkIO (text ["$EndElements"]) true [])
       /\ Py.float t0 = Some (version_number p)
       /\ is_Some (Py.int t1) /\ is_Some (Py.int t2).
Proof.
  split; [|split].
  - apply (proj1 (proj2 (format_line_must_parse (on_file (text ["$MeshFormat"])))));
      reflexivity.
  - apply (proj2 (proj2 (format_line_must_parse
                           (on_file (text ["$MeshFormat"; "two 0 8"; "$EndMeshFormat"]))))
             "two" ["0"; "8"]); reflexivity.
  - eapply (proj1 (format_line_must_parse (on_file legacy_with_names))).
    vm_compute. reflexivity.
Defined.

(** A table of [n] entries that has the keys 1..n has no other key. *)
Lemma keys_1_to_n {V} (m : gmap Z V) (n : nat) :
  size m = n ->
  (forall i : nat, (i < n)%nat -> is_Some (m !! (Z.of_nat i + 1))) ->
  forall k : Z, is_Some (m !! k) <-> 1 <= k <= Z.of_nat n.
Proof.
  intros Hsize Hall.
  set (l := (fun i : nat => Z.of_nat i + 1) <$> seq 0 n).
  assert (NoDup l) as Hnd.
  { apply NoDup_fmap_2; [intros i j Hij; lia | apply NoDup_seq]. }
  assert (forall k, k ∈ l <-> 1 <= k <= Z.of_nat n) as Hl.
  { intros k. unfold l. rewrite list_elem_of_fmap. split.
    - intros (i & -> & Hi). apply elem_of_seq in Hi. lia.
    - intros Hk. exists (Z.to_nat (k - 1)). split; [lia|].
      apply elem_of_seq. lia. }
  assert ((list_to_set l : gset Z) = dom m) as Hdom.
  { apply set_subseteq_size_eq.
    - intros k Hk. apply elem_of_list_to_set, Hl in Hk.
      apply elem_of_dom. replace k with (Z.of_nat (Z.to_nat (k - 1)) + 1) by lia.
      apply Hall. lia.
    - rewrite size_dom, (size_list_to_set _ Hnd). unfold l.
      rewrite length_fmap, length_seq. lia. }
  intros k. rewrite <- elem_of_dom, <- Hdom, elem_of_list_to_set. apply Hl.
Qed.

Lemma assemble_verts_from (nodes : gmap Z coords) :
  forall (n : nat) (i : Z) (acc verts : list coords),
    rfor_from n i
      (fun i verts => let? v := getitem nodes (i + 1) in Ok (verts ++ [v])%list) acc
    = Ok verts ->
    exists new : list coords,
      verts = (acc ++ new)%list /\ length new = n
      /\ forall j : nat, (j < n)%nat -> nodes !! (i + Z.of_nat j + 1) = new !! j.
Proof.
  induction n as [|n IH]; simpl; intros i acc verts H.
  - injection H as <-. exists []. rewrite app_nil_r. repeat split. intros j Hj. lia.
  - apply rbind_Ok in H as (acc' & Hstep & H).
    apply rbind_Ok in Hstep as (v & Hv & [= <-]).
    unfold getitem, or_raise in Hv.
    destruct (nodes !! (i + 1)) as [v'|] eqn:Hlook; [|discriminate].
    injection Hv as ->.
    destruct (IH _ _ _ H) as (new & -> & Hlen & Hnew).
    exists (v :: new). rewrite <- app_assoc. simpl. repeat split; [lia|].
    intros [|j] Hj; simpl.
    + rewrite Z.add_0_r. exact Hlook.
    + rewrite <- Hnew by lia. f_equal. lia.
Qed.

Lemma build_inv (p : parsed) (m : mesh) (names : list string) :
  build p = Ok (m, names) ->
  Z.of_nat (size (nodes p)) = number_of_nodes p
  /\ Z.of_nat (size (elements p)) = number_of_elements p
  /\ assemble_verts (nodes p) (number_of_nodes p) = Ok (mesh_verts m)
  /\ exists faces_dict,
       assemble_elements (physical_names p) (elements p) (number_of_elements p)
       = Ok (mesh_edges m, faces_dict, names)
       /\ mesh_faces m = map fst faces_dict.
Proof.
  unfold build. intros H.
  destruct (Z.eqb_spec (Z.of_nat (size (nodes p))) (number_of_nodes p)) as [En|];
    [|discriminate].
  destruct (Z.eqb_spec (Z.of_nat (size (elements p))) (number_of_elements p)) as [Ee|];
    [|discriminate].
  simpl in H.
  apply rbind_Ok in H as (verts & Hverts & H).
  apply rbind_Ok in H as ([[edges fd] sn] & Hasm & [= <- <-]).
  simpl. eauto 10.
Qed.

(** X3: when [load] returns a mesh, the nodes read are numbered exactly
    1..[number_of_nodes], there are as many vertices, and vertex [k-1] is
    node [k]. *)
Theorem vertices_follow_node_numbers (w w' : io) (m : mesh) (names : list string) :
  load w = (Ok (Some (m, names)), w') ->
  exists p : parsed,
    parse w = (Ok (Some p), w')
    /\ Z.of_nat (length (mesh_verts m)) = number_of_nodes p
    /\ (forall k : Z, is_Some (nodes p !! k) <-> 1 <= k <= number_of_nodes p)
    /\ (forall k : Z, 1 <= k <= number_of_nodes p ->
                      mesh_verts m !! Z.to_nat (k - 1) = nodes p !! k).
Proof.
  intros H. apply load_inv in H as (p & Hparse & Hbuild).
  apply build_inv in Hbuild as (Hn & _ & Hverts & _).
  exists p. split; [exact Hparse|].
  unfold assemble_verts, rfor_range in Hverts.
  apply assemble_verts_from in Hverts as (new & Hv & Hlen & Hnew).
  simpl in Hv. rewrite Hv.
  assert (forall k, is_Some (nodes p !! k) <-> 1 <= k <= number_of_nodes p) as Hkeys.
  { intros k. rewrite <- Hn. apply keys_1_to_n; [reflexivity|].
    intros i Hi. specialize (Hnew i). rewrite Z.add_0_l in Hnew.
    rewrite Hnew by lia. apply lookup_lt_is_Some. lia. }
  split; [lia|]. split; [exact Hkeys|].
  intros k Hk. rewrite <- Hnew by lia. f_equal. lia.
Qed.

Lemma vertices_follow_node_numbers_witness :
  exists (m : mesh) (names : list string) (w' : io),
    load (on_file legacy_with_names) = (Ok (Some (m, names)), w')
    /\ length (mesh_verts m) = 3%nat
    /\ exists p : parsed,
         parse (on_file legacy_with_names) = (Ok (Some p), w')
         /\ Z.of_nat (length (mesh_verts m)) = number_of_nodes p
         /\ (forall k : Z, is_Some (nodes p !! k) <-> 1 <= k <= number_of_nodes p)
         /\ (forall k : Z, 1 <= k <= number_of_nodes p ->
                           mesh_verts m !! Z.to_nat (k - 1) = nodes p !! k).
Proof.
  eexists _, _, _. split; [vm_compute; reflexivity|].
  split; [reflexivity|].
  eapply (vertices_follow_node_numbers (on_file legacy_with_names)).
  vm_compute. reflexivity.
Defined.

(** X4: when [load] returns a mesh, the elements read are numbered exactly
    1..[number_of_elements]. *)
Theorem elements_are_numbered_from_1 (w w' : io) (m : mesh) (names : list string) :
  load w = (Ok (Some (m, names)), w') ->
  exists p : parsed,
    parse w = (Ok (Some p), w')
    /\ 0 <= number_of_elements p
    /\ forall k : Z, is_Some (elements p !! k) <-> 1 <= k <= number_of_elements p.
Proof.
  intros H. apply load_inv in H as (p & Hparse & Hbuild).
  apply build_inv in Hbuild as (_ & Hn & _ & fd & Hasm & _).
  exists p. split; [exact Hparse|]. split; [lia|].
  unfold assemble_elements, rfor_range in Hasm.
  apply rfor_from_steps in Hasm as (els & Hels & _).
  intros k. rewrite <- Hn. apply keys_1_to_n; [reflexivity|].
  intros i Hi.
  replace (Z.of_nat i + 1) with (0 + 1 + Z.of_nat i) by lia.
  rewrite <- (elements_from_lookup _ _ _ _ Hels i) by lia.
  apply lookup_lt_is_Some.
  assert (length els = Z.to_nat (number_of_elements p)) as ->; [|lia].
  clear -Hels. revert Hels. generalize (Z.to_nat (number_of_elements p)) 0.
  intros n. revert els. induction n as [|n IH]; simpl; intros els i H.
  - injection H as <-. reflexivity.
  - destruct (elements p !! (i + 1)); [|discriminate].
    destruct (elements_from (elements p) n (i + 1)) as [els'|] eqn:E; [|discriminate].
    injection H as <-. simpl. f_equal. eauto.
Qed.

Lemma elements_are_numbered_from_1_witness :
  exists (m : mesh) (names : list string) (w' : io),
    load (on_file three_lines) = (Ok (Some (m, names)), w')
    /\ exists p : parsed,
         parse (on_file three_lines) = (Ok (Some p), w')
         /\ 0 <= number_of_elements p
         /\ forall k : Z, is_Some (elements p !! k) <-> 1 <= k <= number_of_elements p.
Proof.
  eexists _, _, _. split; [vm_compute; reflexivity|].
  eapply (elements_are_numbered_from_1 (on_file three_lines)).
  vm_compute. reflexivity.
Defined.

Lemma insert_sorted_Permutation (x : Z) (l : list Z) :
  Permutation (insert_sorted x l) (x :: l).
Proof.
  induction l as [|y l IH]; simpl; [reflexivity|].
  destruct (x <=? y); [reflexivity|].
  rewrite IH. apply perm_swap.
Qed.

Lemma sorted_Permutation (l : list Z) : Permutation (sorted l) l.
Proof.
  induction l as [|x l IH]; simpl; [reflexivity|].
  rewrite insert_sorted_Permutation. apply perm_skip. exact IH.
Qed.

Lemma insert_sorted_Sorted (x : Z) (l : list Z) :
  Sorted Z.le l -> Sorted Z.le (insert_sorted x l).
Proof.
  induction l as [|y l IH]; simpl; intros Hl.
  - repeat constructor.
  - destruct (Z.leb_spec x y) as [Hxy|Hxy].
    + constructor; [exact Hl | constructor; exact Hxy].
    + apply Sorted_inv in Hl as [Hl Hhd]. constructor; [auto|].
      destruct l as [|z l]; simpl.
      * constructor. lia.
      * destruct (Z.leb_spec x z); constructor; [lia|].
        apply HdRel_inv in Hhd. exact Hhd.
Qed.

Lemma sorted_Sorted (l : list Z) : Sorted Z.le (sorted l).
Proof.
  induction l as [|x l IH]; simpl; [constructor|].
  apply insert_sorted_Sorted. exact IH.
Qed.

Lemma first_seen_sub (els : list element) :
  forall (seen : list (list Z)) (el : element),
    el ∈ first_seen seen els ->
    el ∈ els /\ is_face el = true /\ face_key el ∉ seen.
Proof.
  induction els as [|e els IH]; simpl; intros seen el Hin.
  - apply elem_of_nil in Hin. contradiction.
  - destruct (is_face e) eqn:Hface.
    + case_bool_decide as Hseen.
      * destruct (IH _ _ Hin) as (H1 & H2 & H3).
        split; [apply elem_of_cons; right; exact H1 | auto].
      * apply elem_of_cons in Hin as [-> | Hin].
        -- split; [apply elem_of_cons; left; reflexivity | auto].
        -- destruct (IH _ _ Hin) as (H1 & H2 & H3).
           split; [apply elem_of_cons; right; exact H1|].
           split; [exact H2|]. intros Hs. apply H3. apply elem_of_cons. right. exact Hs.
    + destruct (IH _ _ Hin) as (H1 & H2 & H3).
      split; [apply elem_of_cons; right; exact H1 | auto].
Qed.

Lemma first_seen_NoDup (els : list element) :
  forall seen : list (list Z), NoDup (map face_key (first_seen seen els)).
Proof.
  induction els as [|e els IH]; simpl; intros seen; [constructor|].
  destruct (is_face e); [|apply IH].
  case_bool_decide as Hseen; [apply IH|].
  simpl. constructor; [|apply IH].
  intros Hin. apply list_elem_of_fmap in Hin as (el & Hkey & Hel).
  apply first_seen_sub in Hel as (_ & _ & Hnot).
  apply Hnot. rewrite <- Hkey. apply elem_of_cons. left. reflexivity.
Qed.

Lemma elements_from_elem_of (elements : gmap Z element) :
  forall (n : nat) (i : Z) (els : list element) (el : element),
    elements_from elements n i = Some els -> el ∈ els ->
    exists k : Z, i + 1 <= k <= i + Z.of_nat n /\ elements !! k = Some el.
Proof.
  intros n i els el Hels Hin.
  apply list_elem_of_lookup in Hin as (j & Hj).
  assert (j < n)%nat as Hlt.
  { apply lookup_lt_Some in Hj.
    assert (length els = n) as <-; [|exact Hj].
    clear -Hels. revert i els Hels. induction n as [|n IH]; simpl; intros i els H.
    - injection H as <-. reflexivity.
    - destruct (elements !! (i + 1)); [|discriminate].
      destruct (elements_from elements n (i + 1)) as [els'|] eqn:E; [|discriminate].
      injection H as <-. simpl. f_equal. eauto. }
  exists (i + 1 + Z.of_nat j). split; [lia|].
  rewrite <- (elements_from_lookup _ _ _ _ Hels j Hlt). exact Hj.
Qed.

(** X5: when [load] returns a mesh, its faces are pairwise different, each
    is in ascending order and has three or four entries, and each is a
    rearrangement of the zero-based nodes of a triangle or quadrangle among
    the elements read. *)
Theorem faces_are_sorted_and_distinct (w w' : io) (m : mesh) (names : list string) :
  load w = (Ok (Some (m, names)), w') ->
  NoDup (mesh_faces m)
  /\ Forall (fun face => Sorted Z.le face
                         /\ (length face = 3%nat \/ length face = 4%nat))
       (mesh_faces m)
  /\ exists p : parsed,
       parse w = (Ok (Some p), w')
       /\ Forall (fun face =>
                    exists (k : Z) (el : element),
                      1 <= k <= number_of_elements p
                      /\ elements p !! k = Some el
                      /\ is_face el = true
                      /\ Permutation face (zero_based el))
            (mesh_faces m).
Proof.
  intros H. apply load_inv in H as (p & Hparse & Hbuild).
  pose proof (parse_wf _ _ _ Hparse) as Hwf.
  apply build_inv in Hbuild as (_ & _ & _ & fd & Hasm & ->).
  apply assemble_elements_spec in Hasm
    as (els & Hels & Hall & _ & -> & _ & _); [|exact Hwf].
  split; [apply first_seen_NoDup|].
  assert (forall face, face ∈ map face_key (first_seen [] els) ->
            exists el, el ∈ els /\ is_face el = true /\ face = face_key el) as Hface.
  { intros face Hin. apply list_elem_of_fmap in Hin as (el & -> & Hel).
    apply first_seen_sub in Hel as (H1 & H2 & _). eauto. }
  split.
  - apply Forall_forall. intros face Hin.
    destruct (Hface face Hin) as (el & Hel & Hf & ->).
    split; [apply sorted_Sorted|].
    rewrite Forall_forall in Hall. specialize (Hall el Hel).
    unfold face_key. rewrite (Permutation_length (sorted_Permutation _)).
    unfold zero_based. rewrite length_map.
    unfold element_wf in Hall. unfold is_face in Hf.
    apply orb_true_iff in Hf as [Hf | Hf]; apply Z.eqb_eq in Hf;
      rewrite Hf in Hall; simpl in Hall; rewrite Hall; [left | right]; reflexivity.
  - exists p. split; [exact Hparse|].
    apply Forall_forall. intros face Hin.
    destruct (Hface face Hin) as (el & Hel & Hf & ->).
    destruct (elements_from_elem_of _ _ _ _ _ Hels Hel) as (k & Hk & Hlook).
    exists k, el. split; [lia|]. split; [exact Hlook|]. split; [exact Hf|].
    apply sorted_Permutation.
Qed.

Lemma faces_are_sorted_and_distinct_witness :
  exists (m : mesh) (names : list string) (w' : io),
    load (on_file same_face_two_names) = (Ok (Some (m, names)), w')
    /\ mesh_faces m = [[0; 1; 2]]
    /\ NoDup (mesh_faces m)
    /\ Forall (fun face => Sorted Z.le face
                           /\ (length face = 3%nat \/ length face = 4%nat))
         (mesh_faces m)
    /\ exists p : parsed,
         parse (on_file same_face_two_names) = (Ok (Some p), w')
         /\ Forall (fun face =>
                      exists (k : Z) (el : element),
                        1 <= k <= number_of_elements p
                        /\ elements p !! k = Some el
                        /\ is_face el = true
                        /\ Permutation face (zero_based el))
              (mesh_faces m).
Proof.
  eexists _, _, _. split; [vm_compute; reflexivity|].
  split; [reflexivity|].
  eapply (faces_are_sorted_and_distinct (on_file same_face_two_names)).
  vm_compute. reflexivity.
Defined.

Lemma rfor_from_steps_eq (physical_names : gmap Z (gmap Z string))
    (elements : gmap Z element) :
  forall (n : nat) (i : Z) (els : list element) (acc : assembly),
    elements_from elements n i = Some els ->
    rfor_from n i
      (fun i acc => let? element := getitem elements (i + 1) in
                    element_step physical_names element acc) acc
    = steps physical_names els acc.
Proof.
  induction n as [|n IH]; simpl; intros i els acc H.
  - injection H as <-. reflexivity.
  - unfold getitem. destruct (elements !! (i + 1)) as [el|]; [|discriminate].
    destruct (elements_from elements n (i + 1)) as [els'|] eqn:E; [|discriminate].
    injection H as <-. simpl.
    destruct (element_step physical_names el acc) as [acc'|e]; simpl; [|reflexivity].
    apply IH. exact E.
Qed.

Lemma elements_from_total (elements : gmap Z element) :
  forall (n : nat) (i : Z),
    (forall k : Z, i + 1 <= k <= i + Z.of_nat n -> is_Some (elements !! k)) ->
    exists els, elements_from elements n i = Some els.
Proof.
  induction n as [|n IH]; simpl; intros i H; [eauto|].
  destruct (H (i + 1)) as [el ->]; [lia|].
  destruct (IH (i + 1)) as [els ->]; [intros k Hk; apply H; lia|]. eauto.
Qed.

Lemma assemble_verts_total (nodes : gmap Z coords) :
  forall (n : nat) (i : Z) (acc : list coords),
    (forall k : Z, i + 1 <= k <= i + Z.of_nat n -> is_Some (nodes !! k)) ->
    exists verts,
      rfor_from n i
        (fun i verts => let? v := getitem nodes (i + 1) in Ok (verts ++ [v])%list) acc
      = Ok verts.
Proof.
  induction n as [|n IH]; simpl; intros i acc H; [eauto|].
  unfold getitem. destruct (H (i + 1)) as [v ->]; [lia|]. simpl.
  apply IH. intros k Hk. apply H. lia.
Qed.

Lemma steps_total (physical_names : gmap Z (gmap Z string)) (els : list element) :
  forall (seen : list (list Z)) (edges : list (list Z)) (faces_dict : ordered_dict)
         (surface_names : list string),
    Forall nonempty_face els ->
    stored_nonempty faces_dict ->
    (forall k, k ∈ seen <-> k ∈ map fst faces_dict) ->
    Forall (fun el => is_Ok (surface_name physical_names el)) (first_seen seen els) ->
    is_Ok (steps physical_names els (edges, faces_dict, surface_names)).
Proof.
  induction els as [|el els IH]; simpl;
    intros seen edges fd names Hne Hfd Hseen Hnames.
  - eexists. reflexivity.
  - apply Forall_cons in Hne as [Hel Hne].
    destruct (is_line el) eqn:Hline.
    + rewrite (line_not_face _ Hline) in Hnames.
      rewrite (element_step_line _ _ _ _ _ Hline). simpl. eauto.
    + destruct (is_face el) eqn:Hface.
      * case_bool_decide as Hin.
        -- apply Hseen in Hin.
           rewrite (element_step_duplicate _ _ _ _ _ Hfd Hface Hin). simpl. eauto.
        -- assert (face_key el ∉ map fst fd) as Hnin by (rewrite <- Hseen; exact Hin).
           apply Forall_cons in Hnames as [[name Hname] Hnames].
           assert (element_step physical_names el (edges, fd, names)
                   = Ok (edges, (fd ++ [(face_key el, zero_based el)])%list,
                         (names ++ [name])%list)) as ->.
           { unfold element_step, is_face in *.
             destruct (el_type el =? 1) eqn:H1.
             { apply Z.eqb_eq in H1. rewrite H1 in Hface. discriminate. }
             rewrite Hface. fold (face_key el).
             rewrite (not_get_fresh _ _ Hfd), (bool_decide_eq_false_2 _ Hnin). simpl.
             rewrite (od_set_fresh _ _ _ Hnin), Hname. reflexivity. }
           simpl. apply (IH (face_key el :: seen)); [exact Hne | | | exact Hnames].
           { apply Forall_app. split; [exact Hfd|].
             apply Forall_cons. split; [|constructor]. simpl.
             unfold zero_based. intros Hnil. apply map_eq_nil in Hnil.
             exact (Hel Hface Hnil). }
           { intros k. rewrite map_app, elem_of_app, elem_of_cons. simpl.
             rewrite list_elem_of_singleton, Hseen. tauto. }
      * rewrite (element_step_other _ _ _ Hline Hface). simpl. eauto.
Qed.

(** X6: once parsing is over, [load] returns a mesh exactly when the number
    of nodes and of elements stored are the declared ones, every node number
    1..[number_of_nodes] and every element number 1..[number_of_elements]
    exists, and the name of each first-seen triangle or quadrangle is found.
    Nothing else is checked: not the node numbers that the elements use. *)
Theorem load_succeeds_iff (w w1 : io) (p : parsed) :
  parse w = (Ok (Some p), w1) ->
  (exists r : mesh * list string, load w = (Ok (Some r), w1))
  <-> Z.of_nat (size (nodes p)) = number_of_nodes p
      /\ Z.of_nat (size (elements p)) = number_of_elements p
      /\ (forall k : Z, 1 <= k <= number_of_nodes p -> is_Some (nodes p !! k))
      /\ exists els : list element,
           elements_in_order (elements p) (number_of_elements p) = Some els
           /\ Forall (fun el => is_Ok (surface_name (physical_names p) el))
                (first_seen [] els).
Proof.
  intros Hparse. pose proof (parse_wf _ _ _ Hparse) as Hwf. split.
  - intros [[m names] Hload].
    apply load_inv in Hload as (p' & Hparse' & Hbuild).
    rewrite Hparse in Hparse'. injection Hparse' as <-.
    apply build_inv in Hbuild as (Hn & He & Hverts & fd & Hasm & _).
    repeat split; [exact Hn | exact He | |].
    + unfold assemble_verts, rfor_range in Hverts.
      apply assemble_verts_from in Hverts as (new & _ & Hlen & Hnew).
      intros k Hk. replace k with (0 + Z.of_nat (Z.to_nat (k - 1)) + 1) by lia.
      rewrite Hnew by lia. apply lookup_lt_is_Some. lia.
    + apply assemble_elements_spec in Hasm
        as (els & Hels & _ & _ & _ & Hnames & _); [|exact Hwf].
      exists els. split; [exact Hels|].
      clear -Hnames. induction Hnames as [|el name l l' H _ IH]; constructor.
      * exists name. exact H.
      * exact IH.
  - intros (Hn & He & Hnodes & els & Hels & Hnames).
    unfold load, bind. rewrite Hparse. unfold liftR, build.
    rewrite (proj2 (Z.eqb_eq _ _) Hn), (proj2 (Z.eqb_eq _ _) He). simpl.
    destruct (assemble_verts_total (nodes p) (Z.to_nat (number_of_nodes p)) 0 [])
      as [verts Hverts]; [intros k Hk; apply Hnodes; lia|].
    unfold assemble_verts, rfor_range. rewrite Hverts. simpl.
    unfold assemble_elements, rfor_range.
    rewrite (rfor_from_steps_eq _ _ _ _ _ _ Hels).
    assert (is_Ok (steps (physical_names p) els ([], [], [])))
      as [[[edges fd] sn] Hst]; [apply (steps_total _ _ []) | rewrite Hst; simpl; eauto].
    + pose proof (elements_from_wf _ Hwf _ _ _ Hels) as Hall.
      eapply Forall_impl; [exact Hall|]. apply element_wf_nonempty_face.
    + constructor.
    + intros k. simpl. reflexivity.
    + exact Hnames.
Qed.

Lemma load_succeeds_iff_witness :
  exists (p : parsed) (w1 : io),
    parse (on_file legacy_with_names) = (Ok (Some p), w1)
    /\ ((exists r : mesh * list string,
            load (on_file legacy_with_names) = (Ok (Some r), w1))
        <-> Z.of_nat (size (nodes p)) = number_of_nodes p
            /\ Z.of_nat (size (elements p)) = number_of_elements p
            /\ (forall k : Z, 1 <= k <= number_of_nodes p -> is_Some (nodes p !! k))
            /\ exists els : list element,
                 elements_in_order (elements p) (number_of_elements p) = Some els
                 /\ Forall (fun el => is_Ok (surface_name (physical_names p) el))
                      (first_seen [] els)).
Proof.
  eexists _, _. split; [vm_compute; reflexivity|].
  apply load_succeeds_iff. vm_compute. reflexivity.
Defined.

Lemma physical_names_init_dom : dom physical_names_init = dimensions.
Proof. unfold physical_names_init, dimensions. rewrite !dom_insert_L, dom_singleton_L. set_solver. Qed.

Lemma physical_name_line_dom (pn pn' : gmap Z (gmap Z string)) (w w' : io) :
  physical_name_line pn w = (Ok pn', w') -> dom pn' = dom pn.
Proof.
  unfold physical_name_line. intros H.
  apply bind_Ok in H as (line & w1 & _ & H).
  destruct (Py.isspace line).
  - apply ret_Ok in H as [-> _]. reflexivity.
  - apply liftR_Ok in H as [H _].
    apply rbind_Ok in H as (s & _ & H).
    apply rbind_Ok in H as (dim & _ & H).
    apply rbind_Ok in H as (num & _ & H).
    apply rbind_Ok in H as (name & _ & H).
    apply rbind_Ok in H as (names & Hnames & [= <-]).
    unfold getitem, or_raise in Hnames.
    destruct (pn !! dim) as [d|] eqn:Hd; [|discriminate].
    apply dom_insert_lookup_L. eauto.
Qed.

Lemma read_physical_names_dom (w w' : io) (pn : gmap Z (gmap Z string)) (cmd : string) :
  read_physical_names w = (Ok (pn, cmd), w') -> dom pn = dimensions.
Proof.
  unfold read_physical_names. intros H.
  apply bind_Ok in H as (l & w1 & _ & H).
  destruct (String.eqb _ _).
  - apply bind_Ok in H as (l1 & w2 & _ & H).
    apply bind_Ok in H as (n & w3 & _ & H).
    apply bind_Ok in H as (pn' & w4 & Hloop & H).
    apply bind_Ok in H as (l2 & w5 & _ & H).
    apply bind_Ok in H as (l3 & w6 & _ & H).
    apply ret_Ok in H as [[= -> ->] _].
    unfold for_range in Hloop.
    eapply (for_from_inv (fun pn => dom pn = dimensions)); [| |exact Hloop].
    + intros i s w0 s' w0' Hs Hb. rewrite (physical_name_line_dom _ _ _ _ Hb). exact Hs.
    + exact physical_names_init_dom.
  - apply ret_Ok in H as [[= -> ->] _]. exact physical_names_init_dom.
Qed.

Lemma read_tables_fields (v : Py.pyfloat) (pn : gmap Z (gmap Z string)) (cmd : string)
    (w w' : io) (p : parsed) :
  read_tables v pn cmd w = (Ok p, w') ->
  version_number p = v /\ physical_names p = pn.
Proof.
  unfold read_tables. intros H.
  apply bind_Ok in H as (c & ? & _ & H).
  apply bind_Ok in H as ([? ?] & ? & _ & H).
  apply bind_Ok in H as (? & ? & _ & H).
  apply bind_Ok in H as ([? ?] & ? & _ & H).
  apply ret_Ok in H as [-> _]. split; reflexivity.
Qed.

Lemma parse_names_dom (w w' : io) (p : parsed) :
  parse w = (Ok (Some p), w') -> dom (physical_names p) = dimensions.
Proof.
  unfold parse. intros H.
  apply bind_Ok in H as ([[[v pn] cmd]|] & w1 & Hhead & H).
  - apply bind_Ok in H as (p' & w2 & Htab & H).
    apply ret_Ok in H as [[= ->] _].
    apply read_tables_fields in Htab as [_ ->].
    apply read_header_Some in Hhead as (_ & w3 & w4 & _ & Hpn & _).
    exact (read_physical_names_dom _ _ _ _ Hpn).
  - apply ret_Ok in H as [[=] _].
Qed.

(** X7: a line of the names section with the tokens [dim num name]
    ([shlex] tokens, so a quoted name may hold spaces) stores [name] under
    dimension [dim] and number [num], over an earlier name if there is one,
    and touches no other entry, when [dim] is 1, 2 or 3; for any other
    dimension it raises [KeyError]. *)
Theorem physical_name_record (pn : gmap Z (gmap Z string))
    (line sd sn name : string) (more rest : list string) (dim num : Z)
    (h : bool) (out : list string) :
  dom pn = dimensions ->
  Py.isspace line = false ->
  Py.shlex_split line = Some (sd :: sn :: name :: more) ->
  Py.int sd = Some dim -> Py.int sn = Some num ->
  (1 <= dim <= 3 ->
   exists pn' : gmap Z (gmap Z string),
     physical_name_line pn (mkIO (line :: rest) h out) = (Ok pn', mkIO rest h out)
     /\ dom pn' = dimensions
     /\ (forall d n : Z,
           (pn' !! d) ≫= (.!! n)
           = if bool_decide (d = dim /\ n = num) then Some name
             else (pn !! d) ≫= (.!! n)))
  /\ (~ 1 <= dim <= 3 ->
      physical_name_line pn (mkIO (line :: rest) h out)
      = (Raise KeyError, mkIO rest h out)).
Proof.
  intros Hdom Hsp Hsplit Hdim Hnum.
  assert (physical_name_line pn (mkIO (line :: rest) h out)
          = (let? names := getitem pn dim in
             Ok (<[dim := <[num := name]> names]> pn), mkIO rest h out)) as Hrun.
  { unfold physical_name_line, bind, readline, liftR, ret. simpl.
    rewrite Hsp, Hsplit. simpl. unfold int. rewrite Hdim, Hnum. reflexivity. }
  assert (is_Some (pn !! dim) <-> 1 <= dim <= 3) as Hin.
  { rewrite <- elem_of_dom, Hdom. unfold dimensions.
    rewrite !elem_of_union, !elem_of_singleton. lia. }
  split.
  - intros Hd. destruct (proj2 Hin Hd) as [names Hnames].
    exists (<[dim := <[num := name]> names]> pn).
    rewrite Hrun. unfold getitem. rewrite Hnames. simpl.
    split; [reflexivity|]. split.
    + rewrite <- Hdom. apply dom_insert_lookup_L. eauto.
    + intros d n. case_bool_decide as Hdn.
      * destruct Hdn as [-> ->]. rewrite lookup_insert_eq. simpl.
        apply lookup_insert_eq.
      * destruct (decide (d = dim)) as [->|Hd'].
        -- rewrite lookup_insert_eq, Hnames. simpl.
           apply lookup_insert_ne. intros ->. apply Hdn. auto.
        -- rewrite lookup_insert_ne by congruence. reflexivity.
  - intros Hd. rewrite Hrun. unfold getitem.
    destruct (pn !! dim) as [names|] eqn:Hnames; [|reflexivity].
    exfalso. apply Hd, Hin. eauto.
Qed.

Lemma surface_name_Ok (pn : gmap Z (gmap Z string)) (el : element) (name : string) :
  surface_name pn el = Ok name ->
  exists d2 : gmap Z string,
    pn !! 2 = Some d2
    /\ if (0 <? size d2)%nat
       then exists pe, el_physical_entity el = Some pe /\ d2 !! pe = Some name
       else name = "no_name".
Proof.
  unfold surface_name, getitem, or_raise. intros H.
  destruct (pn !! 2) as [d2|]; [|discriminate]. simpl in H.
  exists d2. split; [reflexivity|].
  destruct (0 <? size d2)%nat.
  - destruct (el_physical_entity el) as [pe|]; [|discriminate]. simpl in H.
    destruct (d2 !! pe) as [n|] eqn:Hn; [|discriminate].
    injection H as ->. eauto.
  - injection H as <-. reflexivity.
Qed.

(** X8: when [load] returns a mesh, its surface names are all ["no_name"]
    if no name of dimension 2 was declared, and otherwise each of them is a
    declared name of dimension 2. *)
Theorem surface_names_are_declared (w w' : io) (m : mesh) (names : list string) :
  load w = (Ok (Some (m, names)), w') ->
  exists (p : parsed) (d2 : gmap Z string),
    parse w = (Ok (Some p), w')
    /\ physical_names p !! 2 = Some d2
    /\ (size d2 = 0%nat -> Forall (fun name => name = "no_name") names)
    /\ (size d2 <> 0%nat -> Forall (fun name => exists pe, d2 !! pe = Some name) names).
Proof.
  intros H. apply load_inv in H as (p & Hparse & Hbuild).
  pose proof (parse_wf _ _ _ Hparse) as Hwf.
  pose proof (parse_names_dom _ _ _ Hparse) as Hdom.
  assert (is_Some (physical_names p !! 2)) as [d2 Hd2].
  { apply elem_of_dom. rewrite Hdom. unfold dimensions. set_solver. }
  apply build_inv in Hbuild as (_ & _ & _ & fd & Hasm & _).
  apply assemble_elements_spec in Hasm
    as (els & _ & _ & _ & _ & Hnames & _); [|exact Hwf].
  exists p, d2. split; [exact Hparse|]. split; [exact Hd2|].
  split; intros Hsize; clear -Hnames Hd2 Hsize;
    induction Hnames as [|el name l l' H _ IH]; constructor; try exact IH;
    apply surface_name_Ok in H as (d & Hd & H); rewrite Hd2 in Hd;
    injection Hd as <-.
  - rewrite Hsize in H. exact H.
  - destruct (Nat.ltb_spec 0 (size d2)) as [_|Hle]; [|lia].
    destruct H as (pe & _ & H). eauto.
Qed.

Lemma physical_name_record_witness :
  (exists pn' : gmap Z (gmap Z string),
     physical_name_line physical_names_init
       (mkIO (text ["2 7 'top side' more"; "$EndPhysicalNames"]) true [])
     = (Ok pn', mkIO (text ["$EndPhysicalNames"]) true [])
     /\ (pn' !! 2) ≫= (.!! 7) = Some "top side")
  /\ physical_name_line physical_names_init
       (mkIO (text ["0 1 corner"; "$EndPhysicalNames"]) true [])
     = (Raise KeyError, mkIO (text ["$EndPhysicalNames"]) true []).
Proof.
  split.
  - destruct (proj1 (physical_name_record physical_names_init
                       ("2 7 'top side' more" ++ Py.nl) "2" "7" "top side" ["more"]
                       (text ["$EndPhysicalNames"]) 2 7 true []
                       physical_names_init_dom ltac:(vm_compute; reflexivity)
                       ltac:(vm_compute; reflexivity) ltac:(vm_compute; reflexivity)
                       ltac:(vm_compute; reflexivity)))
      as (pn' & Hrun & _ & Hlook); [lia|].
    exists pn'. split; [exact Hrun|]. rewrite Hlook. reflexivity.
  - apply (proj2 (physical_name_record physical_names_init
                    ("0 1 corner" ++ Py.nl) "0" "1" "corner" []
                    (text ["$EndPhysicalNames"]) 0 1 true []
                    physical_names_init_dom ltac:(vm_compute; reflexivity)
                    ltac:(vm_compute; reflexivity) ltac:(vm_compute; reflexivity)
                    ltac:(vm_compute; reflexivity))).
    lia.
Defined.

Lemma surface_names_are_declared_witness :
  exists (m : mesh) (names : list string) (w' : io),
    load (on_file same_face_two_names) = (Ok (Some (m, names)), w')
    /\ names = ["top"]
    /\ exists (p : parsed) (d2 : gmap Z string),
         parse (on_file same_face_two_names) = (Ok (Some p), w')
         /\ physical_names p !! 2 = Some d2
         /\ (size d2 = 0%nat -> Forall (fun name => name = "no_name") names)
         /\ (size d2 <> 0%nat ->
             Forall (fun name => exists pe, d2 !! pe = Some name) names).
Proof.
  eexists _, _, _. split; [vm_compute; reflexivity|].
  split; [reflexivity|].
  eapply (surface_names_are_declared (on_file same_face_two_names)).
  vm_compute. reflexivity.
Defined.

Lemma block_element_line_untagged (elem_type : Z) (elements elements' : gmap Z element)
    (w w' : io) :
  untagged elements ->
  block_element_line elem_type elements w = (Ok elements', w') ->
  untagged elements'.
Proof.
  intros Hun H. unfold block_element_line in H.
  apply bind_Ok in H as (line & w1 & _ & H).
  destruct (Py.isspace line).
  - apply ret_Ok in H as [-> _]. exact Hun.
  - inv_M. apply map_Forall_insert_2; [reflexivity | exact Hun].
Qed.

Lemma element_block_untagged (elements elements' : gmap Z element) (w w' : io) :
  untagged elements ->
  element_block elements w = (Ok elements', w') ->
  untagged elements'.
Proof.
  intros Hun H. unfold element_block in H.
  apply bind_Ok in H as (line & w1 & _ & H).
  apply bind_Ok in H as (elem_type & w2 & _ & H).
  apply bind_Ok in H as (n & w3 & _ & H).
  unfold for_range in H.
  eapply (for_from_inv untagged); [| exact Hun | exact H].
  intros i s w0 s' w0' Hs Hb. exact (block_element_line_untagged _ _ _ _ _ Hs Hb).
Qed.

Lemma read_elements_untagged (v : Py.pyfloat) (w w' : io) (n : Z)
    (elements : gmap Z element) :
  Py.lt_4 v = false ->
  read_elements v w = (Ok (n, elements), w') ->
  untagged elements.
Proof.
  unfold read_elements, for_range. intros -> H.
  apply bind_Ok in H as (l & w1 & _ & H).
  apply bind_Ok in H as (k & w2 & _ & H).
  apply bind_Ok in H as (k' & w3 & _ & H).
  apply bind_Ok in H as (els & w4 & Hloop & H).
  apply ret_Ok in H as [[= <- <-] _].
  eapply (for_from_inv untagged); [| | exact Hloop].
  - intros i s w0 s' w0' Hs Hb. exact (element_block_untagged _ _ _ _ Hs Hb).
  - apply map_Forall_empty.
Qed.

Lemma parse_untagged (w w' : io) (p : parsed) :
  parse w = (Ok (Some p), w') ->
  Py.lt_4 (version_number p) = false ->
  untagged (elements p).
Proof.
  unfold parse. intros H Hv.
  apply bind_Ok in H as ([[[v pn] cmd]|] & w1 & _ & H).
  - apply bind_Ok in H as (p' & w2 & Htab & H).
    apply ret_Ok in H as [[= ->] _].
    unfold read_tables in Htab.
    apply bind_Ok in Htab as (c & ? & _ & Htab).
    apply bind_Ok in Htab as ([? ?] & ? & _ & Htab).
    apply bind_Ok in Htab as (? & ? & _ & Htab).
    apply bind_Ok in Htab as ([ne els] & ? & Hels & Htab).
    apply ret_Ok in Htab as [-> _]. simpl in *.
    exact (read_elements_untagged _ _ _ _ _ Hv Hels).
  - apply ret_Ok in H as [[=] _].
Qed.

(** X9: with the version 4 grammar and a name of dimension 2 declared,
    a mesh that [load] returns has no face and no surface name: an element
    of that grammar has no physical entity to look the name up with. *)
Theorem block_grammar_with_names_has_no_faces (w w' : io) (m : mesh)
    (names : list string) (p : parsed) (d2 : gmap Z string) :
  load w = (Ok (Some (m, names)), w') ->
  parse w = (Ok (Some p), w') ->
  physical_names p !! 2 = Some d2 ->
  Py.lt_4 (version_number p) = false ->
  size d2 <> 0%nat ->
  mesh_faces m = [] /\ names = [].
Proof.
  intros H Hparse Hd2 Hv Hsize. apply load_inv in H as (p' & Hparse' & Hbuild).
  rewrite Hparse in Hparse'. injection Hparse' as <-.
  pose proof (parse_wf _ _ _ Hparse) as Hwf.
  pose proof (parse_untagged _ _ _ Hparse Hv) as Hun.
  apply build_inv in Hbuild as (_ & _ & _ & fd & Hasm & ->).
  apply assemble_elements_spec in Hasm
    as (els & Hels & _ & _ & -> & Hnames & _); [|exact Hwf].
  destruct (first_seen [] els) as [|el l] eqn:Hfs.
  - apply Forall2_nil_inv_l in Hnames as ->. split; reflexivity.
  - exfalso. apply Forall2_cons_inv_l in Hnames as (name & ? & Hname & _ & _).
    assert (el ∈ first_seen [] els) as Hin by (rewrite Hfs; apply elem_of_cons; auto).
    apply first_seen_sub in Hin as (Hin & _ & _).
    destruct (elements_from_elem_of _ _ _ _ _ Hels Hin) as (k & _ & Hk).
    specialize (Hun _ _ Hk). simpl in Hun.
    apply surface_name_Ok in Hname as (d & Hd & Hname).
    rewrite Hd2 in Hd. injection Hd as <-.
    destruct (Nat.ltb_spec 0 (size d2)) as [_|Hle]; [|lia].
    destruct Hname as (pe & Hpe & _). congruence.
Qed.

Lemma block_grammar_with_names_has_no_faces_witness :
  exists (m : mesh) (names : list string) (w' : io),
    load (on_file block_line_with_names) = (Ok (Some (m, names)), w')
    /\ mesh_edges m = [[0; 1]]
    /\ mesh_faces m = [] /\ names = [].
Proof.
  eexists _, _, _. split; [vm_compute; reflexivity|].
  split; [reflexivity|].
  eapply (block_grammar_with_names_has_no_faces (on_file block_line_with_names)).
  - vm_compute. reflexivity.
  - vm_compute. reflexivity.
  - vm_compute. reflexivity.
  - vm_compute. reflexivity.
  - vm_compute. lia.
Defined.

Lemma skip_loop_blank (c : string) (body : list string) :
  forall (tmp blank : string) (rest : list string),
    tmp <> "" -> Py.contains ("$End" ++ c) tmp = false ->
    Forall (passed_over c) body ->
    Py.strip_chars crlf blank = "" ->
    skip_loop c tmp (body ++ blank :: rest) = rest.
Proof.
  induction body as [|l body IH]; cbn [app]; intros tmp blank rest Hne Hc Hbody Hb.
  - rewrite (skip_loop_goes_on _ _ _ Hne Hc), Hb, skip_loop_eq.
    rewrite andb_false_r. reflexivity.
  - apply Forall_cons in Hbody as [[Hl1 Hl2] Hbody].
    rewrite (skip_loop_goes_on _ _ _ Hne Hc). apply IH; assumption.
Qed.

(** X10: [skipUnknownCmd] also stops at the first blank line of the
    section: the lines after it, the end marker among them, are left in the
    file. *)
Theorem skipping_stops_at_a_blank_line (cmd : string) (body : list string)
    (blank : string) (rest : list string) (h : bool) (out : list string) :
  Py.strip_chars "$" cmd <> "" ->
  Forall (passed_over (Py.strip_chars "$" cmd)) body ->
  Py.strip_chars crlf blank = "" ->
  skipUnknownCmd cmd (mkIO (body ++ blank :: rest) h out)
  = (Ok tt, mkIO rest h (out ++ [skip_message cmd])).
Proof.
  intros Hname Hbody Hblank. unfold skipUnknownCmd, bind, print. simpl.
  rewrite (skip_loop_blank _ body); auto using contains_End_self.
Qed.

Lemma skipping_stops_at_a_blank_line_witness :
  skipUnknownCmd "$Comments"
    (mkIO (text ["first"; ""; "second"; "$EndComments"; "$Nodes"]) true [])
  = (Ok tt, mkIO (text ["second"; "$EndComments"; "$Nodes"]) true
              [skip_message "$Comments"]).
Proof.
  apply (skipping_stops_at_a_blank_line "$Comments" (text ["first"]) Py.nl).
  - discriminate.
  - repeat constructor; discriminate.
  - reflexivity.
Defined.

(** X11: a command that is empty once its [$] are stripped (a blank line
    where a section is expected) is reported and nothing is skipped for it:
    the next line becomes the command, and when that is a node command the
    nodes and elements are read as without the blank line, the message
    apart. *)
Theorem nameless_command_skips_nothing (cmd nodes_line : string) (rest : list string)
    (h : bool) (out : list string) :
  Py.contains "Nodes" cmd = false ->
  Py.strip_chars "$" cmd = "" ->
  skip_to_nodes cmd (mkIO (nodes_line :: rest) h out)
  = (Ok (Py.strip_chars crlf nodes_line), mkIO rest h (out ++ [skip_message cmd]))
  /\ forall (version_number : Py.pyfloat) (physical_names : gmap Z (gmap Z string)),
       Py.contains "Nodes" (Py.strip_chars crlf nodes_line) = true ->
       exists (r : result parsed) (p' : list string) (h' : bool) (d : list string),
         read_tables version_number physical_names
           (Py.strip_chars crlf nodes_line) (mkIO rest h out)
         = (r, mkIO p' h' (out ++ d))
         /\ read_tables version_number physical_names cmd
              (mkIO (nodes_line :: rest) h out)
            = (r, mkIO p' h' (out ++ skip_message cmd :: d)).
Proof.
  intros Hcmd Hname.
  assert (skip_to_nodes cmd (mkIO (nodes_line :: rest) h out)
          = (Ok (Py.strip_chars crlf nodes_line),
             mkIO rest h (out ++ [skip_message cmd]))) as Hskip.
  { unfold skip_to_nodes. rewrite Hcmd. simpl.
    unfold bind at 1. unfold skipUnknownCmd, bind, print. simpl.
    rewrite Hname. reflexivity. }
  split; [exact Hskip|].
  intros v pn Hnodes.
  destruct (frames_read_tables v pn (Py.strip_chars crlf nodes_line) rest h)
    as (r & p' & h' & d & Hrun).
  exists r, p', h', d. split; [apply Hrun|].
  replace (out ++ skip_message cmd :: d)%list
    with ((out ++ [skip_message cmd]) ++ d)%list
    by (rewrite <- app_assoc; reflexivity).
  rewrite <- Hrun.
  unfold read_tables at 1. unfold bind at 1. rewrite Hskip.
  unfold read_tables, skip_to_nodes. rewrite Hnodes. reflexivity.
Qed.

Lemma nameless_command_skips_nothing_witness :
  skip_to_nodes "" (mkIO (text ["$Nodes"; "3"]) true [])
  = (Ok "$Nodes", mkIO (text ["3"]) true ["Skiping unknown command :'' "]).
Proof.
  apply (proj1 (nameless_command_skips_nothing "" ("$Nodes" ++ Py.nl) (text ["3"])
                  true [] eq_refl eq_refl)).
Defined.

(** The tokens from [j] on, as far as [zs] goes, are the integers [zs]. *)
Lemma read_ints_spec (s : list string) :
  forall (zs : list Z) (j : nat),
    Forall2 (fun t z => Py.int t = Some z) (take (length zs) (drop j s)) zs ->
    read_ints s j (length zs) = Ok zs.
Proof.
  induction zs as [|z zs IH]; simpl; intros j H; [reflexivity|].
  destruct (drop j s) as [|t ts] eqn:Hdrop; simpl in H; [inversion H|].
  apply Forall2_cons in H as [Ht Hts].
  assert (s !! j = Some t) as Hj.
  { rewrite <- (Nat.add_0_r j), <- lookup_drop, Hdrop. reflexivity. }
  unfold item. rewrite Hj. simpl. unfold int. rewrite Ht. simpl.
  rewrite IH; [reflexivity|].
  replace (drop (S j) s) with ts; [exact Hts|].
  change (S j) with (1 + j)%nat. rewrite Nat.add_comm, <- drop_drop, Hdrop. reflexivity.
Qed.

Lemma legacy_element_record_core (line : string) (num elem_type pe ge k : Z)
    (partitions elem_nodes : list Z) (elements : gmap Z element)
    (rest : list string) (h : bool) (out : list string) :
  Py.isspace line = false ->
  Forall2 (fun t z => Py.int t = Some z)
    (take (5 + length partitions + length elem_nodes) (Py.split line))
    (num :: elem_type :: Z.of_nat (2 + length partitions)
         :: pe :: ge :: partitions ++ elem_nodes) ->
  ELEMENT_TYPES elem_type = Some k ->
  length elem_nodes = Z.to_nat k ->
  legacy_element_line elements (mkIO (line :: rest) h out)
  = (Ok (<[num := mkElement elem_type (Some pe) (Some ge) elem_nodes]> elements),
     mkIO rest h out).
Proof.
  intros Hsp Htoks Hty Hlen.
  set (tags := pe :: ge :: partitions) in *.
  destruct (Py.split line) as [|sid [|sty [|stags toks]]] eqn:Hsplit;
    simpl in Htoks; try (inversion Htoks; fail);
    [apply Forall2_cons in Htoks as [_ Htoks]; inversion Htoks
    |apply Forall2_cons in Htoks as [_ Htoks];
     apply Forall2_cons in Htoks as [_ Htoks]; inversion Htoks|].
  apply Forall2_cons in Htoks as [Hid Htoks].
  apply Forall2_cons in Htoks as [Htype Htoks].
  apply Forall2_cons in Htoks as [Hntags Htoks].
  replace (pe :: ge :: partitions ++ elem_nodes)%list
    with (tags ++ elem_nodes)%list in Htoks by reflexivity.
  replace (2 + length partitions + length elem_nodes)%nat
    with (length tags + length elem_nodes)%nat in Htoks by reflexivity.
  assert (Forall2 (fun t z => Py.int t = Some z) (take (length tags) toks) tags
          /\ Forall2 (fun t z => Py.int t = Some z)
               (take (length elem_nodes) (drop (length tags) toks)) elem_nodes)
    as [Htags Hnodes].
  { apply Forall2_app_inv_r in Htoks as (l1 & l2 & H1 & H2 & Heq).
    change (take (length tags + length elem_nodes) toks = (l1 ++ l2)%list) in Heq.
    pose proof (Forall2_length _ _ _ H1) as Hl1.
    pose proof (Forall2_length _ _ _ H2) as Hl2.
    assert (take (length tags) toks = l1) as ->.
    { rewrite <- Hl1.
      replace (take (length l1) toks)
        with (take (length l1) (take (length tags + length elem_nodes) toks))
        by (rewrite take_take; f_equal; lia).
      rewrite Heq. apply take_app_length. }
    split; [exact H1|].
    assert (take (length elem_nodes) (drop (length tags) toks) = l2) as ->; [|exact H2].
    rewrite take_drop_commute, Heq, <- Hl1. apply drop_app_length. }
  unfold legacy_element_line, bind, readline, liftR, ret. simpl.
  rewrite Hsp, Hsplit. simpl. unfold int at 1 2 3. rewrite Hid, Htype, Hntags. simpl.
  rewrite Nat2Z.id. change (S (S (length partitions))) with (length tags).
  rewrite (read_ints_spec _ tags 3) by exact Htags. simpl.
  unfold read_elem_nodes. rewrite Hty. unfold liftR. rewrite <- Hlen.
  rewrite (read_ints_spec _ elem_nodes (3 + length tags)); [reflexivity|].
  simpl. exact Hnodes.
Qed.

(** X12: a version 2 element line [num type ntags pe ge partitions... nodes...]
    with at least two tags and a type that [ELEMENT_TYPES] has is stored
    under [num] with its type, the first two tags and exactly the nodes of
    its type; the partition tags and any token after the nodes are ignored,
    and nothing is printed. *)
Theorem legacy_element_record (line : string) (num elem_type pe ge k : Z)
    (partitions elem_nodes : list Z) (elements : gmap Z element)
    (rest : list string) (h : bool) (out : list string) :
  Py.isspace line = false ->
  Forall2 (fun t z => Py.int t = Some z)
    (take (5 + length partitions + length elem_nodes) (Py.split line))
    (num :: elem_type :: Z.of_nat (2 + length partitions)
         :: pe :: ge :: partitions ++ elem_nodes) ->
  ELEMENT_TYPES elem_type = Some k ->
  length elem_nodes = Z.to_nat k ->
  legacy_element_line elements (mkIO (line :: rest) h out)
  = (Ok (<[num := mkElement elem_type (Some pe) (Some ge) elem_nodes]> elements),
     mkIO rest h out).
Proof.
  intros Hsp Htoks Hty Hlen.
  exact (legacy_element_record_core line num elem_type pe ge k partitions
           elem_nodes elements rest h out Hsp Htoks Hty Hlen).
Qed.

(** The tokens of a line, one after the other. *)
Ltac each_token :=
  match goal with
  | |- Forall2 _ ?l _ =>
      let l' := eval vm_compute in l in
      replace l with l' by (vm_compute; reflexivity)
  end;
  repeat (constructor; [vm_compute; reflexivity|]); constructor.

Lemma legacy_element_record_witness :
  legacy_element_line ∅
    (mkIO (text ["7 2 3 4 5 9 1 2 3 and more"; "$EndElements"]) true [])
  = (Ok {[ 7 := mkElement 2 (Some 4) (Some 5) [1; 2; 3] ]},
     mkIO (text ["$EndElements"]) true []).
Proof.
  apply (legacy_element_record _ 7 2 4 5 3 [9] [1; 2; 3]).
  - vm_compute. reflexivity.
  - each_token.
  - reflexivity.
  - reflexivity.
Defined.

(** X13: a version 2 element line that announces fewer than two tags is
    never stored: the line is read and [IndexError], or [ValueError] for a
    token that is no integer, is raised. *)
Theorem legacy_element_needs_two_tags (line sid sty stags : string)
    (toks rest : list string) (num_tags : Z) (elements : gmap Z element)
    (h : bool) (out : list string) :
  Py.isspace line = false ->
  Py.split line = sid :: sty :: stags :: toks ->
  Py.int stags = Some num_tags ->
  num_tags < 2 ->
  exists e : exn,
    legacy_element_line elements (mkIO (line :: rest) h out)
    = (Raise e, mkIO rest h out)
    /\ (e = IndexError \/ e = ValueError).
Proof.
  intros Hsp Hsplit Hntags Hlt.
  unfold legacy_element_line, bind, readline, liftR, ret. simpl.
  rewrite Hsp, Hsplit. simpl. unfold int at 1 2 3.
  destruct (Py.int sid) as [num|]; simpl; [|eauto].
  destruct (Py.int sty) as [ty|]; simpl; [|eauto].
  rewrite Hntags. simpl.
  destruct (Z.to_nat num_tags) as [|[|n]] eqn:Hn; [| |lia]; simpl.
  - eauto.
  - destruct toks as [|t toks]; simpl; [eauto|].
    unfold int. destruct (Py.int t) as [z|]; simpl; eauto.
Qed.

Lemma legacy_element_needs_two_tags_witness :
  exists e : exn,
    legacy_element_line ∅ (mkIO (text ["1 2 0 1 2 3"; "$EndElements"]) true [])
    = (Raise e, mkIO (text ["$EndElements"]) true [])
    /\ (e = IndexError \/ e = ValueError).
Proof.
  apply (legacy_element_needs_two_tags
           ("1 2 0 1 2 3" ++ Py.nl) "1" "2" "0" ["1"; "2"; "3"]
           (text ["$EndElements"]) 0 ∅ true []).
  - vm_compute. reflexivity.
  - vm_compute. reflexivity.
  - vm_compute. reflexivity.
  - lia.
Defined.

Lemma legacy_node_line_record (line : string) (r : Z * coords)
    (nodes : gmap Z coords) (rest : list string) (h : bool) (out : list string) :
  well_formed_node_line line r ->
  legacy_node_line nodes (mkIO (line :: rest) h out)
  = (Ok (<[r.1 := r.2]> nodes), mkIO rest h out).
Proof.
  intros [Hsp Hrec]. unfold legacy_node_line, bind, readline, liftR, ret. simpl.
  rewrite Hsp, Hrec. destruct r as [num xyz]. reflexivity.
Qed.

Lemma for_from_records {V} (body : gmap Z V -> M (gmap Z V))
    (wf : string -> Z * V -> Prop) :
  (forall line r m rest h out,
      wf line r ->
      body m (mkIO (line :: rest) h out) = (Ok (<[r.1 := r.2]> m), mkIO rest h out)) ->
  forall (lines : list string) (recs : list (Z * V)) (i : Z) (m : gmap Z V)
         (rest : list string) (h : bool) (out : list string),
    Forall2 wf lines recs ->
    for_from (length lines) i (fun _ => body) m (mkIO (lines ++ rest) h out)
    = (Ok (foldl (fun m r => <[r.1 := r.2]> m) m recs), mkIO rest h out).
Proof.
  intros Hbody. induction lines as [|line lines IH]; intros recs i m rest h out H.
  - apply Forall2_nil_inv_l in H as ->. reflexivity.
  - apply Forall2_cons_inv_l in H as (r & recs' & Hr & Hrecs & ->).
    cbn [length for_from app]. unfold bind at 1.
    rewrite (Hbody _ _ _ _ _ _ Hr). simpl. apply IH. exact Hrecs.
Qed.

Lemma foldl_insert_records {V} (recs : list (Z * V)) :
  foldl (fun m r => <[r.1 := r.2]> m) (∅ : gmap Z V) recs
  = list_to_map (reverse recs).
Proof.
  induction recs as [|r recs IH] using rev_ind; [reflexivity|].
  rewrite foldl_app, reverse_app. simpl. rewrite IH. destruct r. reflexivity.
Qed.

(** X14: when the lines that follow the count of the version 2 node
    section are as many well-formed records as declared, none blank, the
    loop reads exactly these lines and stores every record under its number,
    a later record replacing an earlier one with the same number. *)
Theorem legacy_nodes_are_stored (lines : list string) (recs : list (Z * coords))
    (rest : list string) (h : bool) (out : list string) :
  Forall2 well_formed_node_line lines recs ->
  for_range (Z.of_nat (length lines)) (fun _ => legacy_node_line) ∅
    (mkIO (lines ++ rest) h out)
  = (Ok (list_to_map (reverse recs)), mkIO rest h out).
Proof.
  intros H. unfold for_range. rewrite Nat2Z.id.
  rewrite (for_from_records legacy_node_line well_formed_node_line
             legacy_node_line_record lines recs 0 ∅ rest h out H).
  rewrite foldl_insert_records. reflexivity.
Qed.

Lemma legacy_nodes_full (n : nat) :
  forall (i : Z) (nodes0 nodes : gmap Z coords) (w w' : io),
    for_from n i (fun _ => legacy_node_line) nodes0 w = (Ok nodes, w') ->
    (size nodes <= size nodes0 + n)%nat
    /\ (size nodes = (size nodes0 + n)%nat ->
        exists recs : list (Z * coords),
          Forall2 well_formed_node_line (take n (pending w)) recs
          /\ length recs = n
          /\ NoDup recs.*1
          /\ (forall r, r ∈ recs -> nodes0 !! r.1 = None)
          /\ pending w' = drop n (pending w)).
Proof.
  induction n as [|n IH]; intros i nodes0 nodes w w' H.
  - apply ret_Ok in H as [-> ->]. split; [lia|]. intros _.
    exists []. rewrite take_0, drop_0.
    repeat split; [constructor | constructor | intros r Hr; inversion Hr].
  - cbn [for_from] in H. apply bind_Ok in H as (nodes1 & w1 & Hstep & H).
    destruct (IH _ _ _ _ _ H) as [Hle Hfull].
    unfold legacy_node_line in Hstep.
    apply bind_Ok in Hstep as (line & w0 & Hline & Hstep).
    rewrite readline_eq in Hline. injection Hline as <- <-.
    destruct (Py.isspace (hd "" (pending w))) eqn:Hsp.
    + apply ret_Ok in Hstep as [-> ->]. split; [lia|]. intros Hsize. lia.
    + apply bind_Ok in Hstep as ([num xyz] & w2 & Hrec & Hstep).
      apply liftR_Ok in Hrec as [Hrec ->]. apply ret_Ok in Hstep as [-> ->].
      pose proof (map_size_insert num xyz nodes0) as Hins.
      destruct (nodes0 !! num) as [old|] eqn:Hold; unfold id in Hins.
      * split; [lia|]. intros Hsize. lia.
      * split; [lia|]. intros Hsize.
        destruct Hfull as (recs & Hrecs & Hlen & Hnd & Hfresh & Hpend); [lia|].
        simpl in Hrecs, Hpend.
        destruct (pending w) as [|line rest] eqn:Hpw.
        { simpl in Hrec. unfold node_record in Hrec. simpl in Hrec. discriminate. }
        simpl in *. exists ((num, xyz) :: recs).
        split; [constructor; [split; assumption | exact Hrecs]|].
        split; [simpl; lia|].
        assert (forall r, r ∈ recs -> r.1 <> num) as Hneq.
        { intros r Hr Heq. specialize (Hfresh r Hr).
          rewrite Heq, lookup_insert_eq in Hfresh. discriminate. }
        split.
        { simpl. constructor; [|exact Hnd].
          intros Hin. apply list_elem_of_fmap in Hin as (r & Heq & Hr).
          exact (Hneq r Hr (eq_sym Heq)). }
        split; [|exact Hpend].
        intros r Hr. apply elem_of_cons in Hr as [-> | Hr]; [exact Hold|].
        specialize (Hfresh r Hr). rewrite lookup_insert_ne in Hfresh; [exact Hfresh|].
        intros Heq. exact (Hneq r Hr (eq_sym Heq)).
Qed.

(** X15: the loop over the version 2 node section never stores more nodes
    than declared, and it stores as many only if the lines it read are that
    many well-formed records, none blank, with pairwise different numbers:
    with a blank line among them the count that line 301 asserts is
    missed. *)
Theorem legacy_nodes_complete_only_without_blanks (n : Z) (nodes : gmap Z coords)
    (w w' : io) :
  for_range n (fun _ => legacy_node_line) ∅ w = (Ok nodes, w') ->
  Z.of_nat (size nodes) <= Z.max 0 n
  /\ (Z.of_nat (size nodes) = n ->
      exists recs : list (Z * coords),
        Forall2 well_formed_node_line (take (Z.to_nat n) (pending w)) recs
        /\ length recs = Z.to_nat n
        /\ NoDup recs.*1
        /\ pending w' = drop (Z.to_nat n) (pending w)).
Proof.
  unfold for_range. intros H.
  destruct (legacy_nodes_full _ _ _ _ _ _ H) as [Hle Hfull].
  rewrite map_size_empty in *. split; [lia|].
  intros Hsize. destruct Hfull as (recs & H1 & H2 & H3 & _ & H4); [lia|]. eauto.
Qed.

Lemma legacy_nodes_are_stored_witness :
  for_range 2 (fun _ => legacy_node_line) ∅
    (mkIO (text ["1 0 0 0"; "2 1 0 0"; "$EndNodes"]) true [])
  = (Ok (list_to_map (reverse two_node_records)), mkIO (text ["$EndNodes"]) true []).
Proof.
  apply (legacy_nodes_are_stored two_node_lines two_node_records
           (text ["$EndNodes"]) true []).
  repeat (constructor; [split; vm_compute; reflexivity|]); constructor.
Defined.

Lemma legacy_nodes_complete_only_without_blanks_witness :
  exists (nodes : gmap Z coords) (w' : io) (recs : list (Z * coords)),
    for_range 2 (fun _ => legacy_node_line) ∅
      (mkIO (text ["1 0 0 0"; "2 1 0 0"; "$EndNodes"]) true [])
    = (Ok nodes, w')
    /\ Forall2 well_formed_node_line (text ["1 0 0 0"; "2 1 0 0"]) recs
    /\ length recs = 2%nat
    /\ NoDup recs.*1
    /\ pending w' = text ["$EndNodes"].
Proof.
  destruct (legacy_nodes_complete_only_without_blanks 2
              (list_to_map (reverse two_node_records))
              (mkIO (text ["1 0 0 0"; "2 1 0 0"; "$EndNodes"]) true [])
              (mkIO (text ["$EndNodes"]) true []))
    as [_ Hfull]; [vm_compute; reflexivity|].
  destruct Hfull as (recs & H1 & H2 & H3 & H4); [vm_compute; reflexivity|].
  exists (list_to_map (reverse two_node_records)), (mkIO (text ["$EndNodes"]) true []),
    recs.
  split; [vm_compute; reflexivity|]. auto.
Defined.

Lemma legacy_element_line_record (line : string) (r : Z * element)
    (elements : gmap Z element) (rest : list string) (h : bool) (out : list string) :
  well_formed_element_line line r ->
  legacy_element_line elements (mkIO (line :: rest) h out)
  = (Ok (<[r.1 := r.2]> elements), mkIO rest h out).
Proof.
  intros (Hsp & pe & ge & k & partitions & Hpe & Hge & Hty & Hlen & Htoks).
  destruct r as [num [ty ope oge ns]]. simpl in *. subst ope oge.
  exact (legacy_element_record_core line num ty pe ge k partitions ns elements
           rest h out Hsp Htoks Hty Hlen).
Qed.

Lemma bind_run {A B} (m : M A) (k : A -> M B) (w w1 : io) (a : A) :
  m w = (Ok a, w1) -> bind m k w = k a w1.
Proof. intros H. unfold bind. rewrite H. reflexivity. Qed.

(** One step of a computation whose outcome [H] gives. *)
Tactic Notation "run" uconstr(H) :=
  rewrite (bind_run _ _ _ _ _ H); cbv beta; cbn [on_file pending stdout handle_open].

Lemma readline_cons (l : string) (rest : list string) (h : bool) (out : list string) :
  readline (mkIO (l :: rest) h out) = (Ok l, mkIO rest h out).
Proof. reflexivity. Qed.

Lemma liftR_run {A} (a : A) (w : io) : liftR (Ok a) w = (Ok a, w).
Proof. reflexivity. Qed.

Lemma open_run (w : io) : open w = (Ok tt, mkIO (pending w) true (stdout w)).
Proof. reflexivity. Qed.

Lemma read_format_run (l2 l3 t0 t1 t2 : string) (toks rest : list string)
    (v : Py.pyfloat) (h : bool) (out : list string) :
  Py.split l2 = t0 :: t1 :: t2 :: toks ->
  Py.float t0 = Some v -> is_Some (Py.int t1) -> is_Some (Py.int t2) ->
  read_format (mkIO (l2 :: l3 :: rest) h out) = (Ok v, mkIO rest h out).
Proof.
  intros Hl2 Hv [a Ha] [b Hb]. unfold read_format, bind, readline, liftR, ret. simpl.
  rewrite Hl2. simpl. unfold float, int. rewrite Hv, Ha, Hb. reflexivity.
Qed.

Lemma read_physical_names_absent (cmd_line : string) (rest : list string)
    (h : bool) (out : list string) :
  Py.strip_chars crlf cmd_line <> "$PhysicalNames" ->
  read_physical_names (mkIO (cmd_line :: rest) h out)
  = (Ok (physical_names_init, Py.strip_chars crlf cmd_line), mkIO rest h out).
Proof.
  intros Hne. unfold read_physical_names, bind, readline, ret. simpl.
  destruct (String.eqb_spec (Py.strip_chars crlf cmd_line) "$PhysicalNames");
    [contradiction | reflexivity].
Qed.

Lemma read_nodes_legacy (v : Py.pyfloat) (cmd count_nodes end_nodes : string)
    (node_lines rest : list string) (node_recs : list (Z * coords))
    (h : bool) (out : list string) :
  Py.lt_4 v = true ->
  cmd = "$Nodes" \/ cmd = "$ParametricNodes" ->
  Py.int (Py.rstrip count_nodes) = Some (Z.of_nat (length node_lines)) ->
  Forall2 well_formed_node_line node_lines node_recs ->
  read_nodes v cmd (mkIO (count_nodes :: node_lines ++ end_nodes :: rest) h out)
  = (Ok (Z.of_nat (length node_lines), list_to_map (reverse node_recs)),
     mkIO rest h out).
Proof.
  intros Hlt Hcmd Hcn Hnodes. unfold read_nodes.
  assert ((String.eqb cmd "$ParametricNodes" || String.eqb cmd "$Nodes")
          && Py.lt_4 v = true) as ->.
  { rewrite Hlt. destruct Hcmd as [-> | ->]; reflexivity. }
  run (readline_cons count_nodes _ h out).
  unfold int. rewrite Hcn. simpl or_raise.
  run (liftR_run _ _).
  unfold for_range. rewrite Nat2Z.id.
  run ((for_from_records legacy_node_line well_formed_node_line
                legacy_node_line_record node_lines node_recs 0 ∅ _ h out Hnodes)).
  rewrite foldl_insert_records.
  run (readline_cons end_nodes _ h out).
  reflexivity.
Qed.

Lemma read_elements_legacy (v : Py.pyfloat) (count_elements : string)
    (element_lines rest : list string) (element_recs : list (Z * element))
    (h : bool) (out : list string) :
  Py.lt_4 v = true ->
  Py.int (Py.strip count_elements) = Some (Z.of_nat (length element_lines)) ->
  Forall2 well_formed_element_line element_lines element_recs ->
  read_elements v (mkIO (count_elements :: element_lines ++ rest) h out)
  = (Ok (Z.of_nat (length element_lines), list_to_map (reverse element_recs)),
     mkIO rest h out).
Proof.
  intros Hlt Hce Helems. unfold read_elements. rewrite Hlt.
  run (readline_cons count_elements _ h out).
  unfold int. rewrite Hce. simpl or_raise.
  run (liftR_run _ _).
  unfold for_range. rewrite Nat2Z.id.
  run ((for_from_records legacy_element_line well_formed_element_line
                legacy_element_line_record element_lines element_recs 0 ∅ _ h out
                Helems)).
  rewrite foldl_insert_records. reflexivity.
Qed.

(** X16: a version 2 file without names section, made of the line
    [$MeshFormat], a format line with a version below 4, one more line, the
    command [$Nodes] or [$ParametricNodes], the count and that many
    well-formed node records, two more lines, the count and that many
    well-formed element records, is parsed into the tables of these records
    with nothing printed and the rest of the file left unread.  The three
    lines where [$EndMeshFormat], [$EndNodes] and [$Elements] are expected
    are read without being looked at. *)
Theorem parse_legacy_file (l1 l2 l3 cmd_line count_nodes end_nodes elements_line
                           count_elements : string)
    (t0 t1 t2 : string) (toks : list string) (v : Py.pyfloat)
    (node_lines element_lines rest : list string)
    (node_recs : list (Z * coords)) (element_recs : list (Z * element)) :
  Py.rstrip l1 = "$MeshFormat" ->
  Py.split l2 = t0 :: t1 :: t2 :: toks ->
  Py.float t0 = Some v -> is_Some (Py.int t1) -> is_Some (Py.int t2) ->
  Py.lt_4 v = true ->
  Py.strip_chars crlf cmd_line = "$Nodes"
  \/ Py.strip_chars crlf cmd_line = "$ParametricNodes" ->
  Py.int (Py.rstrip count_nodes) = Some (Z.of_nat (length node_lines)) ->
  Forall2 well_formed_node_line node_lines node_recs ->
  Py.int (Py.strip count_elements) = Some (Z.of_nat (length element_lines)) ->
  Forall2 well_formed_element_line element_lines element_recs ->
  parse (on_file (l1 :: l2 :: l3 :: cmd_line :: count_nodes :: node_lines
                     ++ end_nodes :: elements_line :: count_elements
                     :: element_lines ++ rest))
  = (Ok (Some (mkParsed v physical_names_init
                 (Z.of_nat (length node_lines)) (list_to_map (reverse node_recs))
                 (Z.of_nat (length element_lines))
                 (list_to_map (reverse element_recs)))),
     mkIO rest true []).
Proof.
  intros Hl1 Hl2 Hv H1 H2 Hlt Hcmd Hcn Hnodes Hce Helems.
  assert (Py.strip_chars crlf cmd_line <> "$PhysicalNames") as Hnames.
  { destruct Hcmd as [-> | ->]; discriminate. }
  assert (Py.contains "Nodes" (Py.strip_chars crlf cmd_line) = true) as Hin.
  { destruct Hcmd as [-> | ->]; reflexivity. }
  unfold parse.
  erewrite bind_run.
  2:{ unfold read_header.
      run (open_run _).
      run (readline_cons l1 _ true []).
      rewrite Hl1.
      change (negb (String.eqb "$MeshFormat" "$MeshFormat")) with false.
      cbv iota.
      run ((read_format_run l2 l3 t0 t1 t2 toks _ v true [] Hl2 Hv H1 H2)).
      run ((read_physical_names_absent cmd_line _ true [] Hnames)).
      reflexivity. }
  cbv beta iota.
  erewrite bind_run; [reflexivity|].
  unfold read_tables.
  erewrite bind_run; [|unfold skip_to_nodes; rewrite Hin; reflexivity].
  run ((read_nodes_legacy v _ count_nodes end_nodes node_lines _ node_recs
                true [] Hlt Hcmd Hcn Hnodes)).
  run (readline_cons elements_line _ true []).
  run ((read_elements_legacy v count_elements element_lines rest element_recs
                true [] Hlt Hce Helems)).
  reflexivity.
Qed.

Lemma parse_legacy_file_witness :
  exists p : parsed,
    parse (on_file (text (Samples.header2 ++ Samples.three_nodes
                           ++ ["anything"; "1"; "1 2 2 1 1 1 2 3";
                                 "$EndElements"])))
    = (Ok (Some p), mkIO (text ["$EndElements"]) true [])
    /\ number_of_nodes p = 3 /\ number_of_elements p = 1
    /\ elements p !! 1 = Some (mkElement 2 (Some 1) (Some 1) [1; 2; 3]).
Proof.
  eexists. split.
  - apply (parse_legacy_file
             ("$MeshFormat" ++ Py.nl) ("2.2 0 8" ++ Py.nl) ("$EndMeshFormat" ++ Py.nl)
             ("$Nodes" ++ Py.nl) ("3" ++ Py.nl) ("$EndNodes" ++ Py.nl)
             ("anything" ++ Py.nl) ("1" ++ Py.nl)
             "2.2" "0" "8" [] (Py.nearest false 22 (-1))
             (text ["1 0 0 0"; "2 1 0 0"; "3 0 1 0"])
             (text ["1 2 2 1 1 1 2 3"]) (text ["$EndElements"])
             three_node_records
             [(1, mkElement 2 (Some 1) (Some 1) [1; 2; 3])]).
    + vm_compute. reflexivity.
    + vm_compute. reflexivity.
    + vm_compute. reflexivity.
    + eexists. vm_compute. reflexivity.
    + eexists. vm_compute. reflexivity.
    + vm_compute. reflexivity.
    + left. vm_compute. reflexivity.
    + vm_compute. reflexivity.
    + repeat (constructor; [split; vm_compute; reflexivity|]); constructor.
    + vm_compute. reflexivity.
    + constructor; [|constructor].
      split; [vm_compute; reflexivity|]. exists 1, 1, 3, [].
      split; [reflexivity|]. split; [reflexivity|]. split; [reflexivity|].
      split; [reflexivity|]. each_token.
  - split; [reflexivity|]. split; [reflexivity|]. reflexivity.
Defined.

Lemma contains_true (faces : list (list Z)) (face : list Z) :
  contains faces face = true
  <-> exists f, f ∈ faces /\ forall x : Z, x ∈ f <-> x ∈ face.
Proof.
  unfold contains. rewrite length_map, negb_true_iff, Nat.eqb_neq. split.
  - intros Hlen.
    destruct (List.filter _ faces) as [|f l] eqn:Hfilter; [contradiction|].
    assert (List.In f (List.filter
                         (fun f => bool_decide ((list_to_set face : gset Z) = list_to_set f))
                         faces)) as Hin by (rewrite Hfilter; left; reflexivity).
    apply List.filter_In in Hin as [Hin Heq].
    apply bool_decide_eq_true_1 in Heq.
    exists f. split; [apply list_elem_of_In; exact Hin|].
    intros x. rewrite <- (elem_of_list_to_set (C := gset Z) x f), <- Heq.
    apply elem_of_list_to_set.
  - intros (f & Hin & Hsame) Hlen.
    assert (List.In f (List.filter
                         (fun f => bool_decide ((list_to_set face : gset Z) = list_to_set f))
                         faces)) as Hf.
    { apply List.filter_In. split; [apply list_elem_of_In; exact Hin|].
      apply bool_decide_eq_true_2. apply set_eq. intros x.
      rewrite !elem_of_list_to_set. symmetry. apply Hsame. }
    destruct (List.filter _ faces); [destruct Hf | discriminate].
Qed.

Lemma contains_permutation (faces : list (list Z)) (face f : list Z) :
  f ∈ faces -> Permutation f face -> contains faces face = true.
Proof.
  intros Hin Hp. apply contains_true. exists f. split; [exact Hin|].
  intros x. rewrite Hp. reflexivity.
Qed.

(** X17: [contains faces face] holds exactly when some face of [faces] has
    the same set of nodes as [face].  It holds for every rearrangement of a
    face of [faces] and whenever the key of [load] (the sorted tuple) is that
    of a face of [faces]; it is coarser than that key, since it ignores how
    often a node occurs. *)
Theorem contains_is_coarser_than_the_key (faces : list (list Z)) (face : list Z) :
  (contains faces face = true
   <-> exists f, f ∈ faces /\ forall x : Z, x ∈ f <-> x ∈ face)
  /\ (forall f, f ∈ faces -> Permutation f face -> contains faces face = true)
  /\ (forall f, f ∈ faces -> sorted f = sorted face -> contains faces face = true)
  /\ (forall a b : Z,
         a <> b ->
         contains [[a; a; b]] [a; b; b] = true
         /\ sorted [a; a; b] <> sorted [a; b; b]).
Proof.
  split; [apply contains_true|].
  split; [intros f; apply contains_permutation|].
  split.
  - intros f Hin Hkey. apply (contains_permutation faces face f Hin).
    rewrite <- (sorted_Permutation f), Hkey. apply sorted_Permutation.
  - intros a b Hab. split.
    + apply contains_true. exists [a; a; b].
      split; [apply elem_of_cons; left; reflexivity|].
      intros x. rewrite !elem_of_cons. pose proof (not_elem_of_nil x). tauto.
    + unfold sorted. simpl.
      destruct (a <=? b) eqn:E; simpl; rewrite ?Z.leb_refl, ?E; simpl;
        rewrite ?Z.leb_refl, ?E; intros [=]; congruence.
Qed.

Lemma contains_is_coarser_than_the_key_witness :
  contains [[2; 1; 0]; [3; 4; 5]] [0; 1; 2] = true
  /\ contains [[0; 0; 1]] [0; 1; 1] = true
  /\ sorted [0; 0; 1] <> sorted [0; 1; 1].
Proof.
  pose proof (contains_is_coarser_than_the_key [[2; 1; 0]; [3; 4; 5]] [0; 1; 2])
    as (_ & _ & Hkey & Hmult).
  split.
  - apply (Hkey [2; 1; 0]); [apply elem_of_cons; left; reflexivity | reflexivity].
  - apply (Hmult 0 1). lia.
Defined.

Lemma quiet_ret {A} (a : A) : only_diagnostics (ret a).
Proof. intros w. exists []. rewrite app_nil_r. split; [reflexivity | constructor]. Qed.

Lemma quiet_liftR {A} (r : result A) : only_diagnostics (liftR r).
Proof. intros w. exists []. rewrite app_nil_r. split; [reflexivity | constructor]. Qed.

Lemma quiet_readline : only_diagnostics readline.
Proof.
  intros w. exists []. rewrite app_nil_r. rewrite readline_eq.
  split; [reflexivity | constructor].
Qed.

Lemma quiet_open : only_diagnostics open.
Proof. intros w. exists []. rewrite app_nil_r. split; [reflexivity | constructor]. Qed.

Lemma quiet_skipUnknownCmd (c : string) : only_diagnostics (skipUnknownCmd c).
Proof.
  intros w. exists [skip_message c]. split; [reflexivity|].
  constructor; [left; eauto | constructor].
Qed.

Lemma quiet_bind {A B} (m : M A) (k : A -> M B) :
  only_diagnostics m -> (forall a, only_diagnostics (k a)) ->
  only_diagnostics (bind m k).
Proof.
  intros Hm Hk w. unfold bind. destruct (Hm w) as (d1 & H1 & Hd1).
  destruct (m w) as [[a|e] w1]; simpl in *.
  - destruct (Hk a w1) as (d2 & H2 & Hd2). exists (d1 ++ d2)%list.
    rewrite H2, H1, app_assoc. split; [reflexivity|]. apply Forall_app. auto.
  - eauto.
Qed.

Lemma quiet_for_from {S} (body : Z -> S -> M S) :
  (forall i s, only_diagnostics (body i s)) ->
  forall n i s, only_diagnostics (for_from n i body s).
Proof.
  intros Hbody. induction n as [|n IH]; simpl; intros i s.
  - apply quiet_ret.
  - apply quiet_bind; [apply Hbody | intros a; apply IH].
Qed.

Lemma quiet_for_range {S} (body : Z -> S -> M S) (n : Z) (s : S) :
  (forall i s, only_diagnostics (body i s)) -> only_diagnostics (for_range n body s).
Proof. intros Hbody. apply quiet_for_from. exact Hbody. Qed.

Lemma quiet_read_elem_nodes s j t : only_diagnostics (read_elem_nodes s j t).
Proof.
  unfold read_elem_nodes. destruct (ELEMENT_TYPES t) as [k|] eqn:Hty.
  - apply quiet_liftR.
  - intros w. exists [element_message t]. split; [reflexivity|].
    constructor; [right; eauto | constructor].
Qed.

Create HintDb quiet.
#[local] Hint Resolve quiet_ret quiet_liftR quiet_readline quiet_open
  quiet_skipUnknownCmd quiet_read_elem_nodes : quiet.

Ltac solve_quiet :=
  repeat first
    [ solve [auto with quiet]
    | apply quiet_bind; [|intros ?; cbv beta]
    | apply quiet_for_range; intros ? ?
    | match goal with
      | |- only_diagnostics (if ?b then _ else _) => destruct b
      | |- only_diagnostics (match ?x with _ => _ end) => destruct x
      end ].

Lemma quiet_load : only_diagnostics load.
Proof.
  unfold load, parse, read_header, read_tables, read_format, read_physical_names,
    physical_name_line, skip_to_nodes, read_nodes, node_block, legacy_node_line,
    block_node_line, read_elements, element_block, legacy_element_line,
    block_element_line.
  solve_quiet.
Qed.

(** X18: whatever the file, [load] only adds to the output, and every line
    it adds is either the message of [skipUnknownCmd] for some command or the
    message for an element type that [ELEMENT_TYPES] lacks. *)
Theorem load_prints_only_diagnostics (w : io) :
  exists d : list string,
    stdout (load w).2 = (stdout w ++ d)%list /\ Forall diagnostic d.
Proof. exact (quiet_load w). Qed.

Lemma block_node_line_record (line : string) (r : Z * coords)
    (nodes : gmap Z coords) (rest : list string) (h : bool) (out : list string) :
  node_record line = Ok r ->
  block_node_line nodes (mkIO (line :: rest) h out)
  = (Ok (<[r.1 := r.2]> nodes), mkIO rest h out).
Proof.
  intros Hrec. unfold block_node_line, bind, readline, liftR, ret. simpl.
  rewrite Hrec. destruct r as [num xyz]. reflexivity.
Qed.

(** X19: an entity block of the version 4 node section, whose header ends
    (after the last space) in the number of the records that follow, is read
    whole and every record is stored under its number, in the order of the
    file; a line without token among them, a blank line included, is not
    skipped but raises [IndexError]. *)
Theorem block_nodes_are_stored (header t : string) (lines rest : list string)
    (recs : list (Z * coords)) (nodes : gmap Z coords) (h : bool) (out : list string) :
  last (Py.split_sp header) = Some t ->
  Py.int t = Some (Z.of_nat (length lines)) ->
  Forall2 (fun line r => node_record line = Ok r) lines recs ->
  node_block nodes (mkIO (header :: lines ++ rest) h out)
  = (Ok (foldl (fun m r => <[r.1 := r.2]> m) nodes recs), mkIO rest h out)
  /\ forall blank : string,
       Py.split blank = [] ->
       block_node_line nodes (mkIO (blank :: rest) h out)
       = (Raise IndexError, mkIO rest h out).
Proof.
  intros Hlast Hint Hlines. split.
  - unfold node_block.
    run (readline_cons header _ h out).
    rewrite Hlast. simpl or_raise. unfold rbind, int. rewrite Hint. simpl or_raise.
    run (liftR_run _ _).
    unfold for_range. rewrite Nat2Z.id.
    exact (for_from_records block_node_line (fun line r => node_record line = Ok r)
             block_node_line_record lines recs 0 nodes rest h out Hlines).
  - intros blank Hblank.
    unfold block_node_line, bind, readline, liftR, node_record. simpl.
    rewrite Hblank. reflexivity.
Qed.

Lemma block_nodes_are_stored_witness :
  node_block ∅ (mkIO (text ["2 1 0 2"; "1 0 0 0"; "2 1 0 0"; "$EndNodes"]) true [])
  = (Ok (foldl (fun m r => <[r.1 := r.2]> m) ∅ two_node_records),
     mkIO (text ["$EndNodes"]) true [])
  /\ block_node_line ∅ (mkIO (text [""; "$EndNodes"]) true [])
     = (Raise IndexError, mkIO (text ["$EndNodes"]) true []).
Proof.
  split.
  - apply (proj1 (block_nodes_are_stored ("2 1 0 2" ++ Py.nl) ("2" ++ Py.nl)
                    two_node_lines (text ["$EndNodes"]) two_node_records ∅ true []
                    ltac:(vm_compute; reflexivity) ltac:(vm_compute; reflexivity)
                    ltac:(repeat (constructor; [vm_compute; reflexivity|]);
                          constructor))).
  - apply (proj2 (block_nodes_are_stored ("0" ++ Py.nl) ("0" ++ Py.nl)
                    [] (text ["$EndNodes"]) [] ∅ true []
                    ltac:(vm_compute; reflexivity) ltac:(vm_compute; reflexivity)
                    ltac:(constructor))).
    vm_compute. reflexivity.
Defined.

(** X20: a version 4 element line [num node...] in a block of a type that
    [ELEMENT_TYPES] has is stored under [num] with the type of the block,
    exactly the nodes of that type and neither physical nor geometrical
    entity; tokens after the nodes are ignored and nothing is printed. *)
Theorem block_element_record (line : string) (num elem_type k : Z)
    (elem_nodes : list Z) (elements : gmap Z element)
    (rest : list string) (h : bool) (out : list string) :
  Py.isspace line = false ->
  Forall2 (fun t z => Py.int t = Some z)
    (take (1 + length elem_nodes) (Py.split line)) (num :: elem_nodes) ->
  ELEMENT_TYPES elem_type = Some k ->
  length elem_nodes = Z.to_nat k ->
  block_element_line elem_type elements (mkIO (line :: rest) h out)
  = (Ok (<[num := mkElement elem_type None None elem_nodes]> elements),
     mkIO rest h out).
Proof.
  intros Hsp Htoks Hty Hlen.
  destruct (Py.split line) as [|sid toks] eqn:Hsplit;
    simpl in Htoks; [inversion Htoks|].
  apply Forall2_cons in Htoks as [Hid Htoks].
  unfold block_element_line, bind, readline, liftR, ret. simpl.
  rewrite Hsp, Hsplit. simpl. unfold int at 1. rewrite Hid. simpl.
  unfold read_elem_nodes. rewrite Hty. unfold liftR. rewrite <- Hlen.
  rewrite (read_ints_spec _ elem_nodes 1) by exact Htoks. reflexivity.
Qed.

Lemma block_element_record_witness :
  block_element_line 2 ∅ (mkIO (text ["7 1 2 3 and more"; "$EndElements"]) true [])
  = (Ok {[ 7 := mkElement 2 None None [1; 2; 3] ]},
     mkIO (text ["$EndElements"]) true []).
Proof.
  apply (block_element_record _ 7 2 3 [1; 2; 3]).
  - vm_compute. reflexivity.
  - each_token.
  - reflexivity.
  - reflexivity.
Defined.
